(** * SoloSafe: session store, request gateway and feature calls

    A shallow embedding of the two client scripts of the repository:

    - the main script ("complete rewrite with unified authentication"),
      which keeps a bearer token in [localStorage]: module [Unified];
    - [script.js] ("session-based auth"), which relies on the ambient
      session cookie: module [SessionBased].

    Browser state (localStorage, the address bar, pending timers, the
    requests handed to [fetch], the toasts shown) is one record, [World],
    threaded through a state-and-exception monad.  What the browser and
    the backend decide (JSON parsing, the reply to a request, the
    geolocation outcome, the clock) is a record [Env] the functions are
    parameterised by, so every general statement holds for every browser
    and every backend.  An [await] is a sequencing point: a rejected
    promise is a thrown exception, and no other event handler is
    interleaved between two steps of one call. *)

From stdpp Require Import gmap strings list fin_maps pretty.
From Stdlib Require Import ZArith Ascii.

Set Warnings "-register-all".
Local Open Scope string_scope.
Local Open Scope list_scope.
Local Open Scope Z_scope.

(** ** JavaScript values

    Numbers are the integers (every time value and every status code of
    the program is one); object keys are unordered, which is all the
    program observes of them. *)

Inductive value :=
  | VUndefined
  | VNull
  | VBool (b : bool)
  | VNum (n : Z)
  | VStr (s : string)
  | VArr (l : list value)
  | VObj (o : gmap string value).

(** ToBoolean *)
Definition truthy (v : value) : bool :=
  match v with
  | VUndefined | VNull => false
  | VBool b => b
  | VNum n => negb (n =? 0)
  | VStr s => negb (String.eqb s "")
  | VArr _ | VObj _ => true
  end.

Definition is_object (v : value) : bool :=
  match v with VObj _ => true | _ => false end.

(** [a || b] *)
Definition js_or (a b : value) : value := if truthy a then a else b.

(** Strict equality with a string literal: [v === 'lit']. *)
Definition strict_eq_str (v : value) (lit : string) : bool :=
  match v with VStr s => String.eqb s lit | _ => false end.

(** ToString, as a template literal applies it. *)
Fixpoint ToString (v : value) : string :=
  match v with
  | VUndefined => "undefined"
  | VNull => "null"
  | VBool true => "true"
  | VBool false => "false"
  | VNum n => pretty n
  | VStr s => s
  | VArr l =>
      String.concat ","
        (map (λ x, match x with VUndefined | VNull => "" | _ => ToString x end) l)
  | VObj _ => "[object Object]"
  end.

(** The own enumerable properties an object spread [{...v}] copies:
    those of an object, the indexed elements of an array, the indexed
    characters of a string, nothing for the other values. *)
Definition indexed {A} (f : A → value) (l : list A) : gmap string value :=
  list_to_map (imap (λ i x, (pretty (Z.of_nat i), f x)) l).

Definition spread (v : value) : gmap string value :=
  match v with
  | VObj o => o
  | VArr l => indexed id l
  | VStr s => indexed (λ c, VStr (String c EmptyString)) (String.list_ascii_of_string s)
  | _ => ∅
  end.

(** ** Exceptions and results *)

Inductive exn :=
  | SyntaxError                 (* JSON.parse, response.json() *)
  | TypeError                   (* property of null, call of a non-function *)
  | FetchFailed                 (* fetch rejected: transport failure *)
  | GeolocationPositionError    (* the error callback of getCurrentPosition *)
  | Error (message : string).   (* new Error(message) *)

Inductive result (A : Type) :=
  | Normal (a : A)
  | Throw (e : exn).
Arguments Normal {A} a.
Arguments Throw {A} e.

(** ** The browser state *)

Record FetchOptions := {
  opt_method : option string;
  opt_headers : option (gmap string string);
  opt_body : option string;
  opt_credentials : option string
}.

Definition no_options : FetchOptions :=
  {| opt_method := None; opt_headers := None; opt_body := None;
     opt_credentials := None |}.

Record Response := { status : Z; body : string }.

(** [response.ok] *)
Definition ok (r : Response) : bool := (200 <=? status r) && (status r <=? 299).

(** What a [setTimeout] callback of the program does when it fires. *)
Inductive callback :=
  | Navigate (href : string)            (* window.location.href = href *)
  | CloseNotification (title : string). (* notification.close() *)

Record World := {
  localStorage : gmap string string;
  location_search : list (string * string); (* the query of window.location *)
  toasts : list (string * string);          (* showToast(message, type) *)
  timeouts : list (callback * Z);           (* setTimeout(callback, delay) *)
  requests : list (string * FetchOptions);  (* fetch(url, options) *)
  notifications : list (string * string);   (* new Notification(title, {body}) *)
  currentLocation : value                   (* let currentLocation *)
}.

Definition with_localStorage (f : gmap string string → gmap string string)
    (w : World) : World :=
  {| localStorage := f (localStorage w); location_search := location_search w;
     toasts := toasts w; timeouts := timeouts w; requests := requests w;
     notifications := notifications w; currentLocation := currentLocation w |}.

Definition with_location_search (q : list (string * string)) (w : World) : World :=
  {| localStorage := localStorage w; location_search := q;
     toasts := toasts w; timeouts := timeouts w; requests := requests w;
     notifications := notifications w; currentLocation := currentLocation w |}.

Definition with_toast (t : string * string) (w : World) : World :=
  {| localStorage := localStorage w; location_search := location_search w;
     toasts := toasts w ++ [t]; timeouts := timeouts w; requests := requests w;
     notifications := notifications w; currentLocation := currentLocation w |}.

Definition with_timeout (t : callback * Z) (w : World) : World :=
  {| localStorage := localStorage w; location_search := location_search w;
     toasts := toasts w; timeouts := timeouts w ++ [t]; requests := requests w;
     notifications := notifications w; currentLocation := currentLocation w |}.

Definition with_request (r : string * FetchOptions) (w : World) : World :=
  {| localStorage := localStorage w; location_search := location_search w;
     toasts := toasts w; timeouts := timeouts w; requests := requests w ++ [r];
     notifications := notifications w; currentLocation := currentLocation w |}.

Definition with_notification (n : string * string) (w : World) : World :=
  {| localStorage := localStorage w; location_search := location_search w;
     toasts := toasts w; timeouts := timeouts w; requests := requests w;
     notifications := notifications w ++ [n]; currentLocation := currentLocation w |}.

Definition with_currentLocation (v : value) (w : World) : World :=
  {| localStorage := localStorage w; location_search := location_search w;
     toasts := toasts w; timeouts := timeouts w; requests := requests w;
     notifications := notifications w; currentLocation := v |}.

(** ** What the browser and the backend decide *)

Inductive Geolocation :=
  | GeoUnsupported                 (* navigator.geolocation is missing *)
  | GeoFails                       (* the error callback is invoked *)
  | GeoPosition (lat lng : value). (* the success callback is invoked *)

Inductive permission := PermGranted | PermDenied | PermDefault.

Record Env := {
  (* JSON.parse(text); None when it throws *)
  JSON_parse : string → option value;
  JSON_stringify : value → string;
  (* the reply to fetch(url, options); None when the transport fails *)
  fetch_reply : string → FetchOptions → option Response;
  geolocation : Geolocation;
  (* new Date().getTime() and Date.now() *)
  Date_now : Z;
  (* new Date().toISOString() *)
  Date_toISOString : string;
  (* new Date(v).getTime(); None for an invalid date *)
  Date_time : value → option Z;
  (* Notification.permission; None when window has no Notification *)
  Notification_permission : option permission
}.

(** ** The monad: state that survives a throw *)

Definition M (A : Type) : Type := World → result A * World.

#[export] Instance M_ret : MRet M := λ A a w, (Normal a, w).

#[export] Instance M_bind : MBind M := λ A B k c w,
  match c w with
  | (Normal a, w') => k a w'
  | (Throw e, w') => (Throw e, w')
  end.

Definition throw {A} (e : exn) : M A := λ w, (Throw e, w).

(** [try { c } catch (e) { h e }] *)
Definition try_catch {A} (c : M A) (h : exn → M A) : M A := λ w,
  match c w with
  | (Normal a, w') => (Normal a, w')
  | (Throw e, w') => h e w'
  end.

Definition lift {A} (r : result A) : M A := λ w, (r, w).

(** ** Built-ins the scripts call *)

(** Reading one of the property names the scripts read ([token], [user],
    [trips], [status], [startDate], [endDate], [name], [email], [lat],
    [lng], [message]): none of them is defined on a primitive, an array
    or [Object.prototype]. *)
Definition get (v : value) (k : string) : result value :=
  match v with
  | VUndefined | VNull => Throw TypeError
  | VObj o => Normal (default VUndefined (o !! k))
  | _ => Normal VUndefined
  end.

Definition localStorage_getItem (k : string) : M (option string) :=
  λ w, (Normal (localStorage w !! k), w).

Definition localStorage_setItem (k s : string) : M unit :=
  λ w, (Normal (), with_localStorage <[k:=s]> w).

Definition localStorage_removeItem (k : string) : M unit :=
  λ w, (Normal (), with_localStorage (delete k) w).

Definition setTimeout (cb : callback) (delay : Z) : M unit :=
  λ w, (Normal (), with_timeout (cb, delay) w).

(** [new URLSearchParams(window.location.search).get(k)] *)
Definition URLSearchParams_get (k : string) : M (option string) :=
  λ w, (Normal (snd <$> List.find (λ p, String.eqb (fst p) k) (location_search w)), w).

(** [window.history.replaceState({}, document.title, origin + pathname)]:
    the address bar loses its query; nothing is loaded. *)
Definition history_replaceState_clean : M unit :=
  λ w, (Normal (), with_location_search [] w).

Section Builtins.
Context (env : Env).

Definition JSON_parse_m (s : string) : M value :=
  lift (match JSON_parse env s with Some v => Normal v | None => Throw SyntaxError end).

(** [await fetch(url, options)] *)
Definition fetch (url : string) (options : FetchOptions) : M Response :=
  λ w, (match fetch_reply env url options with
        | Some r => Normal r
        | None => Throw FetchFailed
        end, with_request (url, options) w).

(** [fetch(url, options).catch(...)], not awaited *)
Definition fetch_and_forget (url : string) (options : FetchOptions) : M unit :=
  λ w, (Normal (), with_request (url, options) w).

(** [await response.json()] *)
Definition Response_json (r : Response) : M value := JSON_parse_m (body r).
End Builtins.

(** ** Code shared verbatim by the two scripts *)

Definition API_BASE_URL : string := "https://solosafe-backend.onrender.com/api".

Definition showToast (message type : string) : M unit :=
  λ w, (Normal (), with_toast (message, type) w).

Section Shared.
Context (env : Env).

Definition sendNotification (title body : string) : M unit :=
  match Notification_permission env with
  | None => mret ()
  | Some PermGranted =>
      (λ w, (Normal (), with_notification (title, body) w)) ;;
      setTimeout (CloseNotification title) 5000
  | Some _ => mret ()
  end.

(** The promise of [getCurrentLocation()]; the main script also passes
    [{enableHighAccuracy, timeout: 10000, maximumAge: 0}], which only
    decides when the error callback fires. *)
Definition getCurrentLocation : M value :=
  match geolocation env with
  | GeoUnsupported => throw (Error "Geolocation not supported")
  | GeoFails => throw GeolocationPositionError
  | GeoPosition lat lng =>
      let loc := VObj (<["lat":=lat]> (<["lng":=lng]>
                        (<["timestamp":=VNum (Date_now env)]> ∅))) in
      (λ w, (Normal loc, with_currentLocation loc w))
  end.

(** [location ? { lat: location.lat, lng: location.lng } : null] *)
Definition location_field (location : value) : M value :=
  if truthy location then
    lat ← lift (get location "lat");
    lng ← lift (get location "lng");
    mret (VObj (<["lat":=lat]> (<["lng":=lng]> ∅)))
  else mret VNull.
End Shared.

(** ** Small helpers for the control flow of the scripts *)

#[export] Instance result_ret : MRet result := λ A a, Normal a.

#[export] Instance result_bind : MBind result := λ A B k r,
  match r with
  | Normal a => k a
  | Throw e => Throw e
  end.

(** ToBoolean of what [localStorage.getItem] returned (a string or null) *)
Definition present (item : option string) : bool :=
  match item with
  | Some s => negb (String.eqb s "")
  | None => false
  end.

(** [item === 'lit'] *)
Definition item_is (item : option string) (lit : string) : bool :=
  match item with
  | Some s => String.eqb s lit
  | None => false
  end.

(** [item || null] *)
Definition item_or_null (item : option string) : value :=
  if present item then VStr (default "" item) else VNull.

(** [trips.find(callback)]; a callback that throws ends the search. *)
Fixpoint Array_find (callback : value → result bool) (l : list value) : result value :=
  match l with
  | [] => Normal VUndefined
  | t :: l' =>
      match callback t with
      | Throw e => Throw e
      | Normal true => Normal t
      | Normal false => Array_find callback l'
      end
  end.

(** [a <= b] on two Date objects: false as soon as one is invalid *)
Definition Date_le (a b : option Z) : bool :=
  match a, b with
  | Some x, Some y => x <=? y
  | _, _ => false
  end.

(** ** Further built-ins, and the dark-mode code the two scripts share *)

(** [JSON.stringify(v)] as the [body] of a request: [undefined] gives
    [undefined], that is no body. *)
Definition stringify_body (env : Env) (v : value) : option string :=
  match v with
  | VUndefined => None
  | _ => Some (JSON_stringify env v)
  end.

(** [a || b] on two strings *)
Definition string_or (a b : string) : string :=
  if String.eqb a "" then b else a.

(** [err.message]: the text given to [new Error], and for an exception
    of the engine's own whatever text the engine gives it. *)
Definition err_message (engine_message : exn → string) (err : exn) : string :=
  match err with
  | Error message => message
  | _ => engine_message err
  end.

(** [s.split('@')[0]] *)
Fixpoint before_at (s : string) : string :=
  match s with
  | EmptyString => EmptyString
  | String c s' => if Ascii.eqb c "@" then EmptyString else String c (before_at s')
  end.

(** [v.split('@')[0]] on whatever [v] is: only a string has the method. *)
Definition split_at_first (v : value) : result value :=
  match v with
  | VStr s => Normal (VStr (before_at s))
  | _ => Throw TypeError
  end.

(** [s.includes(needle)] *)
Fixpoint includes (s needle : string) : bool :=
  String.prefix needle s
  || match s with
     | EmptyString => false
     | String _ s' => includes s' needle
     end.

(** [protectedPages.some(page => currentPage.includes(page))] *)
Definition protectedPages : list string :=
  ["dashboard"; "create-trip"; "active-trip"; "emergency-contacts"; "settings"].

Definition isProtectedPage (currentPage : string) : bool :=
  existsb (λ page, includes currentPage page) protectedPages.

(** What the scripts see and change of the document: the [dark-mode]
    class of the body, and the elements that have an id, each with the
    text or source last assigned to it. *)
Record Document := {
  dark_mode : bool;
  elements : gmap string value
}.

(** [document.getElementById(id)] found an element; [innerText] or
    [src] is assigned on one. *)
Definition has_element (id : string) (doc : Document) : bool :=
  bool_decide (is_Some (elements doc !! id)).

Definition assign (id : string) (v : value) (doc : Document) : Document :=
  {| dark_mode := dark_mode doc; elements := <[id:=v]> (elements doc) |}.

Definition initializeDarkMode (doc : Document) : M Document :=
  item ← localStorage_getItem "solosafe_dark_mode";
  mret (if item_is item "true"
        then {| dark_mode := true; elements := elements doc |}
        else doc).

Definition toggleDarkMode (doc : Document) : M Document :=
  let isDark := negb (dark_mode doc) in
  localStorage_setItem "solosafe_dark_mode" (if isDark then "true" else "false") ;;
  showToast ((if isDark then "Dark" else "Light") +:+ " mode enabled") "info" ;;
  mret {| dark_mode := isDark; elements := elements doc |}.

(** The file handed to [uploadProfilePicture]: its type and size, and
    what [FileReader.readAsDataURL] yields ([None] when it fails). *)
Record File := {
  file_type : string;
  file_size : Z;
  file_dataURL : option string
}.

(** The location watch: [watchId], the watches the browser keeps
    running, and the id it gives to the next one. *)
Record Tracking := {
  watchId : option nat;
  running : gset nat;
  next_watch : nat
}.

Section Tracking.
Context (env : Env).

Definition startLocationTracking (tracking : Tracking) : M Tracking :=
  match geolocation env with
  | GeoUnsupported =>
      showToast "Geolocation not supported by your browser" "error" ;;
      mret tracking
  | _ =>
      showToast "Location tracking enabled" "success" ;;
      mret {| watchId := Some (next_watch tracking);
              running := {[next_watch tracking]} ∪ running tracking;
              next_watch := S (next_watch tracking) |}
  end.

(** The two callbacks handed to [watchPosition] *)
Definition watch_position (latitude longitude accuracy : value) : M unit :=
  λ w, (Normal (),
        with_currentLocation
          (VObj (<["lat":=latitude]>
                 (<["lng":=longitude]>
                  (<["accuracy":=accuracy]>
                   (<["timestamp":=VNum (Date_now env)]> ∅))))) w).

Definition watch_error : M unit := showToast "Failed to get location" "error".
End Tracking.

Definition stopLocationTracking (tracking : Tracking) : M Tracking :=
  match watchId tracking with
  | Some id =>
      showToast "Location tracking disabled" "info" ;;
      mret {| watchId := None;
              running := running tracking ∖ {[id]};
              next_watch := next_watch tracking |}
  | None => mret tracking
  end.

(** * The main script: bearer token kept in localStorage *)

Module Unified.
Section Code.
Context (env : Env).

Definition getAuthToken : M value :=
  userStr ← localStorage_getItem "solosafe_user";
  fromUser ←
    (if present userStr && negb (item_is userStr "undefined")
                        && negb (item_is userStr "null")
     then try_catch
            (userData ← JSON_parse_m env (default "" userStr);
             token ← lift (get userData "token");
             mret (if truthy token then Some token else None))
            (λ _, mret None)
     else mret None);
  match fromUser with
  | Some token => mret token
  | None =>
      googleToken ← localStorage_getItem "solosafe_token";
      mret (item_or_null googleToken)
  end.

Definition getCurrentUser : M value :=
  userStr ← localStorage_getItem "solosafe_user";
  if negb (present userStr) || item_is userStr "undefined" || item_is userStr "null"
  then mret VNull
  else
    try_catch
      (data ← JSON_parse_m env (default "" userStr);
       user ← lift (get data "user");
       if truthy user then
         token ← lift (get data "token");
         mret (VObj (<["token":=token]> (spread user)))
       else mret data)
      (λ _,
         localStorage_removeItem "solosafe_user" ;;
         mret VNull).

Definition fetchUserProfile : M value :=
  try_catch
    (token ← getAuthToken;
     if negb (truthy token) then throw (Error "No authentication token found")
     else
       response ← fetch env (API_BASE_URL +:+ "/auth/profile")
         {| opt_method := Some "GET";
            opt_headers := Some (<["Content-Type":="application/json"]>
                                 (<["Authorization":="Bearer " +:+ ToString token]> ∅));
            opt_body := None; opt_credentials := None |};
       if negb (ok response) then throw (Error "Failed to fetch user profile")
       else
         userData ← Response_json env response;
         let userToStore := VObj (<["token":=token]> (spread userData)) in
         localStorage_setItem "solosafe_user" (JSON_stringify env userToStore) ;;
         mret userToStore)
    (λ err, throw err).

Definition handleGoogleCallback : M bool :=
  token ← URLSearchParams_get "token";
  if negb (present token) then mret false
  else
    try_catch
      (localStorage_setItem "solosafe_token" (default "" token) ;;
       user ← fetchUserProfile;
       localStorage_removeItem "solosafe_token" ;;
       history_replaceState_clean ;;
       name ← lift (get user "name");
       email ← lift (get user "email");
       showToast ("Welcome " +:+ ToString (js_or name email) +:+ "!") "success" ;;
       mret true)
      (λ _,
         showToast "Authentication failed. Please try again." "error" ;;
         localStorage_removeItem "solosafe_token" ;;
         localStorage_removeItem "solosafe_user" ;;
         setTimeout (Navigate "login.html") 20000 ;;
         mret false).

Definition updateUserProfile (updates : value) : M value :=
  user ← getCurrentUser;
  if negb (truthy user) then mret VNull
  else
    let updatedUser := VObj (spread updates ∪ spread user) in
    localStorage_setItem "solosafe_user" (JSON_stringify env updatedUser) ;;
    mret updatedUser.

Definition logout : M unit :=
  token ← getAuthToken;
  (if truthy token then
     fetch_and_forget (API_BASE_URL +:+ "/auth/logout")
       {| opt_method := Some "POST";
          opt_headers := Some {["Authorization" := "Bearer " +:+ ToString token]};
          opt_body := None; opt_credentials := None |}
   else mret ()) ;;
  localStorage_removeItem "solosafe_user" ;;
  localStorage_removeItem "solosafe_token" ;;
  localStorage_removeItem "solosafe_trips" ;;
  localStorage_removeItem "solosafe_temp_signup" ;;
  showToast "Logged out successfully" "success" ;;
  setTimeout (Navigate "index.html") 1000.

(** [{ ...defaultOptions, ...options }]: a [headers] entry of [options]
    replaces the default headers it was spread into. *)
Definition mergedOptions (token : value) (options : FetchOptions) : FetchOptions :=
  {| opt_method := opt_method options;
     opt_headers :=
       Some (default
               (default ∅ (opt_headers options) ∪
                <["Content-Type":="application/json"]>
                  (<["Authorization":="Bearer " +:+ ToString token]> ∅))
               (opt_headers options));
     opt_body := opt_body options;
     opt_credentials := opt_credentials options |}.

Definition authenticatedFetch (url : string) (options : FetchOptions)
    : M (option Response) :=
  token ← getAuthToken;
  if negb (truthy token) then
    showToast "Please login first" "warning" ;;
    setTimeout (Navigate "login.html") 1000 ;;
    mret None
  else
    try_catch
      (response ← fetch env url (mergedOptions token options);
       if status response =? 401 then
         showToast "Session expired. Please login again." "warning" ;;
         localStorage_removeItem "solosafe_user" ;;
         localStorage_removeItem "solosafe_token" ;;
         setTimeout (Navigate "login.html") 1500 ;;
         mret None
       else mret (Some response))
      (λ error,
         showToast "Network error. Please try again." "error" ;;
         throw error).

Definition getAllTrips : M (list value) :=
  try_catch
    (response ← authenticatedFetch (API_BASE_URL +:+ "/trips") no_options;
     match response with
     | None => mret []
     | Some response =>
         trips ← Response_json env response;
         match trips with
         | VArr l =>
             if ok response then
               localStorage_setItem "solosafe_trips" (JSON_stringify env trips) ;;
               mret l
             else mret []
         | _ => mret []
         end
     end)
    (λ _, mret []).

(** The callback of [trips.find] in [getCurrentTrip] *)
Definition started_not_ended_not_completed (t : value) : result bool :=
  startDate ← get t "startDate";
  endDate ← get t "endDate";
  status ← get t "status";
  let now := Some (Date_now env) in
  mret (Date_le (Date_time env startDate) now
        && Date_le now (Date_time env endDate)
        && negb (strict_eq_str status "Completed")).

Definition getCurrentTrip : M value :=
  try_catch
    (trips ← getAllTrips;
     found ← lift (Array_find started_not_ended_not_completed trips);
     mret (js_or found VNull))
    (λ _, mret VNull).

Definition checkIn (tripId : value) : M unit :=
  try_catch
    (location ← try_catch (getCurrentLocation env) (λ _, mret VNull);
     loc ← location_field location;
     response ← authenticatedFetch
       (API_BASE_URL +:+ "/trips/" +:+ ToString tripId +:+ "/safe")
       {| opt_method := Some "PUT"; opt_headers := None;
          opt_body := Some (JSON_stringify env
            (VObj (<["location":=loc]>
                   (<["timestamp":=VStr (Date_toISOString env)]> ∅))));
          opt_credentials := None |};
     match response with
     | None => mret ()
     | Some response =>
         data ← Response_json env response;
         if ok response then
           showToast "Check-in successful! ✅" "success" ;;
           sendNotification env "Check-in Confirmed" "You have successfully checked in"
         else
           message ← lift (get data "message");
           throw (Error (ToString (js_or message (VStr "Check-in failed"))))
     end)
    (λ _, showToast "Check-in failed. Please try again." "error").

Definition triggerSOS (tripId : value) : M unit :=
  try_catch
    (location ← try_catch (getCurrentLocation env) (λ _, mret VNull);
     loc ← location_field location;
     response ← authenticatedFetch (API_BASE_URL +:+ "/alerts/sos")
       {| opt_method := Some "POST"; opt_headers := None;
          opt_body := Some (JSON_stringify env
            (VObj (<["tripId":=tripId]>
                   (<["location":=loc]>
                    (<["timestamp":=VStr (Date_toISOString env)]> ∅)))));
          opt_credentials := None |};
     match response with
     | None => mret ()
     | Some response =>
         if ok response then
           showToast "🚨 SOS alert sent to all emergency contacts" "warning" ;;
           sendNotification env "SOS Alert Triggered" "Emergency contacts have been notified"
         else mret ()
     end)
    (λ _, showToast "Failed to send SOS alert" "error").

(** *** The rest of the main script *)

Context (engine_message : exn → string).

Definition getWelcomeMessage : M string :=
  user ← getCurrentUser;
  if negb (truthy user) then mret "Welcome!"
  else
    name ← lift (get user "name");
    displayName ←
      (if truthy name then mret name
       else
         username ← lift (get user "username");
         if truthy username then mret username
         else
           email ← lift (get user "email");
           lift (split_at_first email));
    mret ("Welcome back, " +:+ ToString displayName +:+ "!").

Definition createTrip (tripData : value) : M value :=
  try_catch
    (response ← authenticatedFetch (API_BASE_URL +:+ "/trips")
       {| opt_method := Some "POST"; opt_headers := None;
          opt_body := stringify_body env tripData; opt_credentials := None |};
     match response with
     | None => mret VNull
     | Some response =>
         data ← Response_json env response;
         trip ← (if ok response then lift (get data "trip") else mret VUndefined);
         if ok response && truthy trip then
           showToast "Trip created successfully!" "success" ;;
           mret trip
         else
           message ← lift (get data "message");
           throw (Error (ToString (js_or message (VStr "Failed to create trip"))))
     end)
    (λ err,
       showToast (string_or (err_message engine_message err) "Failed to create trip")
         "error" ;;
       mret VNull).

Definition updateTrip (tripId updates : value) : M value :=
  try_catch
    (response ← authenticatedFetch (API_BASE_URL +:+ "/trips/" +:+ ToString tripId)
       {| opt_method := Some "PUT"; opt_headers := None;
          opt_body := stringify_body env updates; opt_credentials := None |};
     match response with
     | None => mret VNull
     | Some response =>
         data ← Response_json env response;
         trip ← (if ok response then lift (get data "trip") else mret VUndefined);
         if ok response && truthy trip then mret trip else mret VNull
     end)
    (λ _, mret VNull).

Definition endTrip (tripId : value) : M value :=
  try_catch
    (response ← authenticatedFetch
       (API_BASE_URL +:+ "/trips/" +:+ ToString tripId +:+ "/end")
       {| opt_method := Some "PUT"; opt_headers := None; opt_body := None;
          opt_credentials := None |};
     match response with
     | None => mret VNull
     | Some response =>
         data ← Response_json env response;
         trip ← (if ok response then lift (get data "trip") else mret VUndefined);
         if ok response && truthy trip then
           showToast "Trip completed successfully" "success" ;;
           sendNotification env "Trip Completed" "Your trip has ended safely" ;;
           mret trip
         else mret VNull
     end)
    (λ _,
       showToast "Failed to end trip" "error" ;;
       mret VNull).

Definition addContact (tripId contact : value) : M value :=
  try_catch
    (response ← authenticatedFetch
       (API_BASE_URL +:+ "/trips/" +:+ ToString tripId +:+ "/contacts")
       {| opt_method := Some "PUT"; opt_headers := None;
          opt_body := stringify_body env contact; opt_credentials := None |};
     match response with
     | None => mret VNull
     | Some response =>
         data ← Response_json env response;
         if ok response then
           showToast "Emergency contact added" "success" ;;
           name ← lift (get contact "name");
           sendNotification env "Contact Added"
             (ToString name +:+ " added as emergency contact") ;;
           lift (get data "trip")
         else mret VNull
     end)
    (λ _,
       showToast "Failed to add contact" "error" ;;
       mret VNull).

Definition removeContact (tripId contactId : value) : M unit :=
  try_catch
    (response ← authenticatedFetch
       (API_BASE_URL +:+ "/trips/" +:+ ToString tripId +:+ "/contacts/"
          +:+ ToString contactId)
       {| opt_method := Some "DELETE"; opt_headers := None; opt_body := None;
          opt_credentials := None |};
     match response with
     | None => mret ()
     | Some response =>
         if ok response then showToast "Emergency contact removed" "info"
         else mret ()
     end)
    (λ _, showToast "Failed to remove contact" "error").

Definition changePassword (oldPassword newPassword : value) : M bool :=
  try_catch
    (response ← authenticatedFetch (API_BASE_URL +:+ "/auth/change-password")
       {| opt_method := Some "PUT"; opt_headers := None;
          opt_body := Some (JSON_stringify env
            (VObj (<["oldPassword":=oldPassword]>
                   (<["newPassword":=newPassword]> ∅))));
          opt_credentials := None |};
     match response with
     | None => mret false
     | Some response =>
         data ← Response_json env response;
         if ok response then
           showToast "Password changed successfully!" "success" ;;
           mret true
         else
           message ← lift (get data "message");
           showToast (ToString (js_or message (VStr "Failed to change password")))
             "error" ;;
           mret false
     end)
    (λ _,
       showToast "Failed to change password" "error" ;;
       mret false).

(** The promise of [uploadProfilePicture(file)] *)
Definition uploadProfilePicture (file : File) : M string :=
  if negb (String.prefix "image/" (file_type file)) then
    throw (Error "Please select an image file")
  else if 5 * 1024 * 1024 <? file_size file then
    throw (Error "Image size must be less than 5MB")
  else
    match file_dataURL file with
    | Some dataURL =>
        updateUserProfile (VObj {["profilePicture" := VStr dataURL]}) ;;
        showToast "Profile picture updated!" "success" ;;
        mret dataURL
    | None => throw (Error "Failed to read file")
    end.

Definition updateUIWithUserData (user : value) (doc : Document) : M Document :=
  doc ← (if has_element "welcomeMessage" doc then
           message ← getWelcomeMessage;
           mret (assign "welcomeMessage" (VStr message) doc)
         else mret doc);
  doc ← (if has_element "headerUserName" doc then
           name ← lift (get user "name");
           username ← lift (get user "username");
           mret (assign "headerUserName"
                   (js_or (js_or name username) (VStr "User")) doc)
         else mret doc);
  doc ← (if has_element "headerUserEmail" doc then
           email ← lift (get user "email");
           mret (assign "headerUserEmail" email doc)
         else mret doc);
  if has_element "headerProfilePic" doc then
    profilePicture ← lift (get user "profilePicture");
    mret (if truthy profilePicture
          then assign "headerProfilePic" profilePicture doc
          else doc)
  else mret doc.

(** The [DOMContentLoaded] handler, on the page at [currentPage] *)
Definition DOMContentLoaded (currentPage : string) (doc : Document) : M Document :=
  doc ← initializeDarkMode doc;
  isGoogleLogin ← handleGoogleCallback;
  if isProtectedPage currentPage then
    user ← getCurrentUser;
    if negb (truthy user) then
      showToast "Please login first" "warning" ;;
      setTimeout (Navigate "login.html") 1000 ;;
      mret doc
    else updateUIWithUserData user doc
  else mret doc.
End Code.
End Unified.

(** * script.js: the session cookie authenticates, nothing else is stored *)

Module SessionBased.
Section Code.
Context (env : Env).

Definition mergedOptions (options : FetchOptions) : FetchOptions :=
  {| opt_method := opt_method options;
     opt_headers :=
       Some (default
               (default ∅ (opt_headers options) ∪
                <["Content-Type":="application/json"]> ∅)
               (opt_headers options));
     opt_body := opt_body options;
     opt_credentials := opt_credentials options |}.

Definition authenticatedFetch (url : string) (options : FetchOptions)
    : M (option Response) :=
  try_catch
    (response ← fetch env url (mergedOptions options);
     if status response =? 401 then
       showToast "Session expired. Please login again." "warning" ;;
       localStorage_removeItem "solosafe_user" ;;
       setTimeout (Navigate "login.html") 1500 ;;
       mret None
     else mret (Some response))
    (λ error,
       showToast "Network error. Please try again." "error" ;;
       throw error).

Definition getCurrentUser : M value :=
  userStr ← localStorage_getItem "solosafe_user";
  if negb (present userStr) || item_is userStr "undefined" || item_is userStr "null"
  then mret VNull
  else
    try_catch
      (JSON_parse_m env (default "" userStr))
      (λ _,
         localStorage_removeItem "solosafe_user" ;;
         mret VNull).

Definition updateUserProfile (updates : value) : M value :=
  user ← getCurrentUser;
  if negb (truthy user) then mret VNull
  else
    let updatedUser := VObj (spread updates ∪ spread user) in
    localStorage_setItem "solosafe_user" (JSON_stringify env updatedUser) ;;
    mret updatedUser.

Definition logout : M unit :=
  fetch_and_forget "https://solosafe-backend.onrender.com/api/auth/logout"
    {| opt_method := Some "POST"; opt_headers := None; opt_body := None;
       opt_credentials := Some "include" |} ;;
  localStorage_removeItem "solosafe_user" ;;
  localStorage_removeItem "solosafe_trips" ;;
  localStorage_removeItem "solosafe_temp_signup" ;;
  showToast "Logged out successfully" "success" ;;
  setTimeout (Navigate "index.html") 1000.

(** The callback of [data.trips.find] in [getCurrentTrip] *)
Definition status_is_active (t : value) : result bool :=
  status ← get t "status";
  mret (strict_eq_str status "active").

(** [trips.find(callback)] on whatever [data.trips] is: only an array
    has the method. *)
Definition find_method (trips : value) (callback : value → result bool)
    : result value :=
  match trips with
  | VArr l => Array_find callback l
  | _ => Throw TypeError
  end.

Definition getCurrentTrip : M value :=
  try_catch
    (response ← authenticatedFetch "https://solosafe-backend.onrender.com/api/trips"
                  no_options;
     match response with
     | None => mret VNull
     | Some response =>
         data ← Response_json env response;
         if ok response then
           trips ← lift (get data "trips");
           if truthy trips then
             found ← lift (find_method trips status_is_active);
             mret (js_or found VNull)
           else mret VNull
         else mret VNull
     end)
    (λ _, mret VNull).

Definition checkIn (tripId : value) : M unit :=
  try_catch
    (location ← try_catch (getCurrentLocation env) (λ _, mret VNull);
     loc ← location_field location;
     response ← authenticatedFetch
       ("https://solosafe-backend.onrender.com/api/trips/" +:+ ToString tripId +:+ "/safe")
       {| opt_method := Some "PUT"; opt_headers := None;
          opt_body := Some (JSON_stringify env
            (VObj (<["location":=loc]>
                   (<["timestamp":=VStr (Date_toISOString env)]> ∅))));
          opt_credentials := None |};
     match response with
     | None => mret ()
     | Some response =>
         data ← Response_json env response;
         if ok response then
           showToast "Check-in successful! ✅" "success" ;;
           sendNotification env "Check-in Confirmed" "You have successfully checked in"
         else
           message ← lift (get data "message");
           throw (Error (ToString (js_or message (VStr "Check-in failed"))))
     end)
    (λ _, showToast "Check-in failed. Please try again." "error").

Definition triggerSOS (tripId : value) : M unit :=
  try_catch
    (location ← try_catch (getCurrentLocation env) (λ _, mret VNull);
     loc ← location_field location;
     response ← authenticatedFetch "https://solosafe-backend.onrender.com/api/alerts/sos"
       {| opt_method := Some "POST"; opt_headers := None;
          opt_body := Some (JSON_stringify env
            (VObj (<["tripId":=tripId]>
                   (<["location":=loc]>
                    (<["timestamp":=VStr (Date_toISOString env)]> ∅)))));
          opt_credentials := None |};
     match response with
     | None => mret ()
     | Some response =>
         if ok response then
           showToast "🚨 SOS alert sent to all emergency contacts" "warning" ;;
           sendNotification env "SOS Alert Triggered" "Emergency contacts have been notified"
         else mret ()
     end)
    (λ _, showToast "Failed to send SOS alert" "error").

(** *** The rest of script.js *)

Context (engine_message : exn → string).

Definition getWelcomeMessage : M string :=
  item ← localStorage_getItem "solosafe_user";
  data ← JSON_parse_m env (default "null" item);
  user ← lift (get data "user");
  name ← lift (get user "name");
  shown ←
    (if truthy name then mret name
     else
       permission ← lift (get data "requestNotificationPermission");
       lift (get permission "email"));
  mret ("Welcome back, " +:+ ToString shown +:+ "!").

Definition createTrip (tripData : value) : M value :=
  try_catch
    (response ← authenticatedFetch "https://solosafe-backend.onrender.com/api/trips"
       {| opt_method := Some "POST"; opt_headers := None;
          opt_body := stringify_body env tripData; opt_credentials := None |};
     match response with
     | None => mret VNull
     | Some response =>
         data ← Response_json env response;
         trip ← (if ok response then lift (get data "trip") else mret VUndefined);
         if ok response && truthy trip then
           showToast "Trip created successfully!" "success" ;;
           mret trip
         else
           message ← lift (get data "message");
           throw (Error (ToString (js_or message (VStr "Failed to create trip"))))
     end)
    (λ err,
       showToast (string_or (err_message engine_message err) "Failed to create trip")
         "error" ;;
       mret VNull).

Definition updateTrip (tripId updates : value) : M value :=
  try_catch
    (response ← authenticatedFetch
       ("https://solosafe-backend.onrender.com/api/trips/" +:+ ToString tripId)
       {| opt_method := Some "PUT"; opt_headers := None;
          opt_body := stringify_body env updates; opt_credentials := None |};
     match response with
     | None => mret VNull
     | Some response =>
         data ← Response_json env response;
         trip ← (if ok response then lift (get data "trip") else mret VUndefined);
         if ok response && truthy trip then mret trip else mret VNull
     end)
    (λ _, mret VNull).

Definition endTrip (tripId : value) : M value :=
  try_catch
    (response ← authenticatedFetch
       ("https://solosafe-backend.onrender.com/api/trips/" +:+ ToString tripId
          +:+ "/end")
       {| opt_method := Some "PUT"; opt_headers := None; opt_body := None;
          opt_credentials := None |};
     match response with
     | None => mret VNull
     | Some response =>
         data ← Response_json env response;
         trip ← (if ok response then lift (get data "trip") else mret VUndefined);
         if ok response && truthy trip then
           showToast "Trip completed successfully" "success" ;;
           sendNotification env "Trip Completed" "Your trip has ended" ;;
           mret trip
         else mret VNull
     end)
    (λ _,
       showToast "Failed to end trip" "error" ;;
       mret VNull).

Definition addContact (tripId contact : value) : M value :=
  try_catch
    (response ← authenticatedFetch
       ("https://solosafe-backend.onrender.com/api/trips/" +:+ ToString tripId
          +:+ "/contacts")
       {| opt_method := Some "PUT"; opt_headers := None;
          opt_body := stringify_body env contact; opt_credentials := None |};
     match response with
     | None => mret VNull
     | Some response =>
         data ← Response_json env response;
         if ok response then
           showToast "Emergency contact added" "success" ;;
           name ← lift (get contact "name");
           sendNotification env "Contact Added"
             (ToString name +:+ " added as emergency contact") ;;
           lift (get data "trip")
         else mret VNull
     end)
    (λ _,
       showToast "Failed to add contact" "error" ;;
       mret VNull).

Definition removeContact (tripId contactId : value) : M unit :=
  try_catch
    (response ← authenticatedFetch
       ("https://solosafe-backend.onrender.com/api/trips/" +:+ ToString tripId
          +:+ "/contacts/" +:+ ToString contactId)
       {| opt_method := Some "DELETE"; opt_headers := None; opt_body := None;
          opt_credentials := None |};
     match response with
     | None => mret ()
     | Some response =>
         if ok response then showToast "Emergency contact removed" "info"
         else mret ()
     end)
    (λ _, showToast "Failed to remove contact" "error").

Definition changePassword (oldPassword newPassword : value) : M bool :=
  try_catch
    (response ← authenticatedFetch
       "https://solosafe-backend.onrender.com/api/auth/change-password"
       {| opt_method := Some "PUT"; opt_headers := None;
          opt_body := Some (JSON_stringify env
            (VObj (<["oldPassword":=oldPassword]>
                   (<["newPassword":=newPassword]> ∅))));
          opt_credentials := None |};
     match response with
     | None => mret false
     | Some response =>
         data ← Response_json env response;
         if ok response then
           showToast "Password changed successfully!" "success" ;;
           mret true
         else
           message ← lift (get data "message");
           showToast (ToString (js_or message (VStr "Failed to change password")))
             "error" ;;
           mret false
     end)
    (λ _,
       showToast "Failed to change password" "error" ;;
       mret false).

(** The promise of [uploadProfilePicture(file)]: this script checks
    neither the type nor the size. *)
Definition uploadProfilePicture (file : File) : M string :=
  match file_dataURL file with
  | Some dataURL =>
      updateUserProfile (VObj {["profilePicture" := VStr dataURL]}) ;;
      showToast "Profile picture updated!" "success" ;;
      mret dataURL
  | None => throw (Error "Failed to read file")
  end.

(** The [DOMContentLoaded] handler, on the page at [currentPage] *)
Definition DOMContentLoaded (currentPage : string) (doc : Document) : M Document :=
  doc ← initializeDarkMode doc;
  (if isProtectedPage currentPage then
     user ← getCurrentUser;
     if negb (truthy user) then
       showToast "Please login first" "warning" ;;
       setTimeout (Navigate "login.html") 1000
     else mret ()
   else mret ()) ;;
  mret doc.
End Code.
End SessionBased.

(** * A reference browser

    Concrete built-ins on which the scripts can be run: a JSON reader and
    writer for the fragment without fractions, exponents and [\u]
    escapes, and a clock in which a date is given as epoch milliseconds.
    The general theorems below do not depend on it; it provides the
    concrete runs. *)

Module Reference.

Definition is_ws (c : ascii) : bool :=
  let n := nat_of_ascii c in
  (n =? 32)%nat || (n =? 9)%nat || (n =? 10)%nat || (n =? 13)%nat.

Fixpoint skip_ws (cs : list ascii) : list ascii :=
  match cs with
  | c :: cs' => if is_ws c then skip_ws cs' else cs
  | [] => []
  end.

Fixpoint strip_prefix (p cs : list ascii) : option (list ascii) :=
  match p, cs with
  | [], _ => Some cs
  | a :: p', c :: cs' => if Ascii.eqb a c then strip_prefix p' cs' else None
  | _ :: _, [] => None
  end.

Definition digit (c : ascii) : option Z :=
  let n := Z.of_nat (nat_of_ascii c) in
  if (48 <=? n) && (n <=? 57) then Some (n - 48) else None.

Fixpoint digits (acc : Z) (cs : list ascii) : Z * list ascii :=
  match cs with
  | c :: cs' =>
      match digit c with
      | Some d => digits (10 * acc + d) cs'
      | None => (acc, cs)
      end
  | [] => (acc, [])
  end.

(** [0] or a non-empty run of digits not starting with [0]; a fraction
    or an exponent after it is outside the fragment. *)
Definition parse_int (cs : list ascii) : option (Z * list ascii) :=
  match cs with
  | c :: cs' =>
      match digit c with
      | Some d =>
          let '(n, rest) := if d =? 0 then (0, cs') else digits d cs' in
          match rest with
          | c' :: _ =>
              if Ascii.eqb c' "." || Ascii.eqb c' "e" || Ascii.eqb c' "E"
              then None else Some (n, rest)
          | [] => Some (n, rest)
          end
      | None => None
      end
  | [] => None
  end.

Definition dquote : ascii := ascii_of_nat 34.

Definition unescape (c : ascii) : option ascii :=
  if Ascii.eqb c dquote then Some dquote
  else if Ascii.eqb c "\" then Some "\"%char
  else if Ascii.eqb c "/" then Some "/"%char
  else if Ascii.eqb c "b" then Some (ascii_of_nat 8)
  else if Ascii.eqb c "f" then Some (ascii_of_nat 12)
  else if Ascii.eqb c "n" then Some (ascii_of_nat 10)
  else if Ascii.eqb c "r" then Some (ascii_of_nat 13)
  else if Ascii.eqb c "t" then Some (ascii_of_nat 9)
  else None.

(** The characters of a string literal after its opening quote. *)
Fixpoint parse_chars (cs : list ascii) : option (string * list ascii) :=
  match cs with
  | [] => None
  | c :: rest =>
      if Ascii.eqb c dquote then Some (EmptyString, rest)
      else if Ascii.eqb c "\" then
        match rest with
        | e :: rest' =>
            match unescape e, parse_chars rest' with
            | Some c', Some (s, rest'') => Some (String c' s, rest'')
            | _, _ => None
            end
        | [] => None
        end
      else if (nat_of_ascii c <? 32)%nat then None
      else
        match parse_chars rest with
        | Some (s, rest') => Some (String c s, rest')
        | None => None
        end
  end.

Definition starts (c : ascii) (cs : list ascii) : option (list ascii) :=
  match cs with
  | c' :: rest => if Ascii.eqb c c' then Some rest else None
  | [] => None
  end.

Fixpoint parse_value (fuel : nat) (cs : list ascii) : option (value * list ascii) :=
  match fuel with
  | O => None
  | S fuel =>
      let cs := skip_ws cs in
      if strip_prefix (String.list_ascii_of_string "null") cs is Some rest
      then Some (VNull, rest)
      else if strip_prefix (String.list_ascii_of_string "true") cs is Some rest
      then Some (VBool true, rest)
      else if strip_prefix (String.list_ascii_of_string "false") cs is Some rest
      then Some (VBool false, rest)
      else if starts dquote cs is Some rest then
        '(s, rest) ← parse_chars rest; Some (VStr s, rest)
      else if starts "[" cs is Some rest then
        if starts "]" (skip_ws rest) is Some rest'
        then Some (VArr [], rest')
        else '(l, rest) ← parse_elements fuel rest; Some (VArr l, rest)
      else if starts "{" cs is Some rest then
        if starts "}" (skip_ws rest) is Some rest'
        then Some (VObj ∅, rest')
        else '(o, rest) ← parse_members fuel rest; Some (VObj o, rest)
      else if starts "-" cs is Some rest then
        '(n, rest) ← parse_int rest; Some (VNum (- n), rest)
      else
        '(n, rest) ← parse_int cs; Some (VNum n, rest)
  end
with parse_elements (fuel : nat) (cs : list ascii) : option (list value * list ascii) :=
  match fuel with
  | O => None
  | S fuel =>
      '(v, rest) ← parse_value fuel cs;
      let rest := skip_ws rest in
      if starts "," rest is Some rest' then
        '(l, rest'') ← parse_elements fuel rest'; Some (v :: l, rest'')
      else if starts "]" rest is Some rest' then Some ([v], rest')
      else None
  end
with parse_members (fuel : nat) (cs : list ascii)
    : option (gmap string value * list ascii) :=
  match fuel with
  | O => None
  | S fuel =>
      rest ← starts dquote (skip_ws cs);
      '(k, rest) ← parse_chars rest;
      rest ← starts ":" (skip_ws rest);
      '(v, rest) ← parse_value fuel rest;
      let rest := skip_ws rest in
      if starts "," rest is Some rest' then
        (* a later member with the same key wins *)
        '(o, rest'') ← parse_members fuel rest';
        Some (if o !! k is Some _ then o else <[k:=v]> o, rest'')
      else if starts "}" rest is Some rest' then Some ({[k := v]}, rest')
      else None
  end.

Definition parse (text : string) : option value :=
  let cs := String.list_ascii_of_string text in
  '(v, rest) ← parse_value (S (length cs)) cs;
  if skip_ws rest is [] then Some v else None.

Definition escape (c : ascii) : string :=
  let n := nat_of_ascii c in
  if Ascii.eqb c dquote then String "\" (String dquote EmptyString)
  else if Ascii.eqb c "\" then "\\"
  else if (n =? 8)%nat then "\b"
  else if (n =? 12)%nat then "\f"
  else if (n =? 10)%nat then "\n"
  else if (n =? 13)%nat then "\r"
  else if (n =? 9)%nat then "\t"
  else String c EmptyString.

Fixpoint quote_chars (s : string) : string :=
  match s with
  | EmptyString => String dquote EmptyString
  | String c s' => escape c +:+ quote_chars s'
  end.

Definition quote (s : string) : string := String dquote (quote_chars s).

Fixpoint stringify (v : value) : string :=
  match v with
  | VUndefined => "undefined"
  | VNull => "null"
  | VBool true => "true"
  | VBool false => "false"
  | VNum n => pretty n
  | VStr s => quote s
  | VArr l =>
      "[" +:+ String.concat ","
                (map (λ x, match x with
                           | VUndefined => "null"
                           | _ => stringify x
                           end) l) +:+ "]"
  | VObj o =>
      "{" +:+ String.concat ","
                (map_fold (λ k x members,
                             match x with
                             | VUndefined => members
                             | _ => (quote k +:+ ":" +:+ stringify x) :: members
                             end) [] o) +:+ "}"
  end.

(** [new Date(v).getTime()] for a number of milliseconds, [null] and
    the booleans; date strings are not interpreted. *)
Definition time_of (v : value) : option Z :=
  match v with
  | VNum n => Some n
  | VNull => Some 0
  | VBool b => Some (if b then 1 else 0)
  | _ => None
  end.

Definition browser (reply : string → FetchOptions → option Response)
    (geo : Geolocation) (now : Z) : Env :=
  {| JSON_parse := parse;
     JSON_stringify := stringify;
     fetch_reply := reply;
     geolocation := geo;
     Date_now := now;
     Date_toISOString := "2026-01-01T00:00:00.000Z";
     Date_time := time_of;
     Notification_permission := Some PermDefault |}.

Definition page (storage : gmap string string) (query : list (string * string))
    : World :=
  {| localStorage := storage; location_search := query; toasts := [];
     timeouts := []; requests := []; notifications := [];
     currentLocation := VNull |}.

End Reference.

(** ** Concrete pages for the runs *)

Module Examples.
Import Reference.

Definition reply_with (code : Z) (text : string)
    : string → FetchOptions → option Response :=
  λ _ _, Some {| status := code; body := text |}.

(** JSON text written with apostrophes for its double quotes. *)
Definition json (text : string) : string :=
  String.string_of_list_ascii
    (map (λ c, if Ascii.eqb c "'" then dquote else c)
         (String.list_ascii_of_string text)).

(** A page with a stored session of the nested shape. *)
Definition signed_in : World :=
  page {["solosafe_user" := json "{'token':'T','user':{'name':'Ada'}}"]} [].

Definition signed_out : World := page ∅ [].

Definition trips_url : string := "https://solosafe-backend.onrender.com/api/trips".
End Examples.

(** Trips for the runs of [getCurrentTrip]. *)
Module TripExamples.
Import Reference Examples.

(** Now, and one day, in milliseconds. *)
Definition now : Z := 1000000000000.
Definition day : Z := 86400000.

Definition trip (start finish : Z) (status : string) : value :=
  VObj (<["startDate" := VNum start]>
          (<["endDate" := VNum finish]> {["status" := VStr status]})).

Definition trip_text (start finish : Z) (status : string) : string :=
  json "{'startDate':" +:+ pretty start +:+ json ",'endDate':" +:+ pretty finish
  +:+ json ",'status':'" +:+ status +:+ json "'}".

(** The trip set of the specification: one trip around now and active,
    one over and completed. *)
Definition two_trips : string :=
  "[" +:+ trip_text (now - day) (now + day) "active" +:+ ","
      +:+ trip_text (now - 10 * day) (now - 5 * day) "Completed" +:+ "]".

(** A trip that ended five days ago and is still marked active. *)
Definition stale_active : string :=
  "[" +:+ trip_text (now - 10 * day) (now - 5 * day) "active" +:+ "]".

(** A trip around now whose status is neither active nor completed. *)
Definition running_pending : string :=
  "[" +:+ trip_text (now - day) (now + day) "pending" +:+ "]".

Definition wrapped (trips : string) : string := json "{'trips':" +:+ trips +:+ "}".
End TripExamples.

(** A callback that arrives while an older session is still stored. *)
Module CallbackExample.
Import Reference Examples.

(** A backend that knows two users by their bearer token. *)
Definition backend : string → FetchOptions → option Response :=
  λ _ options,
    match opt_headers options ≫= (λ h, h !! "Authorization") with
    | Some auth =>
        if String.eqb auth "Bearer OLD"
        then Some {| status := 200; body := json "{'name':'Old User'}" |}
        else if String.eqb auth "Bearer NEW"
        then Some {| status := 200; body := json "{'name':'New User'}" |}
        else Some {| status := 401; body := "" |}
    | None => Some {| status := 401; body := "" |}
    end.

Definition env : Env := browser backend GeoFails 0.

Definition stale_session : World :=
  page {["solosafe_user" := json "{'token':'OLD','name':'Old User'}"]}
       [("token", "NEW")].

Definition fresh_page : World := page ∅ [("token", "NEW")].
End CallbackExample.

(** * The vocabulary of the statements *)

(** A JSON reader that treats the three texts the scripts single out as
    ECMAScript does. *)
Definition standard_JSON (env : Env) : Prop :=
  JSON_parse env "" = None ∧
  JSON_parse env "undefined" = None ∧
  JSON_parse env "null" = Some VNull.

(** The guard both [getCurrentUser]s and [getAuthToken] put before
    [JSON.parse]. *)
Definition guarded (item : option string) : bool :=
  negb (present item) || item_is item "undefined" || item_is item "null".

(** ** The current trip, in the words of the specification

    The trip whose [startDate, endDate] interval contains now and whose
    status is not the terminal one. *)
Definition is_current_trip (env : Env) (t : value) : bool :=
  match t with
  | VObj o =>
      match Date_time env (default VUndefined (o !! "startDate")),
            Date_time env (default VUndefined (o !! "endDate")) with
      | Some start, Some finish =>
          (start <=? Date_now env) && (Date_now env <=? finish)
          && negb (strict_eq_str (default VUndefined (o !! "status")) "Completed")
      | _, _ => false
      end
  | _ => false
  end.

(** What [script.js] looks for instead: a trip the backend marks active. *)
Definition is_marked_active (t : value) : bool :=
  match t with
  | VObj o => strict_eq_str (default VUndefined (o !! "status")) "active"
  | _ => false
  end.

(** The options [checkIn] and [triggerSOS] hand to the gateway, by the
    [location] field of the body. *)
Definition checkIn_options (env : Env) (location : value) : FetchOptions :=
  {| opt_method := Some "PUT"; opt_headers := None;
     opt_body := Some (JSON_stringify env
       (VObj (<["location":=location]>
              (<["timestamp":=VStr (Date_toISOString env)]> ∅))));
     opt_credentials := None |}.

Definition triggerSOS_options (env : Env) (tripId location : value) : FetchOptions :=
  {| opt_method := Some "POST"; opt_headers := None;
     opt_body := Some (JSON_stringify env
       (VObj (<["tripId":=tripId]>
              (<["location":=location]>
               (<["timestamp":=VStr (Date_toISOString env)]> ∅)))));
     opt_credentials := None |}.

(** The outcome of an operation that went through: it returned
    normally, handed exactly [request] to [fetch], and, when the backend
    accepted, told the user so. *)
Definition went_through (outcome : result unit * World) (w : World)
    (request : string * FetchOptions) (backend_accepts : Prop)
    (success : string * string) : Prop :=
  ∃ w', outcome = (Normal (), w')
        ∧ requests w' = requests w ++ [request]
        ∧ (backend_accepts → toasts w' = toasts w ++ [success]).

(** The backend answered the request with a 2xx status. *)
Definition accepted (env : Env) (request : string * FetchOptions) : Prop :=
  ∃ response, fetch_reply env (fst request) (snd request) = Some response
              ∧ ok response = true.

(** The same, with a body that [response.json()] can read. *)
Definition accepted_with_json (env : Env) (request : string * FetchOptions) : Prop :=
  ∃ response, fetch_reply env (fst request) (snd request) = Some response
              ∧ ok response = true
              ∧ is_Some (JSON_parse env (body response)).

(** [getCurrentLocation()] rejects. *)
Definition location_fails (env : Env) : Prop :=
  geolocation env = GeoFails ∨ geolocation env = GeoUnsupported.

(** The request [fetchUserProfile] makes with a given credential. *)
Definition profile_request (token : value) : string * FetchOptions :=
  (API_BASE_URL +:+ "/auth/profile",
   {| opt_method := Some "GET";
      opt_headers := Some (<["Content-Type":="application/json"]>
                           (<["Authorization":="Bearer " +:+ ToString token]> ∅));
      opt_body := None; opt_credentials := None |}).

(** ** The words of the further properties *)

(** The backend turns down every profile request. *)
Definition profile_rejected (env : Env) : Prop :=
  ∀ token response,
    fetch_reply env (fst (profile_request token)) (snd (profile_request token))
      = Some response →
    ok response = false.

(** The options of a feature call: a method and, possibly, a JSON body. *)
Definition json_request (method : string) (body : option string) : FetchOptions :=
  {| opt_method := Some method; opt_headers := None; opt_body := body;
     opt_credentials := None |}.

(** A computation that returns normally from every page. *)
Definition never_throws {A} (c : M A) : Prop :=
  ∀ w, ∃ a w', c w = (Normal a, w').

(** Whenever the gateway call stops the operation by returning [null],
    the operation returns its own sentinel and does nothing more. *)
Definition aborts_silently {A} (gateway_call : M (option Response))
    (operation : M A) (sentinel : A) : Prop :=
  ∀ w w', gateway_call w = (Normal None, w') → operation w = (Normal sentinel, w').


(** The credential [getAuthToken] finds in a given storage. *)
Definition stored_credential (env : Env) (storage : gmap string string) : value :=
  match fst (Unified.getAuthToken env (Reference.page storage [])) with
  | Normal token => token
  | Throw _ => VNull
  end.

(** What a location-carrying call leaves behind, whatever the backend
    says: it returned normally, handed [request] to [fetch], and the
    page remembers [location] as the current location. *)
Definition located_call (outcome : result unit * World) (w : World)
    (request : string * FetchOptions) (location : value) : Prop :=
  ∃ w', outcome = (Normal (), w')
        ∧ requests w' = requests w ++ [request]
        ∧ currentLocation w' = location.

(** The page after [sendNotification(title, body)]: a notification, and
    the timer that closes it after 5 s, appear only when the permission
    is granted. *)
Definition notified (env : Env) (title body : string) (w : World) : World :=
  match Notification_permission env with
  | Some PermGranted =>
      with_timeout (CloseNotification title, 5000) (with_notification (title, body) w)
  | _ => w
  end.

(** * Facts about the scripts *)

Ltac unfold_run :=
  unfold Response_json, JSON_parse_m;
  unfold mbind, M_bind, mret, M_ret, try_catch, throw, lift,
    localStorage_getItem, localStorage_setItem, localStorage_removeItem,
    showToast, setTimeout, fetch, fetch_and_forget,
    URLSearchParams_get, history_replaceState_clean.

Lemma guarded_spec item :
  guarded item = true ↔
  item = None ∨ item = Some "" ∨ item = Some "undefined" ∨ item = Some "null".
Proof.
  unfold guarded, present, item_is. destruct item as [s|]; cbn.
  - rewrite !orb_true_iff, negb_true_iff, negb_false_iff, !String.eqb_eq. split.
    + intros [[->| ->]| ->]; eauto.
    + intros [?|[?|[?|?]]]; simplify_eq; eauto.
  - split; eauto.
Qed.

Lemma not_guarded_present item :
  guarded item = false →
  present item && negb (item_is item "undefined") && negb (item_is item "null") = true.
Proof.
  unfold guarded. destruct (present item), (item_is item "undefined"),
    (item_is item "null"); done.
Qed.

Lemma parsed_object_not_guarded env s o :
  standard_JSON env → JSON_parse env s = Some (VObj o) → guarded (Some s) = false.
Proof.
  intros (H1 & H2 & H3) Hs. apply not_true_iff_false. rewrite guarded_spec.
  intros [?|[?|[?|?]]]; simplify_eq; congruence.
Qed.

Lemma present_Some s : s ≠ "" → present (Some s) = true.
Proof. intros. unfold present. apply negb_true_iff, String.eqb_neq. done. Qed.

Section UnifiedFacts.
Context (env : Env).
Import Unified.

Lemma getAuthToken_total w :
  ∃ token, getAuthToken env w = (Normal token, w)
           ∧ (truthy token = true ∨ token = VNull).
Proof.
  unfold getAuthToken. unfold_run.
  assert (∀ item, truthy (item_or_null item) = true ∨ item_or_null item = VNull)
    as Hfallback.
  { intros item. unfold item_or_null, present.
    destruct item as [g|]; cbn; [|by right].
    destruct (String.eqb g "") eqn:Hg; cbn; [by right|].
    left. by rewrite Hg. }
  destruct (present (localStorage w !! "solosafe_user") && _ && _); [|by eauto].
  destruct (JSON_parse env _) as [d|]; [|by eauto].
  destruct (get d "token") as [t|e]; [|by eauto].
  destruct (truthy t) eqn:Ht; by eauto.
Qed.

(** An absent, empty, ["undefined"] or ["null"] session record is
    skipped without a parse: the provisional token decides. *)
Lemma getAuthToken_guarded w :
  guarded (localStorage w !! "solosafe_user") = true →
  getAuthToken env w =
    (Normal (item_or_null (localStorage w !! "solosafe_token")), w).
Proof.
  intros Hg. unfold getAuthToken. unfold_run.
  replace (present (localStorage w !! "solosafe_user") && _ && _) with false; [done|].
  unfold guarded in Hg. destruct (present _), (item_is _ "undefined"), (item_is _ "null");
    done.
Qed.

(** A session record that carries a truthy [token] wins over the
    provisional token. *)
Lemma getAuthToken_session w s data token :
  localStorage w !! "solosafe_user" = Some s →
  guarded (Some s) = false →
  JSON_parse env s = Some data →
  get data "token" = Normal token →
  truthy token = true →
  getAuthToken env w = (Normal token, w).
Proof.
  intros Hs Hg Hd Ht Htr. unfold getAuthToken. unfold_run.
  rewrite Hs, (not_guarded_present _ Hg). cbn. by rewrite Hd, Ht, Htr.
Qed.

Lemma getCurrentUser_guarded w :
  guarded (localStorage w !! "solosafe_user") = true →
  getCurrentUser env w = (Normal VNull, w).
Proof.
  intros Hg. unfold getCurrentUser. unfold_run.
  fold (guarded (localStorage w !! "solosafe_user")). by rewrite Hg.
Qed.

Lemma getCurrentUser_unparseable w s :
  localStorage w !! "solosafe_user" = Some s →
  guarded (Some s) = false →
  JSON_parse env s = None →
  getCurrentUser env w = (Normal VNull, with_localStorage (delete "solosafe_user") w).
Proof.
  intros Hs Hg Hp. unfold getCurrentUser. unfold_run.
  fold (guarded (localStorage w !! "solosafe_user")). rewrite Hs, Hg. cbn.
  by rewrite Hp.
Qed.

Lemma getCurrentUser_nested w s data user token :
  localStorage w !! "solosafe_user" = Some s →
  guarded (Some s) = false →
  JSON_parse env s = Some data →
  get data "user" = Normal user →
  truthy user = true →
  get data "token" = Normal token →
  getCurrentUser env w = (Normal (VObj (<["token":=token]> (spread user))), w).
Proof.
  intros Hs Hg Hp Hu Htr Ht. unfold getCurrentUser. unfold_run.
  fold (guarded (localStorage w !! "solosafe_user")). rewrite Hs, Hg. cbn.
  by rewrite Hp, Hu, Htr, Ht.
Qed.

Lemma getCurrentUser_flat w s data user :
  localStorage w !! "solosafe_user" = Some s →
  guarded (Some s) = false →
  JSON_parse env s = Some data →
  get data "user" = Normal user →
  truthy user = false →
  getCurrentUser env w = (Normal data, w).
Proof.
  intros Hs Hg Hp Hu Htr. unfold getCurrentUser. unfold_run.
  fold (guarded (localStorage w !! "solosafe_user")). rewrite Hs, Hg. cbn.
  by rewrite Hp, Hu, Htr.
Qed.

Lemma getCurrentUser_total w :
  ∃ user w', getCurrentUser env w = (Normal user, w').
Proof.
  unfold getCurrentUser. unfold_run.
  destruct (negb _ || _ || _); [by eauto|].
  destruct (JSON_parse env _) as [d|]; [|by eauto].
  destruct (get d "user") as [u|]; [|by eauto].
  destruct (truthy u); [|by eauto].
  destruct (get d "token"); by eauto.
Qed.
End UnifiedFacts.

Section GatewayFacts.
Context (env : Env).

Lemma unified_gateway_no_token w url options :
  Unified.getAuthToken env w = (Normal VNull, w) →
  Unified.authenticatedFetch env url options w =
    (Normal None,
     with_timeout (Navigate "login.html", 1000)
       (with_toast ("Please login first", "warning") w)).
Proof.
  intros Ht. unfold Unified.authenticatedFetch. unfold_run. by rewrite Ht.
Qed.

Lemma unified_gateway_sends w url options token :
  Unified.getAuthToken env w = (Normal token, w) →
  truthy token = true →
  Unified.authenticatedFetch env url options w =
    let request := (url, Unified.mergedOptions token options) in
    match fetch_reply env url (Unified.mergedOptions token options) with
    | None =>
        (Throw FetchFailed,
         with_toast ("Network error. Please try again.", "error")
           (with_request request w))
    | Some response =>
        if status response =? 401 then
          (Normal None,
           with_timeout (Navigate "login.html", 1500)
             (with_localStorage (delete "solosafe_token")
                (with_localStorage (delete "solosafe_user")
                   (with_toast ("Session expired. Please login again.", "warning")
                      (with_request request w)))))
        else (Normal (Some response), with_request request w)
    end.
Proof.
  intros Ht Htr. unfold Unified.authenticatedFetch. unfold_run.
  rewrite Ht, Htr. cbn.
  destruct (fetch_reply env url _) as [r|]; [|done].
  by destruct (status r =? 401).
Qed.

Lemma session_gateway_sends w url options :
  SessionBased.authenticatedFetch env url options w =
    let request := (url, SessionBased.mergedOptions options) in
    match fetch_reply env url (SessionBased.mergedOptions options) with
    | None =>
        (Throw FetchFailed,
         with_toast ("Network error. Please try again.", "error")
           (with_request request w))
    | Some response =>
        if status response =? 401 then
          (Normal None,
           with_timeout (Navigate "login.html", 1500)
             (with_localStorage (delete "solosafe_user")
                (with_toast ("Session expired. Please login again.", "warning")
                   (with_request request w))))
        else (Normal (Some response), with_request request w)
    end.
Proof.
  unfold SessionBased.authenticatedFetch. unfold_run.
  destruct (fetch_reply env url _) as [r|]; [|done].
  by destruct (status r =? 401).
Qed.
End GatewayFacts.

Section SessionBasedFacts.
Context (env : Env).
Import SessionBased.

Lemma session_getCurrentUser_guarded w :
  guarded (localStorage w !! "solosafe_user") = true →
  getCurrentUser env w = (Normal VNull, w).
Proof.
  intros Hg. unfold getCurrentUser. unfold_run.
  fold (guarded (localStorage w !! "solosafe_user")). by rewrite Hg.
Qed.

Lemma session_getCurrentUser_unparseable w s :
  localStorage w !! "solosafe_user" = Some s →
  guarded (Some s) = false →
  JSON_parse env s = None →
  getCurrentUser env w = (Normal VNull, with_localStorage (delete "solosafe_user") w).
Proof.
  intros Hs Hg Hp. unfold getCurrentUser. unfold_run.
  fold (guarded (localStorage w !! "solosafe_user")). rewrite Hs, Hg. cbn.
  by rewrite Hp.
Qed.

Lemma session_getCurrentUser_parsed w s data :
  localStorage w !! "solosafe_user" = Some s →
  guarded (Some s) = false →
  JSON_parse env s = Some data →
  getCurrentUser env w = (Normal data, w).
Proof.
  intros Hs Hg Hp. unfold getCurrentUser. unfold_run.
  fold (guarded (localStorage w !! "solosafe_user")). rewrite Hs, Hg. cbn.
  by rewrite Hp.
Qed.

Lemma session_getCurrentUser_total w :
  ∃ user w', getCurrentUser env w = (Normal user, w').
Proof.
  unfold getCurrentUser. unfold_run.
  destruct (negb _ || _ || _); [by eauto|].
  destruct (JSON_parse env _) as [d|]; by eauto.
Qed.
End SessionBasedFacts.

Section LogoutFacts.
Context (env : Env).

Lemma unified_logout_storage w :
  localStorage (snd (Unified.logout env w)) =
    delete "solosafe_temp_signup"
      (delete "solosafe_trips"
         (delete "solosafe_token"
            (delete "solosafe_user" (localStorage w)))).
Proof.
  unfold Unified.logout.
  destruct (getAuthToken_total env w) as (token & Ht & _).
  unfold_run. rewrite Ht. by destruct (truthy token).
Qed.

Lemma session_logout_storage w :
  localStorage (snd (SessionBased.logout w)) =
    delete "solosafe_temp_signup"
      (delete "solosafe_trips"
         (delete "solosafe_user" (localStorage w))).
Proof. done. Qed.
End LogoutFacts.

Lemma not_sentinel_not_guarded s :
  s ≠ "" → s ≠ "undefined" → s ≠ "null" → guarded (Some s) = false.
Proof.
  intros H1 H2 H3. apply not_true_iff_false. rewrite guarded_spec.
  intros [?|[?|[?|?]]]; congruence.
Qed.

Section ProfileFacts.
Context (env : Env).

Lemma unified_updateUserProfile_merges w w' user x :
  Unified.getCurrentUser env w = (Normal (VObj user), w') →
  Unified.updateUserProfile env (VObj x) w =
    (Normal (VObj (x ∪ user)),
     with_localStorage
       <["solosafe_user" := JSON_stringify env (VObj (x ∪ user))]> w').
Proof.
  intros Hu. unfold Unified.updateUserProfile. unfold_run. by rewrite Hu.
Qed.

Lemma session_updateUserProfile_merges w w' user x :
  SessionBased.getCurrentUser env w = (Normal (VObj user), w') →
  SessionBased.updateUserProfile env (VObj x) w =
    (Normal (VObj (x ∪ user)),
     with_localStorage
       <["solosafe_user" := JSON_stringify env (VObj (x ∪ user))]> w').
Proof.
  intros Hu. unfold SessionBased.updateUserProfile. unfold_run. by rewrite Hu.
Qed.

(** A record that was just written and that JSON.parse reads back. *)
Lemma unified_reads_back w record :
  standard_JSON env →
  JSON_parse env (JSON_stringify env (VObj record)) = Some (VObj record) →
  truthy (default VUndefined (record !! "user")) = false →
  let w' := with_localStorage
              <["solosafe_user" := JSON_stringify env (VObj record)]> w in
  Unified.getCurrentUser env w' = (Normal (VObj record), w').
Proof.
  intros Hstd Hround Hflat w'.
  apply (getCurrentUser_flat env w' (JSON_stringify env (VObj record))
           (VObj record) (default VUndefined (record !! "user"))); try done.
  - cbn. by rewrite lookup_insert_eq.
  - by eapply parsed_object_not_guarded.
Qed.

Lemma session_reads_back w record :
  standard_JSON env →
  JSON_parse env (JSON_stringify env (VObj record)) = Some (VObj record) →
  let w' := with_localStorage
              <["solosafe_user" := JSON_stringify env (VObj record)]> w in
  SessionBased.getCurrentUser env w' = (Normal (VObj record), w').
Proof.
  intros Hstd Hround w'.
  apply (session_getCurrentUser_parsed env w' (JSON_stringify env (VObj record)));
    try done.
  - cbn. by rewrite lookup_insert_eq.
  - by eapply parsed_object_not_guarded.
Qed.

Lemma with_localStorage_insert_twice k s1 s2 w :
  with_localStorage <[k:=s2]> (with_localStorage <[k:=s1]> w)
  = with_localStorage <[k:=s2]> w.
Proof. unfold with_localStorage. cbn. by rewrite insert_insert_eq. Qed.
End ProfileFacts.

(** Shallow merge [{ ...user, ...x }]: the fields of [x] win. *)
Lemma merge_takes_update (x user : gmap string value) k v :
  x !! k = Some v → (x ∪ user) !! k = Some v.
Proof. intros. by apply lookup_union_Some_l. Qed.

Lemma merge_keeps_other (x user : gmap string value) k :
  x !! k = None → (x ∪ user) !! k = user !! k.
Proof. intros. by apply lookup_union_r. Qed.

Section TripFacts.
Context (env : Env).

Lemma Array_find_total (callback : value → result bool) (spec : value → bool) l :
  Forall (λ t, is_object t = true) l →
  (∀ t, is_object t = true → callback t = Normal (spec t)) →
  Array_find callback l = Normal (default VUndefined (List.find spec l)).
Proof.
  intros Hl Hcb. induction Hl as [|t l Ht _ IH]; [done|].
  cbn. rewrite (Hcb t Ht). by destruct (spec t).
Qed.

Lemma found_or_null (spec : value → bool) l :
  Forall (λ t, is_object t = true) l →
  js_or (default VUndefined (List.find spec l)) VNull
  = default VNull (List.find spec l).
Proof.
  intros Hl. destruct (List.find spec l) as [t|] eqn:Hfind; [|done].
  apply find_some in Hfind as [Hin _].
  rewrite Forall_forall in Hl. apply list_elem_of_In, Hl in Hin.
  destruct t; done.
Qed.

Lemma started_not_ended_not_completed_spec t :
  is_object t = true →
  Unified.started_not_ended_not_completed env t = Normal (is_current_trip env t).
Proof.
  destruct t as [| | | | | |o]; try done. intros _.
  unfold Unified.started_not_ended_not_completed, is_current_trip, Date_le. cbn.
  destruct (Date_time env (default VUndefined (o !! "startDate"))) as [start|];
    destruct (Date_time env (default VUndefined (o !! "endDate"))) as [finish|];
    try done.
  by rewrite andb_false_r.
Qed.

Lemma status_is_active_spec t :
  is_object t = true →
  SessionBased.status_is_active t = Normal (is_marked_active t).
Proof. by destruct t. Qed.

Lemma ok_not_401 response : ok response = true → (status response =? 401) = false.
Proof. unfold ok. intros [? ?]%andb_true_iff. lia. Qed.

Lemma unified_getAllTrips_fetched w token response trips :
  Unified.getAuthToken env w = (Normal token, w) →
  truthy token = true →
  fetch_reply env (API_BASE_URL +:+ "/trips") (Unified.mergedOptions token no_options)
    = Some response →
  ok response = true →
  JSON_parse env (body response) = Some (VArr trips) →
  Unified.getAllTrips env w =
    (Normal trips,
     with_localStorage <["solosafe_trips" := JSON_stringify env (VArr trips)]>
       (with_request
          (API_BASE_URL +:+ "/trips", Unified.mergedOptions token no_options) w)).
Proof.
  intros Ht Htr Hr Hok Hp. unfold Unified.getAllTrips, try_catch, mbind, M_bind.
  rewrite (unified_gateway_sends env w _ no_options token Ht Htr). cbn zeta.
  rewrite Hr, (ok_not_401 _ Hok). unfold_run. cbn. by rewrite Hp, Hok.
Qed.

Lemma unified_getCurrentTrip_fetched w token response trips :
  Unified.getAuthToken env w = (Normal token, w) →
  truthy token = true →
  fetch_reply env (API_BASE_URL +:+ "/trips") (Unified.mergedOptions token no_options)
    = Some response →
  ok response = true →
  JSON_parse env (body response) = Some (VArr trips) →
  Forall (λ t, is_object t = true) trips →
  fst (Unified.getCurrentTrip env w)
  = Normal (default VNull (List.find (is_current_trip env) trips)).
Proof.
  intros Ht Htr Hr Hok Hp Hobj. unfold Unified.getCurrentTrip, try_catch, mbind, M_bind.
  rewrite (unified_getAllTrips_fetched w token response trips) by done.
  unfold lift.
  rewrite (Array_find_total _ (is_current_trip env)) by
    auto using started_not_ended_not_completed_spec.
  cbn. by rewrite found_or_null.
Qed.

Lemma session_getCurrentTrip_fetched w response data trips :
  fetch_reply env "https://solosafe-backend.onrender.com/api/trips"
    (SessionBased.mergedOptions no_options) = Some response →
  ok response = true →
  JSON_parse env (body response) = Some data →
  get data "trips" = Normal (VArr trips) →
  Forall (λ t, is_object t = true) trips →
  fst (SessionBased.getCurrentTrip env w)
  = Normal (default VNull (List.find is_marked_active trips)).
Proof.
  intros Hr Hok Hp Hget Hobj.
  unfold SessionBased.getCurrentTrip, try_catch, mbind, M_bind.
  rewrite session_gateway_sends. cbn zeta.
  rewrite Hr, (ok_not_401 _ Hok). unfold_run. cbn.
  rewrite Hp, Hok, Hget. cbn.
  rewrite (Array_find_total _ is_marked_active) by auto using status_is_active_spec.
  by rewrite found_or_null.
Qed.
End TripFacts.

Section FeatureFacts.
Context (env : Env).

Lemma location_failure_is_caught w :
  location_fails env →
  try_catch (getCurrentLocation env) (λ _, mret VNull) w = (Normal VNull, w).
Proof.
  unfold getCurrentLocation, try_catch. by intros [-> | ->].
Qed.

Lemma sendNotification_frame title text w :
  ∃ w', sendNotification env title text w = (Normal (), w')
        ∧ requests w' = requests w
        ∧ toasts w' = toasts w.
Proof.
  unfold sendNotification.
  destruct (Notification_permission env) as [[| |]|]; by eexists.
Qed.

(** Up to the gateway call, with the location step resolved to [null]. *)
Ltac enter_gateway Hloc :=
  unfold went_through, accepted, accepted_with_json; cbn [fst snd];
  unfold try_catch at 1; unfold mbind at 1, M_bind at 1;
  rewrite (location_failure_is_caught _ Hloc);
  unfold location_field; cbn [truthy]; unfold mbind at 1, M_bind at 1;
  cbn [mret M_ret]; unfold mbind at 1, M_bind at 1.

(** The branches in which the backend did not accept. *)
Ltac not_accepted :=
  let Hacc := fresh "Hacc" in
  eexists; split; [done|]; split; [done|];
  intros (? & ? & Hacc); simplify_eq;
  repeat match goal with
         | H : _ ∧ _ |- _ => destruct H
         | H : is_Some _ |- _ => destruct H
         end;
  simplify_eq; congruence.

(** The branch in which it did. *)
Ltac accepted :=
  match goal with
  | |- context [sendNotification env ?title ?text ?w] =>
      let wn := fresh "wn" in
      let E := fresh "E" in
      let Hn1 := fresh "Hn" in
      let Hn2 := fresh "Hn" in
      destruct (sendNotification_frame title text w) as (wn & E & Hn1 & Hn2);
      rewrite E; exists wn; cbn in *; rewrite Hn1, Hn2; done
  end.

Lemma unified_checkIn_without_location w tripId token :
  location_fails env →
  Unified.getAuthToken env w = (Normal token, w) →
  truthy token = true →
  let url := API_BASE_URL +:+ "/trips/" +:+ ToString tripId +:+ "/safe" in
  let options := Unified.mergedOptions token (checkIn_options env VNull) in
  went_through (Unified.checkIn env tripId w) w (url, options)
    (accepted_with_json env (url, options)) ("Check-in successful! ✅", "success").
Proof.
  intros Hloc Ht Htr url options. unfold Unified.checkIn. enter_gateway Hloc.
  fold (checkIn_options env VNull). fold url.
  rewrite (unified_gateway_sends env w url _ token Ht Htr). cbn zeta. fold options.
  destruct (fetch_reply env url options) as [r|] eqn:Hr; [|cbn; not_accepted].
  destruct (status r =? 401) eqn:H401.
  { destruct (ok r) eqn:Hok; [by rewrite ok_not_401 in H401|cbn; not_accepted]. }
  unfold_run. cbn.
  destruct (JSON_parse env (body r)) as [data|] eqn:Hp; cbn; [|not_accepted].
  destruct (ok r) eqn:Hok; cbn; [accepted|].
  destruct (get data "message"); cbn; not_accepted.
Qed.

Lemma unified_triggerSOS_without_location w tripId token :
  location_fails env →
  Unified.getAuthToken env w = (Normal token, w) →
  truthy token = true →
  let url := API_BASE_URL +:+ "/alerts/sos" in
  let options := Unified.mergedOptions token (triggerSOS_options env tripId VNull) in
  went_through (Unified.triggerSOS env tripId w) w (url, options)
    (accepted env (url, options))
    ("🚨 SOS alert sent to all emergency contacts", "warning").
Proof.
  intros Hloc Ht Htr url options. unfold Unified.triggerSOS. enter_gateway Hloc.
  fold (triggerSOS_options env tripId VNull). fold url.
  rewrite (unified_gateway_sends env w url _ token Ht Htr). cbn zeta. fold options.
  destruct (fetch_reply env url options) as [r|] eqn:Hr; [|cbn; not_accepted].
  destruct (status r =? 401) eqn:H401.
  { destruct (ok r) eqn:Hok; [by rewrite ok_not_401 in H401|cbn; not_accepted]. }
  unfold_run. cbn.
  destruct (ok r) eqn:Hok; cbn; [accepted|not_accepted].
Qed.

Lemma session_checkIn_without_location w tripId :
  location_fails env →
  let url := "https://solosafe-backend.onrender.com/api/trips/"
             +:+ ToString tripId +:+ "/safe" in
  let options := SessionBased.mergedOptions (checkIn_options env VNull) in
  went_through (SessionBased.checkIn env tripId w) w (url, options)
    (accepted_with_json env (url, options)) ("Check-in successful! ✅", "success").
Proof.
  intros Hloc url options. unfold SessionBased.checkIn. enter_gateway Hloc.
  fold (checkIn_options env VNull). fold url.
  rewrite (session_gateway_sends env w url _). cbn zeta. fold options.
  destruct (fetch_reply env url options) as [r|] eqn:Hr; [|cbn; not_accepted].
  destruct (status r =? 401) eqn:H401.
  { destruct (ok r) eqn:Hok; [by rewrite ok_not_401 in H401|cbn; not_accepted]. }
  unfold_run. cbn.
  destruct (JSON_parse env (body r)) as [data|] eqn:Hp; cbn; [|not_accepted].
  destruct (ok r) eqn:Hok; cbn; [accepted|].
  destruct (get data "message"); cbn; not_accepted.
Qed.

Lemma session_triggerSOS_without_location w tripId :
  location_fails env →
  let url := "https://solosafe-backend.onrender.com/api/alerts/sos" in
  let options := SessionBased.mergedOptions (triggerSOS_options env tripId VNull) in
  went_through (SessionBased.triggerSOS env tripId w) w (url, options)
    (accepted env (url, options))
    ("🚨 SOS alert sent to all emergency contacts", "warning").
Proof.
  intros Hloc url options. unfold SessionBased.triggerSOS. enter_gateway Hloc.
  fold (triggerSOS_options env tripId VNull). fold url.
  rewrite (session_gateway_sends env w url _). cbn zeta. fold options.
  destruct (fetch_reply env url options) as [r|] eqn:Hr; [|cbn; not_accepted].
  destruct (status r =? 401) eqn:H401.
  { destruct (ok r) eqn:Hok; [by rewrite ok_not_401 in H401|cbn; not_accepted]. }
  unfold_run. cbn.
  destruct (ok r) eqn:Hok; cbn; [accepted|not_accepted].
Qed.
(** An accepted reply whose body [response.json()] cannot read: the
    check-in has sent its request and ends in its catch block. *)
Lemma unified_checkIn_unreadable_reply w tripId token response :
  location_fails env →
  Unified.getAuthToken env w = (Normal token, w) →
  truthy token = true →
  let url := API_BASE_URL +:+ "/trips/" +:+ ToString tripId +:+ "/safe" in
  let options := Unified.mergedOptions token (checkIn_options env VNull) in
  fetch_reply env url options = Some response →
  ok response = true →
  JSON_parse env (body response) = None →
  Unified.checkIn env tripId w
  = (Normal (),
     with_toast ("Check-in failed. Please try again.", "error")
       (with_request (url, options) w)).
Proof.
  intros Hloc Ht Htr url options Hr Hok Hp. unfold Unified.checkIn.
  enter_gateway Hloc.
  fold (checkIn_options env VNull). fold url.
  rewrite (unified_gateway_sends env w url _ token Ht Htr). cbn zeta. fold options.
  rewrite Hr. rewrite (ok_not_401 _ Hok). unfold_run. cbn. by rewrite Hp.
Qed.

Lemma session_checkIn_unreadable_reply w tripId response :
  location_fails env →
  let url := "https://solosafe-backend.onrender.com/api/trips/"
             +:+ ToString tripId +:+ "/safe" in
  let options := SessionBased.mergedOptions (checkIn_options env VNull) in
  fetch_reply env url options = Some response →
  ok response = true →
  JSON_parse env (body response) = None →
  SessionBased.checkIn env tripId w
  = (Normal (),
     with_toast ("Check-in failed. Please try again.", "error")
       (with_request (url, options) w)).
Proof.
  intros Hloc url options Hr Hok Hp. unfold SessionBased.checkIn.
  enter_gateway Hloc.
  fold (checkIn_options env VNull). fold url.
  rewrite (session_gateway_sends env w url _). cbn zeta. fold options.
  rewrite Hr. rewrite (ok_not_401 _ Hok). unfold_run. cbn. by rewrite Hp.
Qed.
End FeatureFacts.

Section CallbackFacts.
Context (env : Env).

Lemma fetchUserProfile_stores w token response userData :
  Unified.getAuthToken env w = (Normal token, w) →
  truthy token = true →
  fetch_reply env (fst (profile_request token)) (snd (profile_request token))
    = Some response →
  ok response = true →
  JSON_parse env (body response) = Some userData →
  let userToStore := VObj (<["token":=token]> (spread userData)) in
  Unified.fetchUserProfile env w =
    (Normal userToStore,
     with_localStorage <["solosafe_user" := JSON_stringify env userToStore]>
       (with_request (profile_request token) w)).
Proof.
  intros Ht Htr Hr Hok Hp. unfold Unified.fetchUserProfile. unfold_run.
  rewrite Ht, Htr. cbn in *. by rewrite Hr, Hok, Hp.
Qed.

(** On a page that holds no session record, a callback carrying the
    token [T] whose profile fetch succeeds stores the fetched profile
    with credential [T], drops the provisional entry and the query, and
    schedules nothing. *)
Lemma handleGoogleCallback_without_session w T response userData :
  snd <$> List.find (λ p, String.eqb (fst p) "token") (location_search w) = Some T →
  T ≠ "" →
  guarded (localStorage w !! "solosafe_user") = true →
  fetch_reply env (fst (profile_request (VStr T))) (snd (profile_request (VStr T)))
    = Some response →
  ok response = true →
  JSON_parse env (body response) = Some userData →
  let session := VObj (<["token":=VStr T]> (spread userData)) in
  ∃ w', Unified.handleGoogleCallback env w = (Normal true, w')
        ∧ localStorage w' =
            delete "solosafe_token"
              (<["solosafe_user" := JSON_stringify env session]>
                 (<["solosafe_token" := T]> (localStorage w)))
        ∧ localStorage w' !! "solosafe_user" = Some (JSON_stringify env session)
        ∧ localStorage w' !! "solosafe_token" = None
        ∧ location_search w' = []
        ∧ timeouts w' = timeouts w
        ∧ requests w' = requests w ++ [profile_request (VStr T)].
Proof.
  intros Hq HT Hg Hr Hok Hp session.
  set (w1 := with_localStorage <["solosafe_token" := T]> w).
  assert (Unified.getAuthToken env w1 = (Normal (VStr T), w1)) as Ht.
  { rewrite getAuthToken_guarded.
    - cbn. rewrite lookup_insert_eq. unfold item_or_null.
      by rewrite present_Some.
    - cbn. by rewrite lookup_insert_ne. }
  assert (truthy (VStr T) = true) as Htr.
  { cbn. by apply negb_true_iff, String.eqb_neq. }
  pose proof (fetchUserProfile_stores w1 (VStr T) response userData
                Ht Htr Hr Hok Hp) as Hfetch.
  unfold Unified.handleGoogleCallback.
  unfold mbind at 1, M_bind at 1, URLSearchParams_get at 1. rewrite Hq.
  rewrite present_Some by done. cbn [negb default].
  unfold try_catch at 1. unfold mbind at 1, M_bind at 1, localStorage_setItem at 1.
  change (with_localStorage <["solosafe_token":=id T]> w) with w1.
  unfold mbind at 1, M_bind at 1. rewrite Hfetch. cbn zeta.
  unfold_run. cbn.
  eexists. split; [done|]. cbn.
  split; [done|]. split; [|split; [|done]].
  - by rewrite lookup_delete_ne, lookup_insert_eq.
  - by rewrite lookup_delete_eq.
Qed.
End CallbackFacts.

(** The same callback on a page without a stored session keeps [NEW]. *)
Example callback_on_fresh_page :
  let env := CallbackExample.env in
  let w' := snd (Unified.handleGoogleCallback env CallbackExample.fresh_page) in
  JSON_parse env <$> localStorage w' !! "solosafe_user"
    = Some (Some (VObj (<["name" := VStr "New User"]> {["token" := VStr "NEW"]})))
  ∧ localStorage w' !! "solosafe_token" = None
  ∧ location_search w' = []
  ∧ timeouts w' = [].
Proof. vm_compute. done. Qed.

(** * The claims *)

(** C1, as the scripts have it. Over a fetched array of trip objects the
    main script returns the first trip whose [startDate, endDate]
    interval contains now and whose status is not ['Completed'], and
    [null] when there is none. [script.js] does not look at the dates:
    it returns the first trip whose status is ['active'], and [null]
    when there is none. *)
Theorem C1_current_trip env w response trips :
  ok response = true →
  Forall (λ t, is_object t = true) trips →
  (∀ token,
     Unified.getAuthToken env w = (Normal token, w) →
     truthy token = true →
     fetch_reply env (API_BASE_URL +:+ "/trips")
       (Unified.mergedOptions token no_options) = Some response →
     JSON_parse env (body response) = Some (VArr trips) →
     fst (Unified.getCurrentTrip env w)
     = Normal (default VNull (List.find (is_current_trip env) trips)))
  ∧ (∀ data,
       fetch_reply env "https://solosafe-backend.onrender.com/api/trips"
         (SessionBased.mergedOptions no_options) = Some response →
       JSON_parse env (body response) = Some data →
       get data "trips" = Normal (VArr trips) →
       fst (SessionBased.getCurrentTrip env w)
       = Normal (default VNull (List.find is_marked_active trips))).
Proof.
  intros Hok Hobj. split.
  - intros token Ht Htr Hr Hp.
    by apply (unified_getCurrentTrip_fetched env w token response trips).
  - intros data Hr Hp Hget.
    by apply (session_getCurrentTrip_fetched env w response data trips).
Qed.

Lemma C1_current_trip_witness :
  let env trips := Reference.browser (Examples.reply_with 200 trips) GeoFails
                     TripExamples.now in
  let first := TripExamples.trip (TripExamples.now - TripExamples.day)
                 (TripExamples.now + TripExamples.day) "active" in
  fst (Unified.getCurrentTrip (env TripExamples.two_trips) Examples.signed_in)
    = Normal first
  ∧ fst (SessionBased.getCurrentTrip
           (env (TripExamples.wrapped TripExamples.two_trips)) Examples.signed_in)
    = Normal first.
Proof.
  intros env first. split.
  - set (second := TripExamples.trip (TripExamples.now - 10 * TripExamples.day)
                     (TripExamples.now - 5 * TripExamples.day) "Completed").
    apply (proj1 (C1_current_trip (env TripExamples.two_trips) Examples.signed_in
                    {| status := 200; body := TripExamples.two_trips |}
                    [first; second] eq_refl
                    ltac:(repeat constructor))
                 (VStr "T"));
      vm_compute; reflexivity.
  - set (second := TripExamples.trip (TripExamples.now - 10 * TripExamples.day)
                     (TripExamples.now - 5 * TripExamples.day) "Completed").
    apply (proj2 (C1_current_trip (env (TripExamples.wrapped TripExamples.two_trips))
                    Examples.signed_in
                    {| status := 200;
                       body := TripExamples.wrapped TripExamples.two_trips |}
                    [first; second] eq_refl
                    ltac:(repeat constructor))
                 (VObj {["trips" := VArr [first; second]]}));
      vm_compute; reflexivity.
Defined.

(** C1 fails as stated on [script.js]: it returns a trip that ended five
    days ago because the backend still marks it active, and returns
    [null] for a trip in progress whose status is not ['active']. *)
Lemma C1_session_script_ignores_the_dates :
  let env trips := Reference.browser (Examples.reply_with 200 trips) GeoFails
                     TripExamples.now in
  let ended := TripExamples.trip (TripExamples.now - 10 * TripExamples.day)
                 (TripExamples.now - 5 * TripExamples.day) "active" in
  let running := TripExamples.trip (TripExamples.now - TripExamples.day)
                   (TripExamples.now + TripExamples.day) "pending" in
  let env_ended := env (TripExamples.wrapped TripExamples.stale_active) in
  let env_running := env (TripExamples.wrapped TripExamples.running_pending) in
  (Reference.parse TripExamples.stale_active = Some (VArr [ended])
   ∧ is_current_trip env_ended ended = false
   ∧ fst (SessionBased.getCurrentTrip env_ended Examples.signed_in) = Normal ended)
  ∧ (Reference.parse TripExamples.running_pending = Some (VArr [running])
     ∧ is_current_trip env_running running = true
     ∧ fst (SessionBased.getCurrentTrip env_running Examples.signed_in) = Normal VNull).
Proof. vm_compute. done. Qed.

(** C2. When the reply to a gateway call has status 401, both scripts
    remove the stored session record (the main script also the
    provisional token), so that no session is found afterwards, schedule
    one redirect to [login.html] and return [null] instead of the
    response. *)
Theorem C2_rejected_session_is_purged env w url options response :
  status response = 401 →
  (∀ token,
     Unified.getAuthToken env w = (Normal token, w) →
     truthy token = true →
     fetch_reply env url (Unified.mergedOptions token options) = Some response →
     let (returned, w') := Unified.authenticatedFetch env url options w in
     returned = Normal None
     ∧ localStorage w' =
         delete "solosafe_token" (delete "solosafe_user" (localStorage w))
     ∧ Unified.getAuthToken env w' = (Normal VNull, w')
     ∧ timeouts w' = timeouts w ++ [(Navigate "login.html", 1500)]
     ∧ requests w' = requests w ++ [(url, Unified.mergedOptions token options)])
  ∧ (fetch_reply env url (SessionBased.mergedOptions options) = Some response →
     let (returned, w') := SessionBased.authenticatedFetch env url options w in
     returned = Normal None
     ∧ localStorage w' = delete "solosafe_user" (localStorage w)
     ∧ SessionBased.getCurrentUser env w' = (Normal VNull, w')
     ∧ timeouts w' = timeouts w ++ [(Navigate "login.html", 1500)]
     ∧ requests w' = requests w ++ [(url, SessionBased.mergedOptions options)]).
Proof.
  intros H401. split.
  - intros token Ht Htr Hr.
    rewrite (unified_gateway_sends env w url options token Ht Htr). cbn zeta.
    rewrite Hr, H401. split; [done|]. split; [done|]. split; [|done].
    rewrite getAuthToken_guarded.
    + cbn. by rewrite lookup_delete_eq.
    + cbn. rewrite lookup_delete_ne, lookup_delete_eq by done.
      by apply guarded_spec; left.
  - intros Hr. rewrite session_gateway_sends. cbn zeta. rewrite Hr, H401.
    split; [done|]. split; [done|]. split; [|done].
    apply session_getCurrentUser_guarded. cbn. rewrite lookup_delete_eq.
    by apply guarded_spec; left.
Qed.

Lemma C2_rejected_session_is_purged_witness :
  let env := Reference.browser (Examples.reply_with 401 "") GeoFails 0 in
  let w := Examples.signed_in in
  (let (returned, w') :=
     Unified.authenticatedFetch env Examples.trips_url no_options w in
   returned = Normal None
   ∧ localStorage w' =
       delete "solosafe_token" (delete "solosafe_user" (localStorage w))
   ∧ Unified.getAuthToken env w' = (Normal VNull, w')
   ∧ timeouts w' = timeouts w ++ [(Navigate "login.html", 1500)]
   ∧ requests w' =
       requests w ++
       [(Examples.trips_url, Unified.mergedOptions (VStr "T") no_options)])
  ∧ (let (returned, w') :=
       SessionBased.authenticatedFetch env Examples.trips_url no_options w in
     returned = Normal None
     ∧ localStorage w' = delete "solosafe_user" (localStorage w)
     ∧ SessionBased.getCurrentUser env w' = (Normal VNull, w')
     ∧ timeouts w' = timeouts w ++ [(Navigate "login.html", 1500)]
     ∧ requests w' =
         requests w ++ [(Examples.trips_url, SessionBased.mergedOptions no_options)]).
Proof.
  intros env w.
  destruct (C2_rejected_session_is_purged env w Examples.trips_url no_options
              {| status := 401; body := "" |} eq_refl) as [HU HS].
  split.
  - apply (HU (VStr "T")); vm_compute; reflexivity.
  - apply HS. reflexivity.
Defined.

(** C3, as the scripts have it. In the main script a gateway call made
    while [getAuthToken] finds no credential sends nothing: it warns,
    schedules a redirect to [login.html] and returns [null]. The gateway
    of [script.js] never looks for a credential: it hands every call to
    [fetch]. *)
Theorem C3_no_credential_no_request env w url options :
  (Unified.getAuthToken env w = (Normal VNull, w) →
   let (returned, w') := Unified.authenticatedFetch env url options w in
   returned = Normal None
   ∧ requests w' = requests w
   ∧ toasts w' = toasts w ++ [("Please login first", "warning")]
   ∧ timeouts w' = timeouts w ++ [(Navigate "login.html", 1000)]
   ∧ localStorage w' = localStorage w)
  ∧ requests (snd (SessionBased.authenticatedFetch env url options w)) =
      requests w ++ [(url, SessionBased.mergedOptions options)].
Proof.
  split.
  - intros Ht. by rewrite (unified_gateway_no_token env w url options Ht).
  - rewrite session_gateway_sends. cbn zeta.
    destruct (fetch_reply env url _) as [r|]; [|done].
    by destruct (status r =? 401).
Qed.

Lemma C3_no_credential_no_request_witness :
  let env := Reference.browser (Examples.reply_with 200 "[]") GeoFails 0 in
  let w := Examples.signed_out in
  let (returned, w') := Unified.authenticatedFetch env Examples.trips_url no_options w in
  returned = Normal None
  ∧ requests w' = requests w
  ∧ toasts w' = toasts w ++ [("Please login first", "warning")]
  ∧ timeouts w' = timeouts w ++ [(Navigate "login.html", 1000)]
  ∧ localStorage w' = localStorage w.
Proof.
  intros env w.
  apply (proj1 (C3_no_credential_no_request env w Examples.trips_url no_options)).
  reflexivity.
Defined.

(** C3 fails as stated on [script.js]: with nothing in storage its
    gateway still issues the request. *)
Lemma C3_session_script_sends_without_credential :
  let env := Reference.browser (Examples.reply_with 200 "[]") GeoFails 0 in
  let w := Examples.signed_out in
  localStorage w = ∅
  ∧ requests w = []
  ∧ requests (snd (SessionBased.authenticatedFetch env Examples.trips_url no_options w)) =
      [(Examples.trips_url,
        {| opt_method := None;
           opt_headers := Some {["Content-Type" := "application/json"]};
           opt_body := None; opt_credentials := None |})].
Proof. vm_compute. done. Qed.

(** C4. A stored record of the nested shape [{ token, user: {...} }] and
    the already-flat record with the same token and profile fields load
    as the same session, and loading the flat record returns it as
    parsed. (Flat means what the script tests: no truthy [user] field.) *)
Theorem C4_load_is_shape_insensitive
    env w_nested w_flat s_nested s_flat token (profile : gmap string value) :
  standard_JSON env →
  localStorage w_nested !! "solosafe_user" = Some s_nested →
  JSON_parse env s_nested =
    Some (VObj (<["token":=token]> {["user" := VObj profile]})) →
  localStorage w_flat !! "solosafe_user" = Some s_flat →
  JSON_parse env s_flat = Some (VObj (<["token":=token]> profile)) →
  truthy (default VUndefined (profile !! "user")) = false →
  Unified.getCurrentUser env w_nested =
    (Normal (VObj (<["token":=token]> profile)), w_nested)
  ∧ Unified.getCurrentUser env w_flat =
      (Normal (VObj (<["token":=token]> profile)), w_flat).
Proof.
  intros Hstd Hn Hpn Hf Hpf Hflat. split.
  - eapply (getCurrentUser_nested env w_nested s_nested _ (VObj profile) token);
      [exact Hn | by eapply parsed_object_not_guarded | exact Hpn | | done | ].
    + cbn. by rewrite lookup_insert_ne, lookup_singleton_eq.
    + cbn. by rewrite lookup_insert_eq.
  - eapply (getCurrentUser_flat env w_flat s_flat _
              (default VUndefined (profile !! "user")));
      [exact Hf | by eapply parsed_object_not_guarded | exact Hpf | | done].
    cbn. by rewrite lookup_insert_ne.
Qed.

Lemma C4_load_is_shape_insensitive_witness :
  let env := Reference.browser (Examples.reply_with 200 "[]") GeoFails 0 in
  let w_nested :=
    Reference.page
      {["solosafe_user" :=
          Examples.json "{'token':'T','user':{'name':'Ada','email':'ada@example.com'}}"]}
      [] in
  let w_flat :=
    Reference.page
      {["solosafe_user" :=
          Examples.json "{'token':'T','name':'Ada','email':'ada@example.com'}"]}
      [] in
  let session :=
    VObj (<["token":=VStr "T"]>
            (<["name":=VStr "Ada"]> {["email" := VStr "ada@example.com"]})) in
  Unified.getCurrentUser env w_nested = (Normal session, w_nested)
  ∧ Unified.getCurrentUser env w_flat = (Normal session, w_flat).
Proof.
  intros env w_nested w_flat session.
  apply (C4_load_is_shape_insensitive env w_nested w_flat
           (Examples.json "{'token':'T','user':{'name':'Ada','email':'ada@example.com'}}")
           (Examples.json "{'token':'T','name':'Ada','email':'ada@example.com'}")
           (VStr "T")
           (<["name":=VStr "Ada"]> {["email" := VStr "ada@example.com"]}));
    vm_compute; auto.
Defined.

(** C5, as the scripts have it. On an existing session, that is a stored
    record that JSON.parse reads as an object, [updateUserProfile]
    returns and persists the shallow merge of the update over the
    loaded session. The fields of the update win: an update without a
    [token] field leaves the credential as it was, and an update with
    one replaces it. Two updates in a row, the first written record
    reading back as written, persist a record that has the fields of
    both, and the original credential when neither carries a [token];
    in the main script this needs the first record to have no truthy
    [user] field, for otherwise the second update is merged over the
    fields of that [user] alone. *)
Theorem C5_profile_updates_merge env w (user x y : gmap string value) :
  let merged1 := x ∪ user in
  let merged2 := y ∪ (x ∪ user) in
  let written (record : gmap string value) :=
    with_localStorage <["solosafe_user" := JSON_stringify env (VObj record)]> w in
  (Unified.getCurrentUser env w = (Normal (VObj user), w) →
   Unified.updateUserProfile env (VObj x) w = (Normal (VObj merged1), written merged1)
   ∧ (standard_JSON env →
      JSON_parse env (JSON_stringify env (VObj merged1)) = Some (VObj merged1) →
      truthy (default VUndefined (merged1 !! "user")) = false →
      Unified.updateUserProfile env (VObj y) (written merged1)
        = (Normal (VObj merged2), written merged2)))
  ∧ (SessionBased.getCurrentUser env w = (Normal (VObj user), w) →
     SessionBased.updateUserProfile env (VObj x) w
       = (Normal (VObj merged1), written merged1)
     ∧ (standard_JSON env →
        JSON_parse env (JSON_stringify env (VObj merged1)) = Some (VObj merged1) →
        SessionBased.updateUserProfile env (VObj y) (written merged1)
          = (Normal (VObj merged2), written merged2)))
  ∧ (∀ k v, x !! k = Some v → merged1 !! k = Some v)
  ∧ (x !! "token" = None → merged1 !! "token" = user !! "token")
  ∧ (∀ k v, y !! k = Some v → merged2 !! k = Some v)
  ∧ (∀ k v, x !! k = Some v → y !! k = None → merged2 !! k = Some v)
  ∧ (x !! "token" = None → y !! "token" = None →
     merged2 !! "token" = user !! "token")
  ∧ (standard_JSON env →
     ∀ s, localStorage w !! "solosafe_user" = Some s →
          JSON_parse env s = Some (VObj user) →
          SessionBased.updateUserProfile env (VObj x) w
            = (Normal (VObj merged1), written merged1)
          ∧ (truthy (default VUndefined (user !! "user")) = false →
             Unified.updateUserProfile env (VObj x) w
               = (Normal (VObj merged1), written merged1)))
  ∧ (∀ token, x !! "token" = Some token → merged1 !! "token" = Some token)
  ∧ (standard_JSON env →
     JSON_parse env (JSON_stringify env (VObj merged1)) = Some (VObj merged1) →
     ∀ nested, merged1 !! "user" = Some nested →
               truthy nested = true →
               let reloaded :=
                 <["token" := default VUndefined (merged1 !! "token")]>
                   (spread nested) in
               Unified.updateUserProfile env (VObj y) (written merged1)
                 = (Normal (VObj (y ∪ reloaded)), written (y ∪ reloaded))).
Proof.
  intros merged1 merged2 written.
  split; [|split; [|split; [|split; [|split; [|split; [|split; [|split; [|split]]]]]]]].
  - intros Hu. split; [by apply unified_updateUserProfile_merges|].
    intros Hstd Hround Hflat.
    rewrite (unified_updateUserProfile_merges env _ (written merged1) merged1 y).
    + unfold written. by rewrite with_localStorage_insert_twice.
    + by apply unified_reads_back.
  - intros Hu. split; [by apply session_updateUserProfile_merges|].
    intros Hstd Hround.
    rewrite (session_updateUserProfile_merges env _ (written merged1) merged1 y).
    + unfold written. by rewrite with_localStorage_insert_twice.
    + by apply session_reads_back.
  - intros k v. apply merge_takes_update.
  - apply merge_keeps_other.
  - intros k v. apply merge_takes_update.
  - intros k v Hx Hy. unfold merged2.
    rewrite merge_keeps_other by done. by apply merge_takes_update.
  - intros Hx Hy. unfold merged2. by rewrite !merge_keeps_other.
  - intros Hstd s Hs Hp.
    assert (guarded (Some s) = false) as Hg
      by (by eapply parsed_object_not_guarded).
    split.
    + apply session_updateUserProfile_merges.
      by apply (session_getCurrentUser_parsed env w s).
    + intros Hflat. apply unified_updateUserProfile_merges.
      by apply (getCurrentUser_flat env w s (VObj user)
                  (default VUndefined (user !! "user"))).
  - intros token. apply merge_takes_update.
  - intros Hstd Hround nested Hnested Htr reloaded.
    rewrite (unified_updateUserProfile_merges env _ (written merged1) reloaded y).
    + unfold written. by rewrite with_localStorage_insert_twice.
    + apply (getCurrentUser_nested env (written merged1)
               (JSON_stringify env (VObj merged1)) (VObj merged1) nested
               (default VUndefined (merged1 !! "token"))); try done.
      * cbn. by rewrite lookup_insert_eq.
      * by eapply parsed_object_not_guarded.
      * cbn. by rewrite Hnested.
Qed.

Lemma C5_profile_updates_merge_witness :
  let env := Reference.browser (Examples.reply_with 200 "[]") GeoFails 0 in
  let w := Examples.signed_in in
  let x : gmap string value := {["profilePicture" := VStr "data:image/png;base64,AAAA"]} in
  let y : gmap string value := {["username" := VStr "ada"]} in
  let merged2 : gmap string value :=
    <["username" := VStr "ada"]>
      (<["profilePicture" := VStr "data:image/png;base64,AAAA"]>
         (<["name" := VStr "Ada"]> {["token" := VStr "T"]})) in
  let session_merged2 : gmap string value :=
    <["username" := VStr "ada"]>
      (<["profilePicture" := VStr "data:image/png;base64,AAAA"]>
         (<["user" := VObj {["name" := VStr "Ada"]}]> {["token" := VStr "T"]})) in
  (let (_, w1) := Unified.updateUserProfile env (VObj x) w in
   let (returned, w2) := Unified.updateUserProfile env (VObj y) w1 in
   returned = Normal (VObj merged2)
   ∧ JSON_parse env <$> localStorage w2 !! "solosafe_user" = Some (Some (VObj merged2))
   ∧ merged2 !! "token" = Some (VStr "T"))
  ∧ (let (_, w1) := SessionBased.updateUserProfile env (VObj x) w in
     let (returned, w2) := SessionBased.updateUserProfile env (VObj y) w1 in
     returned = Normal (VObj session_merged2)
     ∧ JSON_parse env <$> localStorage w2 !! "solosafe_user"
       = Some (Some (VObj session_merged2))
     ∧ session_merged2 !! "token" = Some (VStr "T")).
Proof.
  intros env w x y merged2 session_merged2.
  pose (user := (<["name" := VStr "Ada"]> {["token" := VStr "T"]}) : gmap string value).
  pose (stored := (<["user" := VObj {["name" := VStr "Ada"]}]> {["token" := VStr "T"]})
                  : gmap string value).
  destruct (C5_profile_updates_merge env w user x y) as (HU & _).
  destruct (C5_profile_updates_merge env w stored x y)
    as (_ & HS & _ & _ & _ & _ & _ & Hstored & _).
  split.
  - destruct (HU eq_refl) as [H1 H2].
    rewrite H1.
    rewrite H2; [|vm_compute; auto..].
    split; [|split]; vm_compute; reflexivity.
  - destruct (HS eq_refl) as [_ H2].
    destruct (Hstored ltac:(vm_compute; auto)
                (Examples.json "{'token':'T','user':{'name':'Ada'}}")
                eq_refl ltac:(vm_compute; reflexivity)) as [H1 _].
    rewrite H1.
    rewrite H2; [|vm_compute; auto..].
    split; [|split]; vm_compute; reflexivity.
Defined.

(** C5 fails as stated on an update that carries a [token] field: the
    merge puts it in the place of the credential, in both scripts. And
    in the main script an update with a [user] field makes the next load
    take the record for a nested one: the update after it is merged
    over the fields of that [user], and the name stored before is gone. *)
Lemma C5_update_can_replace_the_credential :
  let env := Reference.browser (Examples.reply_with 200 "[]") GeoFails 0 in
  let w := Examples.signed_in in
  let forged : gmap string value := {["token" := VStr "EVIL"]} in
  let w1 := snd (Unified.updateUserProfile env (VObj forged) w) in
  let s1 := snd (SessionBased.updateUserProfile env (VObj forged) w) in
  let w2 := snd (Unified.updateUserProfile env
                   (VObj {["user" := VObj {["nick" := VStr "Z"]}]}) w) in
  Unified.getAuthToken env w = (Normal (VStr "T"), w)
  ∧ Unified.getAuthToken env w1 = (Normal (VStr "EVIL"), w1)
  ∧ (session ← fst (SessionBased.getCurrentUser env w); get session "token")
    = Normal (VStr "T")
  ∧ (session ← fst (SessionBased.getCurrentUser env s1); get session "token")
    = Normal (VStr "EVIL")
  ∧ fst (Unified.getCurrentUser env w)
    = Normal (VObj (<["name" := VStr "Ada"]> {["token" := VStr "T"]}))
  ∧ fst (Unified.updateUserProfile env (VObj {["username" := VStr "ada"]}) w2)
    = Normal (VObj (<["username" := VStr "ada"]>
                      (<["nick" := VStr "Z"]> {["token" := VStr "T"]}))).
Proof. vm_compute. done. Qed.

(** C6, as the scripts have it. A stored session value that JSON.parse
    rejects is removed and [null] is returned, unless it is the empty
    string or the literal [undefined] (or [null]): those are answered
    with [null] before any parse and stay in storage. [getCurrentUser]
    returns normally for every stored value. *)
Theorem C6_unparseable_session_is_cleared env w :
  (∀ s,
     localStorage w !! "solosafe_user" = Some s →
     JSON_parse env s = None →
     s ≠ "" → s ≠ "undefined" → s ≠ "null" →
     Unified.getCurrentUser env w =
       (Normal VNull, with_localStorage (delete "solosafe_user") w)
     ∧ SessionBased.getCurrentUser env w =
       (Normal VNull, with_localStorage (delete "solosafe_user") w))
  ∧ (∀ s,
       localStorage w !! "solosafe_user" = Some s →
       s = "" ∨ s = "undefined" ∨ s = "null" →
       Unified.getCurrentUser env w = (Normal VNull, w)
       ∧ SessionBased.getCurrentUser env w = (Normal VNull, w))
  ∧ (∃ user w', Unified.getCurrentUser env w = (Normal user, w'))
  ∧ (∃ user w', SessionBased.getCurrentUser env w = (Normal user, w')).
Proof.
  split; [|split; [|split]].
  - intros s Hs Hp H1 H2 H3.
    pose proof (not_sentinel_not_guarded s H1 H2 H3) as Hg. split.
    + by apply (getCurrentUser_unparseable env w s).
    + by apply (session_getCurrentUser_unparseable env w s).
  - intros s Hs Hlit.
    assert (guarded (localStorage w !! "solosafe_user") = true) as Hg.
    { rewrite Hs. apply guarded_spec. destruct Hlit as [->|[->| ->]]; eauto. }
    split.
    + by apply getCurrentUser_guarded.
    + by apply session_getCurrentUser_guarded.
  - apply getCurrentUser_total.
  - apply session_getCurrentUser_total.
Qed.

Lemma C6_unparseable_session_is_cleared_witness :
  let env := Reference.browser (Examples.reply_with 200 "[]") GeoFails 0 in
  let w := Reference.page {["solosafe_user" := "{name: Ada"]} [] in
  (Unified.getCurrentUser env w =
     (Normal VNull, with_localStorage (delete "solosafe_user") w)
   ∧ SessionBased.getCurrentUser env w =
     (Normal VNull, with_localStorage (delete "solosafe_user") w))
  ∧ localStorage (snd (Unified.getCurrentUser env w)) = ∅.
Proof.
  intros env w. split.
  - apply (proj1 (C6_unparseable_session_is_cleared env w) "{name: Ada");
      [reflexivity | reflexivity | discriminate | discriminate | discriminate].
  - reflexivity.
Defined.

(** C6 fails as stated on the literal [undefined]: JSON.parse rejects
    it, yet both scripts leave the entry in storage. *)
Lemma C6_literal_undefined_is_not_cleared :
  let env := Reference.browser (Examples.reply_with 200 "[]") GeoFails 0 in
  let w := Reference.page {["solosafe_user" := "undefined"]} [] in
  JSON_parse env "undefined" = None
  ∧ Unified.getCurrentUser env w = (Normal VNull, w)
  ∧ SessionBased.getCurrentUser env w = (Normal VNull, w)
  ∧ localStorage (snd (Unified.getCurrentUser env w)) !! "solosafe_user"
      = Some "undefined"
  ∧ localStorage (snd (SessionBased.getCurrentUser env w)) !! "solosafe_user"
      = Some "undefined".
Proof. vm_compute. done. Qed.

(** C7, as the scripts have it. Logout removes the session record, the
    cached trip list and the signup draft (the main script also the
    provisional token) and no other key: the dark-mode flag stays. *)
Theorem C7_logout_clears_session_keys env w :
  let after_unified := localStorage (snd (Unified.logout env w)) in
  let after_session := localStorage (snd (SessionBased.logout w)) in
  after_unified =
    delete "solosafe_temp_signup"
      (delete "solosafe_trips"
         (delete "solosafe_token"
            (delete "solosafe_user" (localStorage w))))
  ∧ after_session =
      delete "solosafe_temp_signup"
        (delete "solosafe_trips"
           (delete "solosafe_user" (localStorage w)))
  ∧ after_unified !! "solosafe_dark_mode" = localStorage w !! "solosafe_dark_mode"
  ∧ after_session !! "solosafe_dark_mode" = localStorage w !! "solosafe_dark_mode".
Proof.
  cbn zeta. rewrite unified_logout_storage, session_logout_storage.
  repeat split; by rewrite !lookup_delete_ne.
Qed.

(** C7 fails as stated: the dark-mode flag survives logout in both
    scripts. *)
Lemma C7_dark_mode_flag_survives_logout :
  let env := Reference.browser (Examples.reply_with 200 "{}") GeoFails 0 in
  let w := Reference.page
             (<["solosafe_dark_mode" := "true"]>
                (<["solosafe_trips" := "[]"]> (localStorage Examples.signed_in))) [] in
  localStorage (snd (Unified.logout env w)) !! "solosafe_dark_mode" = Some "true"
  ∧ localStorage (snd (SessionBased.logout w)) !! "solosafe_dark_mode" = Some "true"
  ∧ localStorage (snd (Unified.logout env w)) !! "solosafe_user" = None.
Proof. vm_compute. done. Qed.

(** C8: the run on which the main script misses it. A session record
    with credential [OLD] is still in storage when the callback arrives
    with [?token=NEW]. [getAuthToken] prefers the record, so the profile
    is fetched with [OLD] and stored with [OLD]; the new token is
    dropped with the provisional entry. *)
Lemma C8_stale_session_keeps_old_credential :
  let env := CallbackExample.env in
  let w := CallbackExample.stale_session in
  let w' := snd (Unified.handleGoogleCallback env w) in
  fst (Unified.handleGoogleCallback env w) = Normal true
  ∧ JSON_parse env <$> localStorage w' !! "solosafe_user"
    = Some (Some (VObj (<["name" := VStr "Old User"]> {["token" := VStr "OLD"]})))
  ∧ localStorage w' !! "solosafe_token" = None
  ∧ location_search w' = []
  ∧ requests w' = [profile_request (VStr "OLD")].
Proof. vm_compute. done. Qed.

(** C9, as the scripts have it. When geolocation rejects, check-in and
    SOS go on: the request is handed to [fetch] with [location: null] in
    its body and the call returns normally. SOS tells the user of the
    success on every 2xx reply. Check-in reads the body of the reply
    before it looks at the status: it tells of the success on a 2xx
    reply with a JSON body, and on a 2xx reply whose body is not JSON it
    ends with its failure toast. (In the main script the gateway needs
    its credential, as for every call.) *)
Theorem C9_location_failure_does_not_block env w tripId :
  geolocation env = GeoFails ∨ geolocation env = GeoUnsupported →
  let checkIn_body :=
    Some (JSON_stringify env
            (VObj (<["location":=VNull]>
                   (<["timestamp":=VStr (Date_toISOString env)]> ∅)))) in
  let SOS_body :=
    Some (JSON_stringify env
            (VObj (<["tripId":=tripId]>
                   (<["location":=VNull]>
                    (<["timestamp":=VStr (Date_toISOString env)]> ∅))))) in
  let unreadable (request : string * FetchOptions) :=
    ∃ response, fetch_reply env (fst request) (snd request) = Some response
                ∧ ok response = true
                ∧ JSON_parse env (body response) = None in
  let failed (request : string * FetchOptions) :=
    (Normal (),
     with_toast ("Check-in failed. Please try again.", "error")
       (with_request request w)) in
  (∀ token,
     Unified.getAuthToken env w = (Normal token, w) →
     truthy token = true →
     let request :=
       (API_BASE_URL +:+ "/trips/" +:+ ToString tripId +:+ "/safe",
        Unified.mergedOptions token (checkIn_options env VNull)) in
     let SOS_request :=
       (API_BASE_URL +:+ "/alerts/sos",
        Unified.mergedOptions token (triggerSOS_options env tripId VNull)) in
     opt_body (snd request) = checkIn_body
     ∧ went_through (Unified.checkIn env tripId w) w request
         (accepted_with_json env request) ("Check-in successful! ✅", "success")
     ∧ opt_body (snd SOS_request) = SOS_body
     ∧ went_through (Unified.triggerSOS env tripId w) w SOS_request
         (accepted env SOS_request)
         ("🚨 SOS alert sent to all emergency contacts", "warning")
     ∧ (unreadable request → Unified.checkIn env tripId w = failed request))
  ∧ (let request :=
       ("https://solosafe-backend.onrender.com/api/trips/"
          +:+ ToString tripId +:+ "/safe",
        SessionBased.mergedOptions (checkIn_options env VNull)) in
     let SOS_request :=
       ("https://solosafe-backend.onrender.com/api/alerts/sos",
        SessionBased.mergedOptions (triggerSOS_options env tripId VNull)) in
     opt_body (snd request) = checkIn_body
     ∧ went_through (SessionBased.checkIn env tripId w) w request
         (accepted_with_json env request) ("Check-in successful! ✅", "success")
     ∧ opt_body (snd SOS_request) = SOS_body
     ∧ went_through (SessionBased.triggerSOS env tripId w) w SOS_request
         (accepted env SOS_request)
         ("🚨 SOS alert sent to all emergency contacts", "warning")
     ∧ (unreadable request → SessionBased.checkIn env tripId w = failed request)).
Proof.
  intros Hloc checkIn_body SOS_body unreadable failed. split.
  - intros token Ht Htr request SOS_request.
    split; [done|]. split; [|split; [done|split]].
    + by apply unified_checkIn_without_location.
    + by apply unified_triggerSOS_without_location.
    + intros (response & Hr & Hok & Hp).
      by apply (unified_checkIn_unreadable_reply env w tripId token response).
  - cbn zeta. split; [done|]. split; [|split; [done|split]].
    + by apply session_checkIn_without_location.
    + by apply session_triggerSOS_without_location.
    + intros (response & Hr & Hok & Hp).
      by apply (session_checkIn_unreadable_reply env w tripId response).
Qed.

Lemma C9_location_failure_does_not_block_witness :
  let env := Reference.browser (Examples.reply_with 200 "{}") GeoFails 0 in
  let w := Examples.signed_in in
  (∃ w', Unified.checkIn env (VStr "trip-1") w = (Normal (), w')
         ∧ toasts w' = [("Check-in successful! ✅", "success")]
         ∧ ∃ url options,
             requests w' = [(url, options)]
             ∧ (opt_body options ≫= Reference.parse) =
                 Some (VObj (<["location" := VNull]>
                               {["timestamp" := VStr "2026-01-01T00:00:00.000Z"]})))
  ∧ (∃ w', SessionBased.triggerSOS env (VStr "trip-1") w = (Normal (), w')
           ∧ toasts w' = [("🚨 SOS alert sent to all emergency contacts", "warning")]
           ∧ ∃ url options,
               requests w' = [(url, options)]
               ∧ (opt_body options ≫= Reference.parse) =
                   Some (VObj (<["tripId" := VStr "trip-1"]>
                                 (<["location" := VNull]>
                                    {["timestamp" := VStr "2026-01-01T00:00:00.000Z"]})))).
Proof.
  intros env w.
  destruct (C9_location_failure_does_not_block env w (VStr "trip-1")
              (or_introl eq_refl)) as [HU (_ & _ & _ & HS & _)].
  destruct (HU (VStr "T") eq_refl eq_refl) as (_ & (w1 & H1 & Hreq1 & Htoast1) & _).
  destruct HS as (w2 & H2 & Hreq2 & Htoast2).
  split.
  - exists w1. split; [exact H1|]. split.
    + apply Htoast1. eexists. split; [reflexivity|]. split; [reflexivity|].
      eexists. vm_compute. reflexivity.
    + eexists _, _. split; [exact Hreq1|]. vm_compute. reflexivity.
  - exists w2. split; [exact H2|]. split.
    + apply Htoast2. eexists. split; reflexivity.
    + eexists _, _. split; [exact Hreq2|]. vm_compute. reflexivity.
Defined.

(** C9 fails as stated on an acceptance without a JSON body: the backend
    answers 204 with an empty body, the request went out with
    [location: null], yet both check-ins end with the failure toast. *)
Lemma C9_accepted_check_in_without_json_body_fails :
  let env := Reference.browser (Examples.reply_with 204 "") GeoFails 0 in
  let w := Examples.signed_in in
  let request :=
    (API_BASE_URL +:+ "/trips/trip-1/safe",
     Unified.mergedOptions (VStr "T") (checkIn_options env VNull)) in
  let failure := ("Check-in failed. Please try again.", "error") in
  geolocation env = GeoFails
  ∧ accepted env request
  ∧ requests (snd (Unified.checkIn env (VStr "trip-1") w)) = [request]
  ∧ toasts (snd (Unified.checkIn env (VStr "trip-1") w)) = [failure]
  ∧ toasts (snd (SessionBased.checkIn env (VStr "trip-1") w)) = [failure]
  ∧ ¬ went_through (Unified.checkIn env (VStr "trip-1") w) w request
        (accepted env request) ("Check-in successful! ✅", "success").
Proof.
  intros env w request failure.
  assert (accepted env request) as Hacc.
  { exists {| status := 204; body := "" |}. split; reflexivity. }
  assert (toasts (snd (Unified.checkIn env (VStr "trip-1") w)) = [failure])
    as Htoasts by (vm_compute; reflexivity).
  split; [reflexivity|]. split; [exact Hacc|].
  split; [vm_compute; reflexivity|]. split; [exact Htoasts|].
  split; [vm_compute; reflexivity|].
  intros (w' & Hrun & _ & Hsuccess).
  rewrite Hrun in Htoasts. cbn [snd] in Htoasts.
  rewrite (Hsuccess Hacc) in Htoasts. discriminate Htoasts.
Qed.

(** C10, as the main script has it. On the stored literals [undefined]
    and [null] both [getCurrentUser]s return [null] whatever JSON.parse
    would do, and leave storage as it is. [getAuthToken] skips the
    record in the same way and, exactly as for an absent record, falls
    back to the provisional token: [null] only when there is none.
    Other text that JSON.parse rejects is removed by [getCurrentUser]. *)
Theorem C10_literal_undefined_and_null env w literal :
  literal = "undefined" ∨ literal = "null" →
  localStorage w !! "solosafe_user" = Some literal →
  Unified.getCurrentUser env w = (Normal VNull, w)
  ∧ SessionBased.getCurrentUser env w = (Normal VNull, w)
  ∧ Unified.getAuthToken env w =
      (Normal (item_or_null (localStorage w !! "solosafe_token")), w)
  ∧ fst (Unified.getAuthToken env w) =
      fst (Unified.getAuthToken env (with_localStorage (delete "solosafe_user") w))
  ∧ (localStorage w !! "solosafe_token" = None →
     Unified.getAuthToken env w = (Normal VNull, w))
  ∧ (∀ w2 s,
       localStorage w2 !! "solosafe_user" = Some s →
       JSON_parse env s = None →
       s ≠ "" → s ≠ "undefined" → s ≠ "null" →
       localStorage (snd (Unified.getCurrentUser env w2)) !! "solosafe_user" = None
       ∧ localStorage (snd (SessionBased.getCurrentUser env w2)) !! "solosafe_user"
           = None).
Proof.
  intros Hlit Hs.
  assert (guarded (localStorage w !! "solosafe_user") = true) as Hg.
  { rewrite Hs. apply guarded_spec. destruct Hlit as [->| ->]; eauto. }
  split; [by apply getCurrentUser_guarded|].
  split; [by apply session_getCurrentUser_guarded|].
  split; [by apply getAuthToken_guarded|].
  split; [|split].
  - rewrite (getAuthToken_guarded env w Hg), getAuthToken_guarded.
    + cbn. by rewrite lookup_delete_ne.
    + cbn. rewrite lookup_delete_eq. by apply guarded_spec; left.
  - intros Hnone. rewrite (getAuthToken_guarded env w Hg), Hnone. done.
  - intros w2 s Hs2 Hp H1 H2 H3.
    pose proof (not_sentinel_not_guarded s H1 H2 H3) as Hg2.
    rewrite (getCurrentUser_unparseable env w2 s Hs2 Hg2 Hp),
      (session_getCurrentUser_unparseable env w2 s Hs2 Hg2 Hp).
    cbn. by rewrite lookup_delete_eq.
Qed.

Lemma C10_literal_undefined_and_null_witness :
  let env := Reference.browser (Examples.reply_with 200 "[]") GeoFails 0 in
  let w := Reference.page {["solosafe_user" := "null"]} [] in
  Unified.getCurrentUser env w = (Normal VNull, w)
  ∧ SessionBased.getCurrentUser env w = (Normal VNull, w)
  ∧ Unified.getAuthToken env w = (Normal VNull, w).
Proof.
  intros env w.
  destruct (C10_literal_undefined_and_null env w "null" (or_intror eq_refl) eq_refl)
    as (HU & HS & _ & _ & HT & _).
  split; [exact HU|]. split; [exact HS|]. apply HT. reflexivity.
Defined.

(** C10 fails as stated for [getAuthToken]: with the literal [null] as
    session record and a provisional token in storage it returns that
    token, not [null]. *)
Lemma C10_getAuthToken_falls_back_to_provisional_token :
  let env := Reference.browser (Examples.reply_with 200 "[]") GeoFails 0 in
  let w := Reference.page
             (<["solosafe_user" := "null"]> {["solosafe_token" := "T"]}) [] in
  Unified.getAuthToken env w = (Normal (VStr "T"), w)
  ∧ fst (Unified.getAuthToken env w) ≠ Normal VNull.
Proof. split; [vm_compute; done | discriminate]. Qed.

(** * Further properties of the scripts *)

(** ** The gateway *)

(** X1. A reply whose status is not 401 is handed back to the caller as
    it is, whatever its status; the only trace of the call is the
    request given to [fetch]. *)
Theorem X1_gateway_passes_other_replies env w url options response :
  status response ≠ 401 →
  (∀ token,
     Unified.getAuthToken env w = (Normal token, w) →
     truthy token = true →
     fetch_reply env url (Unified.mergedOptions token options) = Some response →
     Unified.authenticatedFetch env url options w =
       (Normal (Some response),
        with_request (url, Unified.mergedOptions token options) w))
  ∧ (fetch_reply env url (SessionBased.mergedOptions options) = Some response →
     SessionBased.authenticatedFetch env url options w =
       (Normal (Some response),
        with_request (url, SessionBased.mergedOptions options) w)).
Proof.
  intros Hne. assert ((status response =? 401) = false) as H401 by lia. split.
  - intros token Ht Htr Hr.
    rewrite (unified_gateway_sends env w url options token Ht Htr). cbn zeta.
    by rewrite Hr, H401.
  - intros Hr. rewrite session_gateway_sends. cbn zeta. by rewrite Hr, H401.
Qed.

Lemma X1_gateway_passes_other_replies_witness :
  let env := Reference.browser (Examples.reply_with 500 "oops") GeoFails 0 in
  let w := Examples.signed_in in
  fst (Unified.authenticatedFetch env Examples.trips_url no_options w)
    = Normal (Some {| status := 500; body := "oops" |})
  ∧ fst (SessionBased.authenticatedFetch env Examples.trips_url no_options w)
    = Normal (Some {| status := 500; body := "oops" |}).
Proof.
  intros env w.
  destruct (X1_gateway_passes_other_replies env w Examples.trips_url no_options
              {| status := 500; body := "oops" |} ltac:(discriminate)) as [HU HS].
  split.
  - rewrite (HU (VStr "T")); [reflexivity | vm_compute; reflexivity ..].
  - rewrite HS; reflexivity.
Defined.

(** X2. When the transport fails the gateway tells the user and rethrows
    to its caller; it purges nothing and schedules no redirect. *)
Theorem X2_gateway_transport_failure env w url options :
  (∀ token,
     Unified.getAuthToken env w = (Normal token, w) →
     truthy token = true →
     fetch_reply env url (Unified.mergedOptions token options) = None →
     let (returned, w') := Unified.authenticatedFetch env url options w in
     returned = Throw FetchFailed
     ∧ toasts w' = toasts w ++ [("Network error. Please try again.", "error")]
     ∧ localStorage w' = localStorage w
     ∧ timeouts w' = timeouts w)
  ∧ (fetch_reply env url (SessionBased.mergedOptions options) = None →
     let (returned, w') := SessionBased.authenticatedFetch env url options w in
     returned = Throw FetchFailed
     ∧ toasts w' = toasts w ++ [("Network error. Please try again.", "error")]
     ∧ localStorage w' = localStorage w
     ∧ timeouts w' = timeouts w).
Proof.
  split.
  - intros token Ht Htr Hr.
    rewrite (unified_gateway_sends env w url options token Ht Htr). cbn zeta.
    by rewrite Hr.
  - intros Hr. rewrite session_gateway_sends. cbn zeta. by rewrite Hr.
Qed.

Lemma X2_gateway_transport_failure_witness :
  let env := Reference.browser (λ _ _, None) GeoFails 0 in
  let w := Examples.signed_in in
  fst (Unified.authenticatedFetch env Examples.trips_url no_options w)
    = Throw FetchFailed
  ∧ fst (SessionBased.authenticatedFetch env Examples.trips_url no_options w)
    = Throw FetchFailed.
Proof.
  intros env w.
  destruct (X2_gateway_transport_failure env w Examples.trips_url no_options)
    as [HU HS].
  specialize (HU (VStr "T") ltac:(vm_compute; reflexivity) eq_refl eq_refl).
  specialize (HS eq_refl).
  destruct (Unified.authenticatedFetch env Examples.trips_url no_options w).
  destruct (SessionBased.authenticatedFetch env Examples.trips_url no_options w).
  split; [apply HU | apply HS].
Defined.

Lemma unified_gateway_requests env w url options token :
  Unified.getAuthToken env w = (Normal token, w) →
  truthy token = true →
  requests (snd (Unified.authenticatedFetch env url options w)) =
    requests w ++ [(url, Unified.mergedOptions token options)].
Proof.
  intros Ht Htr. rewrite (unified_gateway_sends env w url options token Ht Htr).
  cbn zeta. destruct (fetch_reply env url _) as [r|]; [|done].
  by destruct (status r =? 401).
Qed.

(** X3. The request the main script's gateway issues keeps the caller's
    method and body. Without caller headers it carries the JSON content
    type and the bearer credential; headers given by the caller replace
    both, so a call that passes its own headers goes out without the
    credential unless it repeats it. *)
Theorem X3_gateway_request_headers env w url options token :
  Unified.getAuthToken env w = (Normal token, w) →
  truthy token = true →
  ∃ sent,
    requests (snd (Unified.authenticatedFetch env url options w)) =
      requests w ++ [(url, sent)]
    ∧ opt_method sent = opt_method options
    ∧ opt_body sent = opt_body options
    ∧ (opt_headers options = None →
       opt_headers sent =
         Some (<["Content-Type":="application/json"]>
                 {["Authorization" := "Bearer " +:+ ToString token]}))
    ∧ (∀ h, opt_headers options = Some h →
            opt_headers sent = Some h
            ∧ (h !! "Authorization" = None →
               ∀ h', opt_headers sent = Some h' → h' !! "Authorization" = None)).
Proof.
  intros Ht Htr. exists (Unified.mergedOptions token options).
  split; [by apply unified_gateway_requests|].
  split; [done|]. split; [done|]. split.
  - intros Hnone. unfold Unified.mergedOptions. cbn. rewrite Hnone. cbn.
    by rewrite (left_id_L ∅ (∪)).
  - intros h Hh. unfold Unified.mergedOptions. cbn. rewrite Hh. cbn.
    split; [done|]. intros Hno h' [= <-]. done.
Qed.

Lemma X3_gateway_request_headers_witness :
  let env := Reference.browser (Examples.reply_with 200 "[]") GeoFails 0 in
  let own_headers : gmap string string := {["Accept" := "text/plain"]} in
  let options := {| opt_method := None; opt_headers := Some own_headers;
                    opt_body := None; opt_credentials := None |} in
  ∃ sent,
    requests (snd (Unified.authenticatedFetch env Examples.trips_url options
                     Examples.signed_in)) = [(Examples.trips_url, sent)]
    ∧ opt_headers sent = Some own_headers.
Proof.
  intros env own_headers options.
  destruct (X3_gateway_request_headers env Examples.signed_in Examples.trips_url
              options (VStr "T") ltac:(vm_compute; reflexivity) eq_refl)
    as (sent & Hreq & _ & _ & _ & Hown).
  exists sent. split; [exact Hreq|]. apply (Hown own_headers eq_refl).
Defined.

(** ** Logout and the purged session *)

Lemma no_entries_no_credential env w :
  localStorage w !! "solosafe_user" = None →
  localStorage w !! "solosafe_token" = None →
  Unified.getAuthToken env w = (Normal VNull, w)
  ∧ Unified.getCurrentUser env w = (Normal VNull, w).
Proof.
  intros Hu Ht.
  assert (guarded (localStorage w !! "solosafe_user") = true) as Hg.
  { rewrite Hu. by apply guarded_spec; left. }
  split; [|by apply getCurrentUser_guarded].
  by rewrite getAuthToken_guarded, Ht.
Qed.

Lemma unified_logout_run env w token :
  Unified.getAuthToken env w = (Normal token, w) →
  Unified.logout env w =
    (Normal (),
     with_timeout (Navigate "index.html", 1000)
       (with_toast ("Logged out successfully", "success")
          (with_localStorage
             (λ storage,
                delete "solosafe_temp_signup"
                  (delete "solosafe_trips"
                     (delete "solosafe_token" (delete "solosafe_user" storage))))
             (if truthy token then
                with_request
                  (API_BASE_URL +:+ "/auth/logout",
                   {| opt_method := Some "POST";
                      opt_headers :=
                        Some {["Authorization" := "Bearer " +:+ ToString token]};
                      opt_body := None; opt_credentials := None |}) w
              else w)))).
Proof.
  intros Ht. unfold Unified.logout. unfold_run. rewrite Ht.
  by destruct (truthy token).
Qed.

Lemma unified_logout_no_credential env w :
  let w' := snd (Unified.logout env w) in
  Unified.getAuthToken env w' = (Normal VNull, w')
  ∧ Unified.getCurrentUser env w' = (Normal VNull, w').
Proof.
  destruct (getAuthToken_total env w) as (token & Ht & _).
  rewrite (unified_logout_run env w token Ht). cbn [snd].
  apply no_entries_no_credential; cbn;
    by rewrite !lookup_delete_ne, lookup_delete_eq by done.
Qed.

Lemma unified_rejected_no_credential env w url options token response :
  Unified.getAuthToken env w = (Normal token, w) →
  truthy token = true →
  fetch_reply env url (Unified.mergedOptions token options) = Some response →
  status response = 401 →
  let w' := snd (Unified.authenticatedFetch env url options w) in
  Unified.getAuthToken env w' = (Normal VNull, w').
Proof.
  intros Ht Htr Hr H401.
  rewrite (unified_gateway_sends env w url options token Ht Htr). cbn zeta.
  rewrite Hr, H401. cbn [snd].
  apply no_entries_no_credential; cbn.
  - by rewrite lookup_delete_ne, lookup_delete_eq by done.
  - by rewrite lookup_delete_eq.
Qed.

(** X4. Logout of the main script always returns normally, tells the
    user, schedules one redirect to [index.html], and leaves no
    credential and no session to be found. It calls the backend's
    logout endpoint, with the bearer credential, only when it found a
    credential; [script.js] calls it every time. *)
Theorem X4_logout_effects env w token :
  Unified.getAuthToken env w = (Normal token, w) →
  (∃ w', Unified.logout env w = (Normal (), w')
         ∧ toasts w' = toasts w ++ [("Logged out successfully", "success")]
         ∧ timeouts w' = timeouts w ++ [(Navigate "index.html", 1000)]
         ∧ requests w' =
             requests w ++
             (if truthy token then
                [(API_BASE_URL +:+ "/auth/logout",
                  {| opt_method := Some "POST";
                     opt_headers :=
                       Some {["Authorization" := "Bearer " +:+ ToString token]};
                     opt_body := None; opt_credentials := None |})]
              else [])
         ∧ Unified.getAuthToken env w' = (Normal VNull, w')
         ∧ Unified.getCurrentUser env w' = (Normal VNull, w'))
  ∧ (∃ w', SessionBased.logout w = (Normal (), w')
           ∧ toasts w' = toasts w ++ [("Logged out successfully", "success")]
           ∧ timeouts w' = timeouts w ++ [(Navigate "index.html", 1000)]
           ∧ requests w' =
               requests w ++
               [("https://solosafe-backend.onrender.com/api/auth/logout",
                 {| opt_method := Some "POST"; opt_headers := None;
                    opt_body := None; opt_credentials := Some "include" |})]
           ∧ SessionBased.getCurrentUser env w' = (Normal VNull, w')).
Proof.
  intros Ht. split.
  - eexists. split; [by apply unified_logout_run|].
    split; [by destruct (truthy token)|]. split; [by destruct (truthy token)|].
    split.
    + destruct (truthy token); cbn; [done|]. by rewrite app_nil_r.
    + apply no_entries_no_credential; cbn;
        by rewrite !lookup_delete_ne, lookup_delete_eq by done.
  - eexists. split; [done|]. cbn. split; [done|]. split; [done|]. split; [done|].
    apply session_getCurrentUser_guarded. cbn.
    rewrite !lookup_delete_ne, lookup_delete_eq by done.
    by apply guarded_spec; left.
Qed.

Lemma X4_logout_effects_witness :
  let env := Reference.browser (Examples.reply_with 200 "{}") GeoFails 0 in
  (∃ w', Unified.logout env Examples.signed_in = (Normal (), w')
         ∧ length (requests w') = 1%nat
         ∧ Unified.getAuthToken env w' = (Normal VNull, w'))
  ∧ (∃ w', Unified.logout env Examples.signed_out = (Normal (), w')
           ∧ requests w' = []).
Proof.
  intros env. split.
  - destruct (X4_logout_effects env Examples.signed_in (VStr "T")
                ltac:(vm_compute; reflexivity))
      as [(w' & Hrun & _ & _ & Hreq & Htok & _) _].
    exists w'. split; [exact Hrun|]. split; [by rewrite Hreq|exact Htok].
  - destruct (X4_logout_effects env Examples.signed_out VNull
                ltac:(vm_compute; reflexivity))
      as [(w' & Hrun & _ & _ & Hreq & _) _].
    exists w'. split; [exact Hrun|exact Hreq].
Defined.

(** X5. Once the main script has purged the session, by logout or on a
    401, every later gateway call on the page is stopped before
    [fetch]: it returns [null] and issues no request. *)
Theorem X5_purged_session_sends_nothing env w url options :
  (let w1 := snd (Unified.logout env w) in
   let (returned, w2) := Unified.authenticatedFetch env url options w1 in
   returned = Normal None ∧ requests w2 = requests w1)
  ∧ (∀ token response url0 options0,
       Unified.getAuthToken env w = (Normal token, w) →
       truthy token = true →
       fetch_reply env url0 (Unified.mergedOptions token options0) = Some response →
       status response = 401 →
       let w1 := snd (Unified.authenticatedFetch env url0 options0 w) in
       let (returned, w2) := Unified.authenticatedFetch env url options w1 in
       returned = Normal None ∧ requests w2 = requests w1).
Proof.
  split.
  - destruct (unified_logout_no_credential env w) as [Hno _]. cbn zeta in *.
    by rewrite (unified_gateway_no_token env _ url options Hno).
  - intros token response url0 options0 Ht Htr Hr H401.
    pose proof (unified_rejected_no_credential env w url0 options0 token response
                  Ht Htr Hr H401) as Hno. cbn zeta in *.
    by rewrite (unified_gateway_no_token env _ url options Hno).
Qed.

Lemma X5_purged_session_sends_nothing_witness :
  let env := Reference.browser (Examples.reply_with 401 "") GeoFails 0 in
  let w1 := snd (Unified.authenticatedFetch env Examples.trips_url no_options
                   Examples.signed_in) in
  let (returned, w2) :=
    Unified.authenticatedFetch env Examples.trips_url no_options w1 in
  returned = Normal None ∧ requests w2 = requests w1.
Proof.
  intros env.
  apply (proj2 (X5_purged_session_sends_nothing env Examples.signed_in
                  Examples.trips_url no_options)
           (VStr "T") {| status := 401; body := "" |} Examples.trips_url no_options);
    vm_compute; reflexivity.
Defined.

(** ** The session store *)



(** Whatever way [fetchUserProfile] fails, the page is as it was but for
    the request it may have made. *)
Lemma fetchUserProfile_failure_frame env w e w' :
  Unified.fetchUserProfile env w = (Throw e, w') →
  w' = w ∨ ∃ token, w' = with_request (profile_request token) w.
Proof.
  unfold Unified.fetchUserProfile.
  destruct (getAuthToken_total env w) as (token & Ht & _).
  unfold_run. rewrite Ht.
  destruct (truthy token); cbn; [|intros [= <- <-]; by left].
  destruct (fetch_reply env _ _) as [r|]; cbn;
    [|intros [= <- <-]; right; by exists token].
  destruct (ok r); cbn; [|intros [= <- <-]; right; by exists token].
  destruct (JSON_parse env (body r)); cbn; [done|].
  intros [= <- <-]. right. by exists token.
Qed.

(** X7. [fetchUserProfile] writes the session only when it succeeds:
    whenever it throws, storage is as before. With no credential to be
    found it throws before any request is made. *)
Theorem X7_fetchUserProfile_failure_writes_nothing env w :
  (∀ e w', Unified.fetchUserProfile env w = (Throw e, w') →
           localStorage w' = localStorage w
           ∧ toasts w' = toasts w
           ∧ timeouts w' = timeouts w)
  ∧ (Unified.getAuthToken env w = (Normal VNull, w) →
     Unified.fetchUserProfile env w
       = (Throw (Error "No authentication token found"), w))
  ∧ (∀ token response,
       Unified.getAuthToken env w = (Normal token, w) →
       truthy token = true →
       fetch_reply env (fst (profile_request token)) (snd (profile_request token))
         = Some response →
       ok response = false →
       Unified.fetchUserProfile env w
         = (Throw (Error "Failed to fetch user profile"),
            with_request (profile_request token) w)).
Proof.
  split; [|split].
  - intros e w' Hrun.
    destruct (fetchUserProfile_failure_frame env w e w' Hrun) as [->|[t ->]]; done.
  - intros Ht. unfold Unified.fetchUserProfile. unfold_run. by rewrite Ht.
  - intros token response Ht Htr Hr Hok.
    unfold Unified.fetchUserProfile. unfold_run. rewrite Ht, Htr. cbn in *.
    by rewrite Hr, Hok.
Qed.

Lemma X7_fetchUserProfile_failure_writes_nothing_witness :
  let env := Reference.browser (Examples.reply_with 500 "down") GeoFails 0 in
  Unified.fetchUserProfile env Examples.signed_out
    = (Throw (Error "No authentication token found"), Examples.signed_out)
  ∧ fst (Unified.fetchUserProfile env Examples.signed_in)
    = Throw (Error "Failed to fetch user profile")
  ∧ localStorage (snd (Unified.fetchUserProfile env Examples.signed_in))
    = localStorage Examples.signed_in.
Proof.
  intros env.
  destruct (X7_fetchUserProfile_failure_writes_nothing env Examples.signed_out)
    as (_ & Hnone & _).
  destruct (X7_fetchUserProfile_failure_writes_nothing env Examples.signed_in)
    as (Hframe & _ & Hbad).
  split; [apply Hnone; reflexivity|].
  specialize (Hbad (VStr "T") {| status := 500; body := "down" |}
                ltac:(vm_compute; reflexivity) eq_refl eq_refl eq_refl).
  split; [by rewrite Hbad|].
  apply (Hframe _ _ Hbad).
Defined.

(** X8. What a successful [fetchUserProfile] stores is what the page
    then loads: [getCurrentUser] returns the object it returned and
    [getAuthToken] the credential it used (the record reading back
    through JSON.parse as written, and the profile carrying no truthy
    [user] field). *)
Theorem X8_fetched_profile_loads_back env w token response userData :
  standard_JSON env →
  Unified.getAuthToken env w = (Normal token, w) →
  truthy token = true →
  fetch_reply env (fst (profile_request token)) (snd (profile_request token))
    = Some response →
  ok response = true →
  JSON_parse env (body response) = Some userData →
  let session := VObj (<["token":=token]> (spread userData)) in
  JSON_parse env (JSON_stringify env session) = Some session →
  truthy (default VUndefined (spread userData !! "user")) = false →
  ∃ w', Unified.fetchUserProfile env w = (Normal session, w')
        ∧ Unified.getCurrentUser env w' = (Normal session, w')
        ∧ Unified.getAuthToken env w' = (Normal token, w').
Proof.
  intros Hstd Ht Htr Hr Hok Hp session Hround Hflat.
  eexists. split; [by apply (fetchUserProfile_stores env w token response userData)|].
  set (w1 := with_request (profile_request token) w).
  split.
  - apply (unified_reads_back env w1 (<["token":=token]> (spread userData)));
      [done..|]. by rewrite lookup_insert_ne.
  - apply (getAuthToken_session env _ (JSON_stringify env session) session token);
      [|by eapply parsed_object_not_guarded|done| |done].
    + cbn. by rewrite lookup_insert_eq.
    + cbn. by rewrite lookup_insert_eq.
Qed.

Lemma X8_fetched_profile_loads_back_witness :
  let env := CallbackExample.env in
  let w := Reference.page {["solosafe_token" := "NEW"]} [] in
  let session := VObj (<["token":=VStr "NEW"]> {["name" := VStr "New User"]}) in
  ∃ w', Unified.fetchUserProfile env w = (Normal session, w')
        ∧ Unified.getCurrentUser env w' = (Normal session, w')
        ∧ Unified.getAuthToken env w' = (Normal (VStr "NEW"), w').
Proof.
  intros env w session.
  refine (X8_fetched_profile_loads_back env w (VStr "NEW")
            {| status := 200; body := Examples.json "{'name':'New User'}" |}
            (VObj {["name" := VStr "New User"]}) _ _ _ _ _ _ _ _);
    vm_compute; auto.
Defined.

(** ** The OAuth callback and the page gate *)

Lemma try_catch_total {A} (c : M A) (h : exn → M A) :
  (∀ e w, ∃ a w', h e w = (Normal a, w')) →
  ∀ w, ∃ a w', try_catch c h w = (Normal a, w').
Proof.
  intros Hh w. unfold try_catch. destruct (c w) as [[a|e] w']; [by eauto|].
  apply Hh.
Qed.

Lemma fetchUserProfile_rejected env w :
  profile_rejected env →
  ∃ e w', Unified.fetchUserProfile env w = (Throw e, w').
Proof.
  intros Hrej. unfold Unified.fetchUserProfile.
  destruct (getAuthToken_total env w) as (token & Ht & _).
  unfold_run. rewrite Ht. destruct (truthy token); cbn; [|by eauto].
  destruct (fetch_reply env _ _) as [r|] eqn:Hr; cbn; [|by eauto].
  rewrite (Hrej token r Hr). cbn. by eauto.
Qed.

(** X9. [handleGoogleCallback] never throws, and on a page whose URL has
    no [token] parameter, or an empty one, it returns [false] and
    touches nothing. *)
Theorem X9_callback_without_token env w :
  (∃ handled w', Unified.handleGoogleCallback env w = (Normal handled, w'))
  ∧ (present (snd <$> List.find (λ p, String.eqb (fst p) "token")
                        (location_search w)) = false →
     Unified.handleGoogleCallback env w = (Normal false, w)).
Proof.
  split.
  - unfold Unified.handleGoogleCallback.
    unfold mbind at 1, M_bind at 1, URLSearchParams_get at 1.
    destruct (negb _); [by eexists _, _|].
    apply try_catch_total. intros e w0. unfold_run. by eauto.
  - intros Hq. unfold Unified.handleGoogleCallback.
    unfold mbind at 1, M_bind at 1, URLSearchParams_get at 1. by rewrite Hq.
Qed.

Lemma X9_callback_without_token_witness :
  let env := CallbackExample.env in
  let w := Reference.page (localStorage Examples.signed_in) [("tab", "trips")] in
  Unified.handleGoogleCallback env w = (Normal false, w).
Proof.
  intros env w. apply (proj2 (X9_callback_without_token env w)). reflexivity.
Defined.

Lemma handleGoogleCallback_rejected env w T :
  snd <$> List.find (λ p, String.eqb (fst p) "token") (location_search w) = Some T →
  T ≠ "" →
  profile_rejected env →
  ∃ w', Unified.handleGoogleCallback env w = (Normal false, w')
        ∧ localStorage w' =
            delete "solosafe_user"
              (delete "solosafe_token" (<["solosafe_token" := T]> (localStorage w)))
        ∧ Unified.getAuthToken env w' = (Normal VNull, w')
        ∧ toasts w' =
            toasts w ++ [("Authentication failed. Please try again.", "error")]
        ∧ timeouts w' = timeouts w ++ [(Navigate "login.html", 20000)]
        ∧ location_search w' = location_search w.
Proof.
  intros Hq HT Hrej.
  set (w1 := with_localStorage <["solosafe_token" := T]> w).
  destruct (fetchUserProfile_rejected env w1 Hrej) as (e & w2 & Hfetch).
  unfold Unified.handleGoogleCallback.
  unfold mbind at 1, M_bind at 1, URLSearchParams_get at 1. rewrite Hq.
  rewrite present_Some by done. cbn [negb].
  unfold try_catch at 1. unfold mbind at 1, M_bind at 1, localStorage_setItem at 1.
  change (with_localStorage <["solosafe_token":=default "" (Some T)]> w) with w1.
  unfold mbind at 1, M_bind at 1. rewrite Hfetch.
  unfold_run. cbn. eexists. split; [done|].
  destruct (fetchUserProfile_failure_frame env w1 e w2 Hfetch) as [->|[t ->]];
    (split; [done|]; split; [|done]);
    apply no_entries_no_credential; cbn;
    by rewrite ?lookup_delete_eq, ?lookup_delete_ne, ?lookup_delete_eq by done.
Qed.

(** X10. A callback whose profile request the backend turns down ends
    as a failed sign-in: [false] is returned, the user is told, the
    provisional token and any stored session are removed, and one
    redirect to [login.html] is scheduled after 20 s. The [token]
    parameter stays in the URL. *)
Theorem X10_callback_rejected env w T :
  snd <$> List.find (λ p, String.eqb (fst p) "token") (location_search w) = Some T →
  T ≠ "" →
  profile_rejected env →
  ∃ w', Unified.handleGoogleCallback env w = (Normal false, w')
        ∧ localStorage w' =
            delete "solosafe_user"
              (delete "solosafe_token" (<["solosafe_token" := T]> (localStorage w)))
        ∧ Unified.getAuthToken env w' = (Normal VNull, w')
        ∧ toasts w' =
            toasts w ++ [("Authentication failed. Please try again.", "error")]
        ∧ timeouts w' = timeouts w ++ [(Navigate "login.html", 20000)]
        ∧ location_search w' = location_search w.
Proof. apply handleGoogleCallback_rejected. Qed.

Lemma X10_callback_rejected_witness :
  let env := Reference.browser (Examples.reply_with 403 "") GeoFails 0 in
  let w := Reference.page ∅ [("token", "NEW")] in
  ∃ w', Unified.handleGoogleCallback env w = (Normal false, w')
        ∧ localStorage w' = ∅
        ∧ timeouts w' = [(Navigate "login.html", 20000)]
        ∧ location_search w' = [("token", "NEW")].
Proof.
  intros env w.
  destruct (X10_callback_rejected env w "NEW" eq_refl ltac:(discriminate))
    as (w' & Hrun & Hst & _ & _ & Htime & Hq).
  { intros token response [= <-]. reflexivity. }
  exists w'. split; [exact Hrun|]. split; [|split; [exact Htime|exact Hq]].
  rewrite Hst. vm_compute. reflexivity.
Defined.

(** ** The feature calls *)

Lemma unified_getAllTrips_total env w :
  ∃ trips w',
    Unified.getAllTrips env w = (Normal trips, w')
    ∧ (localStorage w' !! "solosafe_trips" = Some (JSON_stringify env (VArr trips))
       ∨ (trips = []
          ∧ localStorage w' !! "solosafe_trips" = localStorage w !! "solosafe_trips")).
Proof.
  unfold Unified.getAllTrips, try_catch, mbind, M_bind.
  destruct (getAuthToken_total env w) as (token & Ht & [Htr| ->]).
  - rewrite (unified_gateway_sends env w _ no_options token Ht Htr). cbn zeta.
    destruct (fetch_reply env _ _) as [r|]; [|by eexists _, _; eauto].
    destruct (status r =? 401).
    { eexists _, _. split; [done|]. right. split; [done|]. cbn.
      by rewrite !lookup_delete_ne. }
    unfold_run. cbn.
    destruct (JSON_parse env (body r)) as [[| | | | |l|]|]; cbn;
      try (by eexists _, _; eauto).
    destruct (ok r); cbn; [|by eexists _, _; eauto].
    eexists _, _. split; [done|]. left. cbn. by rewrite lookup_insert_eq.
  - rewrite (unified_gateway_no_token env w _ no_options Ht).
    eexists _, _. split; [done|]. by right.
Qed.

(** X11. [getAllTrips] never throws, and it returns trips only together
    with a fresh cache: either the cached trip list is now exactly the
    returned list, or the result is empty and the cache is untouched.
    [getCurrentTrip] never throws either and changes the page exactly
    as its [getAllTrips] call does. *)
Theorem X11_trips_are_cached env w :
  (∃ trips w',
     Unified.getAllTrips env w = (Normal trips, w')
     ∧ (localStorage w' !! "solosafe_trips" = Some (JSON_stringify env (VArr trips))
        ∨ (trips = []
           ∧ localStorage w' !! "solosafe_trips"
             = localStorage w !! "solosafe_trips")))
  ∧ (∃ trip, Unified.getCurrentTrip env w
             = (Normal trip, snd (Unified.getAllTrips env w))).
Proof.
  split; [apply unified_getAllTrips_total|].
  destruct (unified_getAllTrips_total env w) as (trips & w' & Hrun & _).
  unfold Unified.getCurrentTrip, try_catch, mbind, M_bind, lift. rewrite Hrun.
  destruct (Array_find _ trips); by eauto.
Qed.

Ltac wrapper_never_throws :=
  unfold never_throws; intros;
  unfold Unified.getAllTrips, Unified.getCurrentTrip, Unified.createTrip,
    Unified.updateTrip, Unified.endTrip, Unified.checkIn, Unified.triggerSOS,
    Unified.addContact, Unified.removeContact, Unified.changePassword,
    SessionBased.getCurrentTrip, SessionBased.createTrip, SessionBased.updateTrip,
    SessionBased.endTrip, SessionBased.checkIn, SessionBased.triggerSOS,
    SessionBased.addContact, SessionBased.removeContact,
    SessionBased.changePassword;
  apply try_catch_total; intros; unfold_run; by eauto.

(** X12. No feature call lets an exception out: whatever the backend,
    the transport and JSON.parse do, each of them returns normally. *)
Theorem X12_feature_calls_never_throw env engine_message :
  (never_throws (Unified.getAllTrips env)
   ∧ never_throws (Unified.getCurrentTrip env)
   ∧ (∀ tripData, never_throws (Unified.createTrip env engine_message tripData))
   ∧ (∀ tripId updates, never_throws (Unified.updateTrip env tripId updates))
   ∧ (∀ tripId, never_throws (Unified.endTrip env tripId))
   ∧ (∀ tripId, never_throws (Unified.checkIn env tripId))
   ∧ (∀ tripId, never_throws (Unified.triggerSOS env tripId))
   ∧ (∀ tripId contact, never_throws (Unified.addContact env tripId contact))
   ∧ (∀ tripId contactId, never_throws (Unified.removeContact env tripId contactId))
   ∧ (∀ old new, never_throws (Unified.changePassword env old new)))
  ∧ (never_throws (SessionBased.getCurrentTrip env)
     ∧ (∀ tripData, never_throws (SessionBased.createTrip env engine_message tripData))
     ∧ (∀ tripId updates, never_throws (SessionBased.updateTrip env tripId updates))
     ∧ (∀ tripId, never_throws (SessionBased.endTrip env tripId))
     ∧ (∀ tripId, never_throws (SessionBased.checkIn env tripId))
     ∧ (∀ tripId, never_throws (SessionBased.triggerSOS env tripId))
     ∧ (∀ tripId contact, never_throws (SessionBased.addContact env tripId contact))
     ∧ (∀ tripId contactId,
          never_throws (SessionBased.removeContact env tripId contactId))
     ∧ (∀ old new, never_throws (SessionBased.changePassword env old new))).
Proof.
  split.
  - repeat split; wrapper_never_throws.
  - repeat split; wrapper_never_throws.
Qed.

Ltac wrapper_aborts :=
  unfold aborts_silently, json_request; intros ? ? Hgate;
  unfold Unified.createTrip, Unified.updateTrip, Unified.endTrip,
    Unified.addContact, Unified.removeContact, Unified.changePassword,
    Unified.getAllTrips,
    SessionBased.getCurrentTrip, SessionBased.createTrip, SessionBased.updateTrip,
    SessionBased.endTrip, SessionBased.addContact, SessionBased.removeContact,
    SessionBased.changePassword;
  unfold try_catch, mbind, M_bind; by rewrite Hgate.

(** X13. When the gateway stops a call (no credential, or a 401), the
    feature call returns its sentinel ([null], [[]], [false] or
    nothing) and adds nothing of its own: no toast, no write, no second
    redirect. *)
Theorem X13_feature_calls_abort_silently env engine_message :
  (aborts_silently
     (Unified.authenticatedFetch env (API_BASE_URL +:+ "/trips") no_options)
     (Unified.getAllTrips env) []
   ∧ (∀ tripData,
        aborts_silently
          (Unified.authenticatedFetch env (API_BASE_URL +:+ "/trips")
             (json_request "POST" (stringify_body env tripData)))
          (Unified.createTrip env engine_message tripData) VNull)
   ∧ (∀ tripId updates,
        aborts_silently
          (Unified.authenticatedFetch env
             (API_BASE_URL +:+ "/trips/" +:+ ToString tripId)
             (json_request "PUT" (stringify_body env updates)))
          (Unified.updateTrip env tripId updates) VNull)
   ∧ (∀ tripId,
        aborts_silently
          (Unified.authenticatedFetch env
             (API_BASE_URL +:+ "/trips/" +:+ ToString tripId +:+ "/end")
             (json_request "PUT" None))
          (Unified.endTrip env tripId) VNull)
   ∧ (∀ tripId contact,
        aborts_silently
          (Unified.authenticatedFetch env
             (API_BASE_URL +:+ "/trips/" +:+ ToString tripId +:+ "/contacts")
             (json_request "PUT" (stringify_body env contact)))
          (Unified.addContact env tripId contact) VNull)
   ∧ (∀ tripId contactId,
        aborts_silently
          (Unified.authenticatedFetch env
             (API_BASE_URL +:+ "/trips/" +:+ ToString tripId +:+ "/contacts/"
                +:+ ToString contactId)
             (json_request "DELETE" None))
          (Unified.removeContact env tripId contactId) ())
   ∧ (∀ old new,
        aborts_silently
          (Unified.authenticatedFetch env (API_BASE_URL +:+ "/auth/change-password")
             (json_request "PUT"
                (Some (JSON_stringify env
                         (VObj (<["oldPassword":=old]>
                                  (<["newPassword":=new]> ∅)))))))
          (Unified.changePassword env old new) false))
  ∧ (aborts_silently
       (SessionBased.authenticatedFetch env
          "https://solosafe-backend.onrender.com/api/trips" no_options)
       (SessionBased.getCurrentTrip env) VNull
     ∧ (∀ tripData,
          aborts_silently
            (SessionBased.authenticatedFetch env
               "https://solosafe-backend.onrender.com/api/trips"
               (json_request "POST" (stringify_body env tripData)))
            (SessionBased.createTrip env engine_message tripData) VNull)
     ∧ (∀ tripId updates,
          aborts_silently
            (SessionBased.authenticatedFetch env
               ("https://solosafe-backend.onrender.com/api/trips/"
                  +:+ ToString tripId)
               (json_request "PUT" (stringify_body env updates)))
            (SessionBased.updateTrip env tripId updates) VNull)
     ∧ (∀ tripId,
          aborts_silently
            (SessionBased.authenticatedFetch env
               ("https://solosafe-backend.onrender.com/api/trips/"
                  +:+ ToString tripId +:+ "/end")
               (json_request "PUT" None))
            (SessionBased.endTrip env tripId) VNull)
     ∧ (∀ tripId contact,
          aborts_silently
            (SessionBased.authenticatedFetch env
               ("https://solosafe-backend.onrender.com/api/trips/"
                  +:+ ToString tripId +:+ "/contacts")
               (json_request "PUT" (stringify_body env contact)))
            (SessionBased.addContact env tripId contact) VNull)
     ∧ (∀ tripId contactId,
          aborts_silently
            (SessionBased.authenticatedFetch env
               ("https://solosafe-backend.onrender.com/api/trips/"
                  +:+ ToString tripId +:+ "/contacts/" +:+ ToString contactId)
               (json_request "DELETE" None))
            (SessionBased.removeContact env tripId contactId) ())
     ∧ (∀ old new,
          aborts_silently
            (SessionBased.authenticatedFetch env
               "https://solosafe-backend.onrender.com/api/auth/change-password"
               (json_request "PUT"
                  (Some (JSON_stringify env
                           (VObj (<["oldPassword":=old]>
                                    (<["newPassword":=new]> ∅)))))))
            (SessionBased.changePassword env old new) false)).
Proof.
  split.
  - repeat split; intros; wrapper_aborts.
  - repeat split; intros; wrapper_aborts.
Qed.

Lemma X13_feature_calls_abort_silently_witness :
  let env := Reference.browser (Examples.reply_with 200 "{}") GeoFails 0 in
  let w := Examples.signed_out in
  Unified.createTrip env (λ _, "") (VObj ∅) w
  = (Normal VNull,
     with_timeout (Navigate "login.html", 1000)
       (with_toast ("Please login first", "warning") w)).
Proof.
  intros env w.
  destruct (X13_feature_calls_abort_silently env (λ _, "")) as [(_ & Hcreate & _) _].
  apply (Hcreate (VObj ∅) w). reflexivity.
Defined.



(** X15. [changePassword] answers with whether the backend accepted:
    once the gateway has handed over a reply with a JSON object as
    body, it returns [true] with a success toast on a 2xx status, and
    [false] with the backend's [message] (or the default text)
    otherwise. *)
Theorem X15_changePassword_outcome env old new w w' response o :
  JSON_parse env (body response) = Some (VObj o) →
  let options :=
    json_request "PUT"
      (Some (JSON_stringify env
               (VObj (<["oldPassword":=old]> (<["newPassword":=new]> ∅))))) in
  let outcome :=
    if ok response
    then (Normal true, with_toast ("Password changed successfully!", "success") w')
    else (Normal false,
          with_toast
            (ToString (js_or (default VUndefined (o !! "message"))
                         (VStr "Failed to change password")), "error") w') in
  (Unified.authenticatedFetch env (API_BASE_URL +:+ "/auth/change-password")
     options w = (Normal (Some response), w') →
   Unified.changePassword env old new w = outcome)
  ∧ (SessionBased.authenticatedFetch env
       "https://solosafe-backend.onrender.com/api/auth/change-password"
       options w = (Normal (Some response), w') →
     SessionBased.changePassword env old new w = outcome).
Proof.
  intros Hp options outcome. unfold options, outcome, json_request.
  split; intros Hgate;
    unfold Unified.changePassword, SessionBased.changePassword;
    unfold try_catch at 1; unfold mbind at 1, M_bind at 1;
    rewrite Hgate; unfold_run; cbn; rewrite Hp; cbn;
    by destruct (ok response).
Qed.

Lemma X15_changePassword_outcome_witness :
  let env := Reference.browser
               (Examples.reply_with 403
                  (Examples.json "{'message':'Old password is wrong'}"))
               GeoFails 0 in
  ∃ w', SessionBased.changePassword env (VStr "old") (VStr "new") Examples.signed_in
        = (Normal false, w')
        ∧ toasts w' = [("Old password is wrong", "error")].
Proof.
  intros env.
  set (gate :=
         SessionBased.authenticatedFetch env
           "https://solosafe-backend.onrender.com/api/auth/change-password"
           (json_request "PUT"
              (Some (JSON_stringify env
                       (VObj (<["oldPassword":=VStr "old"]>
                                (<["newPassword":=VStr "new"]> ∅))))))
           Examples.signed_in).
  set (reply := {| status := 403;
                   body := Examples.json "{'message':'Old password is wrong'}" |}).
  assert (gate = (Normal (Some reply), snd gate)) as Hgate
    by (vm_compute; reflexivity).
  assert (JSON_parse env (body reply)
          = Some (VObj {["message" := VStr "Old password is wrong"]}))
    as Hparse by (vm_compute; reflexivity).
  rewrite (proj2 (X15_changePassword_outcome env (VStr "old") (VStr "new")
                    Examples.signed_in (snd gate) reply _ Hparse) Hgate).
  exists (with_toast ("Old password is wrong", "error") (snd gate)).
  split; vm_compute; reflexivity.
Defined.

(** X16. [updateTrip] is silent: whatever happens, the page after it is
    the page after its one gateway call; it shows no toast of its own,
    not even when the update failed. *)
Theorem X16_updateTrip_is_silent env tripId updates w :
  snd (Unified.updateTrip env tripId updates w)
  = snd (Unified.authenticatedFetch env
           (API_BASE_URL +:+ "/trips/" +:+ ToString tripId)
           (json_request "PUT" (stringify_body env updates)) w)
  ∧ snd (SessionBased.updateTrip env tripId updates w)
    = snd (SessionBased.authenticatedFetch env
             ("https://solosafe-backend.onrender.com/api/trips/" +:+ ToString tripId)
             (json_request "PUT" (stringify_body env updates)) w).
Proof.
  unfold json_request.
  split;
    unfold Unified.updateTrip, SessionBased.updateTrip;
    unfold try_catch at 1; unfold mbind at 1, M_bind at 1;
    match goal with
    | |- context [Unified.authenticatedFetch ?e ?u ?o ?w] =>
        destruct (Unified.authenticatedFetch e u o w) as [[[r|]|] w0]
    | |- context [SessionBased.authenticatedFetch ?e ?u ?o ?w] =>
        destruct (SessionBased.authenticatedFetch e u o w) as [[[r|]|] w0]
    end; try done;
    unfold_run; cbn;
    destruct (JSON_parse env (body r)) as [data|]; cbn; try done;
    destruct (ok r); cbn; try done;
    destruct (get data "trip") as [trip|]; cbn; try done;
    by destruct (truthy trip).
Qed.

Lemma getAuthToken_reads_storage env w :
  Unified.getAuthToken env w = (Normal (stored_credential env (localStorage w)), w).
Proof.
  unfold stored_credential, Unified.getAuthToken. unfold_run. cbn.
  destruct (present (localStorage w !! "solosafe_user") && _ && _); [|done].
  destruct (JSON_parse env _) as [d|]; [|done].
  destruct (get d "token") as [t|]; [|done].
  by destruct (truthy t).
Qed.

Lemma getAuthToken_same_storage env w1 w2 token :
  localStorage w1 = localStorage w2 →
  Unified.getAuthToken env w1 = (Normal token, w1) →
  Unified.getAuthToken env w2 = (Normal token, w2).
Proof.
  intros Heq. rewrite !getAuthToken_reads_storage, Heq. by intros [= ->].
Qed.

Lemma sendNotification_keeps env title text w :
  ∃ w', sendNotification env title text w = (Normal (), w')
        ∧ requests w' = requests w
        ∧ toasts w' = toasts w
        ∧ localStorage w' = localStorage w
        ∧ currentLocation w' = currentLocation w.
Proof.
  unfold sendNotification.
  destruct (Notification_permission env) as [[| |]|]; by eexists.
Qed.

Lemma location_is_remembered env w lat lng :
  geolocation env = GeoPosition lat lng →
  let remembered :=
    VObj (<["lat":=lat]> (<["lng":=lng]> (<["timestamp":=VNum (Date_now env)]> ∅))) in
  try_catch (getCurrentLocation env) (λ _, mret VNull) w
  = (Normal remembered, with_currentLocation remembered w).
Proof. intros Hgeo. unfold getCurrentLocation, try_catch. by rewrite Hgeo. Qed.

Lemma location_field_of_position lat lng timestamp w :
  location_field
    (VObj (<["lat":=lat]> (<["lng":=lng]> (<["timestamp":=timestamp]> ∅)))) w
  = (Normal (VObj (<["lat":=lat]> (<["lng":=lng]> ∅))), w).
Proof.
  unfold location_field. cbn [truthy]. unfold_run. cbn [get].
  by rewrite lookup_insert_eq, lookup_insert_ne, lookup_insert_eq.
Qed.

(** Up to the gateway call, with the position obtained. *)
Ltac enter_gateway_located Hgeo :=
  unfold located_call;
  unfold try_catch at 1; unfold mbind at 1, M_bind at 1;
  rewrite (location_is_remembered _ _ _ _ Hgeo); cbn zeta;
  unfold mbind at 1, M_bind at 1;
  rewrite location_field_of_position;
  unfold mbind at 1, M_bind at 1.

Ltac located_cases env :=
  repeat match goal with
    | |- context [fetch_reply env ?u ?o] => destruct (fetch_reply env u o); cbn
    | |- context [status ?r =? 401] => destruct (status r =? 401); cbn
    | |- context [JSON_parse env ?s] => destruct (JSON_parse env s); cbn
    | |- context [ok ?r] => destruct (ok r); cbn
    | |- context [get ?d "message"] => destruct (get d "message"); cbn
    | |- context [sendNotification env ?t ?x ?w] =>
        let wn := fresh "wn" in
        let E := fresh "E" in
        let H1 := fresh "Hn" in
        let H2 := fresh "Hn" in
        let H3 := fresh "Hn" in
        let H4 := fresh "Hn" in
        destruct (sendNotification_keeps env t x w) as (wn & E & H1 & H2 & H3 & H4);
        rewrite E; cbn; cbn in H1, H4
    end;
  (eexists; split; [reflexivity|split; [congruence || done | congruence || done]]).

(** X17. When geolocation answers, check-in and SOS send the position
    as [{lat, lng}] (the timestamp is not sent) and the page keeps
    [{lat, lng, timestamp}] as its current location, whatever the
    backend then replies. *)
Theorem X17_position_is_sent env w tripId lat lng :
  geolocation env = GeoPosition lat lng →
  let position := VObj (<["lat":=lat]> (<["lng":=lng]> ∅)) in
  let remembered :=
    VObj (<["lat":=lat]> (<["lng":=lng]> (<["timestamp":=VNum (Date_now env)]> ∅))) in
  (∀ token,
     Unified.getAuthToken env w = (Normal token, w) →
     truthy token = true →
     located_call (Unified.checkIn env tripId w) w
       (API_BASE_URL +:+ "/trips/" +:+ ToString tripId +:+ "/safe",
        Unified.mergedOptions token (checkIn_options env position)) remembered
     ∧ located_call (Unified.triggerSOS env tripId w) w
         (API_BASE_URL +:+ "/alerts/sos",
          Unified.mergedOptions token (triggerSOS_options env tripId position))
         remembered)
  ∧ located_call (SessionBased.checkIn env tripId w) w
      ("https://solosafe-backend.onrender.com/api/trips/"
         +:+ ToString tripId +:+ "/safe",
       SessionBased.mergedOptions (checkIn_options env position)) remembered
  ∧ located_call (SessionBased.triggerSOS env tripId w) w
      ("https://solosafe-backend.onrender.com/api/alerts/sos",
       SessionBased.mergedOptions (triggerSOS_options env tripId position))
      remembered.
Proof.
  intros Hgeo position remembered. split; [|split].
  - intros token Ht Htr.
    pose proof (getAuthToken_same_storage env w (with_currentLocation remembered w)
                  token eq_refl Ht) as Ht'.
    split.
    + unfold Unified.checkIn. enter_gateway_located Hgeo.
      fold position. fold (checkIn_options env position).
      rewrite (unified_gateway_sends env _ _ _ token Ht' Htr). cbn zeta.
      unfold_run. located_cases env.
    + unfold Unified.triggerSOS. enter_gateway_located Hgeo.
      fold position. fold (triggerSOS_options env tripId position).
      rewrite (unified_gateway_sends env _ _ _ token Ht' Htr). cbn zeta.
      unfold_run. located_cases env.
  - unfold SessionBased.checkIn. enter_gateway_located Hgeo.
    fold position. fold (checkIn_options env position).
    rewrite session_gateway_sends. cbn zeta.
    unfold_run. located_cases env.
  - unfold SessionBased.triggerSOS. enter_gateway_located Hgeo.
    fold position. fold (triggerSOS_options env tripId position).
    rewrite session_gateway_sends. cbn zeta.
    unfold_run. located_cases env.
Qed.

Lemma X17_position_is_sent_witness :
  let env := Reference.browser (Examples.reply_with 200 "{}")
               (GeoPosition (VNum 48) (VNum 2)) 1000 in
  ∃ w' request,
    SessionBased.checkIn env (VStr "trip-1") Examples.signed_in = (Normal (), w')
    ∧ requests w' = [request]
    ∧ (opt_body (snd request) ≫= Reference.parse) =
        Some (VObj (<["location" :=
                        VObj (<["lat":=VNum 48]> {["lng" := VNum 2]})]>
                      {["timestamp" := VStr "2026-01-01T00:00:00.000Z"]}))
    ∧ currentLocation w' =
        VObj (<["lat":=VNum 48]>
                (<["lng":=VNum 2]> {["timestamp" := VNum 1000]})).
Proof.
  intros env.
  destruct (X17_position_is_sent env Examples.signed_in (VStr "trip-1")
              (VNum 48) (VNum 2) eq_refl) as (_ & (w' & Hrun & Hreq & Hloc) & _).
  eexists w', _. split; [exact Hrun|]. split; [exact Hreq|].
  split; [vm_compute; reflexivity|exact Hloc].
Defined.

(** ** The welcome line *)

Lemma before_at_local local domain :
  includes local "@" = false →
  before_at (local +:+ "@" +:+ domain) = local.
Proof.
  induction local as [|c local IH]; [done|].
  intros Hno. cbn [includes String.prefix] in Hno.
  apply orb_false_iff in Hno as [Hc Hrest].
  change (before_at (String c (local +:+ "@" +:+ domain)) = String c local).
  cbn [before_at]. destruct (Ascii.eqb c "@") eqn:Heq.
  - apply Ascii.eqb_eq in Heq as ->. by destruct local.
  - by rewrite IH.
Qed.

Lemma unified_welcome_run env w (user : gmap string value) :
  Unified.getCurrentUser env w = (Normal (VObj user), w) →
  let name := default VUndefined (user !! "name") in
  let username := default VUndefined (user !! "username") in
  let email := default VUndefined (user !! "email") in
  Unified.getWelcomeMessage env w =
    (displayName ←
       (if truthy name then Normal name
        else if truthy username then Normal username
        else split_at_first email);
     mret ("Welcome back, " +:+ ToString displayName +:+ "!"), w).
Proof.
  intros Hu name username email.
  unfold Unified.getWelcomeMessage. unfold mbind at 1, M_bind at 1.
  rewrite Hu. cbn [truthy negb]. unfold_run. cbn [get].
  fold name username email.
  destruct (truthy name); [done|]. destruct (truthy username); [done|].
  by destruct (split_at_first email).
Qed.

(** X18. The welcome line of the main script: ['Welcome!'] without a
    session; otherwise it greets by [name], else by [username], else by
    what stands before the [@] of [email]; and it throws a TypeError
    when the session has none of the three as a usable value. *)
Theorem X18_welcome_line env w :
  (localStorage w !! "solosafe_user" = None →
   Unified.getWelcomeMessage env w = (Normal "Welcome!", w))
  ∧ (∀ user : gmap string value,
       Unified.getCurrentUser env w = (Normal (VObj user), w) →
       let name := default VUndefined (user !! "name") in
       let username := default VUndefined (user !! "username") in
       let email := default VUndefined (user !! "email") in
       (truthy name = true →
        Unified.getWelcomeMessage env w
          = (Normal ("Welcome back, " +:+ ToString name +:+ "!"), w))
       ∧ (truthy name = false → truthy username = true →
          Unified.getWelcomeMessage env w
            = (Normal ("Welcome back, " +:+ ToString username +:+ "!"), w))
       ∧ (truthy name = false → truthy username = false →
          ∀ local domain,
            email = VStr (local +:+ "@" +:+ domain) →
            includes local "@" = false →
            Unified.getWelcomeMessage env w
              = (Normal ("Welcome back, " +:+ local +:+ "!"), w))
       ∧ (truthy name = false → truthy username = false →
          (∀ s, email ≠ VStr s) →
          Unified.getWelcomeMessage env w = (Throw TypeError, w))).
Proof.
  split.
  - intros Hnone. unfold Unified.getWelcomeMessage, mbind, M_bind.
    rewrite getCurrentUser_guarded; [done|].
    rewrite Hnone. by apply guarded_spec; left.
  - intros user Hu name username email.
    rewrite (unified_welcome_run env w user Hu). cbn zeta.
    fold name username email.
    split; [|split; [|split]].
    + by intros ->.
    + by intros -> ->.
    + intros -> -> local domain -> Hlocal. cbn.
      by rewrite before_at_local.
    + intros -> -> Hemail. destruct email; try done. by destruct (Hemail s).
Qed.

Lemma X18_welcome_line_witness :
  let env := Reference.browser (Examples.reply_with 200 "{}") GeoFails 0 in
  let by_email := Reference.page
    {["solosafe_user" := Examples.json "{'token':'T','email':'ada@example.com'}"]} [] in
  let nameless := Reference.page
    {["solosafe_user" := Examples.json "{'token':'T'}"]} [] in
  Unified.getWelcomeMessage env Examples.signed_out = (Normal "Welcome!", Examples.signed_out)
  ∧ Unified.getWelcomeMessage env Examples.signed_in
    = (Normal "Welcome back, Ada!", Examples.signed_in)
  ∧ Unified.getWelcomeMessage env by_email = (Normal "Welcome back, ada!", by_email)
  ∧ Unified.getWelcomeMessage env nameless = (Throw TypeError, nameless).
Proof.
  intros env by_email nameless.
  split; [apply (proj1 (X18_welcome_line env Examples.signed_out)); reflexivity|].
  split; [|split].
  - refine (proj1 (proj2 (X18_welcome_line env Examples.signed_in)
                     (<["name":=VStr "Ada"]> {["token" := VStr "T"]}) _) _);
      vm_compute; reflexivity.
  - refine (proj1 (proj2 (proj2 (proj2 (X18_welcome_line env by_email)
                     (<["email":=VStr "ada@example.com"]> {["token" := VStr "T"]}) _)))
              _ _ "ada" "example.com" _ _);
      vm_compute; reflexivity.
  - refine (proj2 (proj2 (proj2 (proj2 (X18_welcome_line env nameless)
                     ({["token" := VStr "T"]} : gmap string value) _))) _ _ _);
      [vm_compute; reflexivity..|].
    intros s. vm_compute. discriminate.
Defined.

(** X19. The welcome line of [script.js] reads the stored record raw.
    It greets only a record of the nested shape whose [user.name] is
    truthy; with nothing stored, with a flat record, or with a nameless
    user (and no [requestNotificationPermission] field to fall back on)
    it throws a TypeError. *)
Theorem X19_session_welcome_line env w :
  standard_JSON env →
  (localStorage w !! "solosafe_user" = None →
   SessionBased.getWelcomeMessage env w = (Throw TypeError, w))
  ∧ (∀ s (o : gmap string value),
       localStorage w !! "solosafe_user" = Some s →
       JSON_parse env s = Some (VObj o) →
       (o !! "user" = None →
        SessionBased.getWelcomeMessage env w = (Throw TypeError, w))
       ∧ (∀ user : gmap string value,
            o !! "user" = Some (VObj user) →
            let name := default VUndefined (user !! "name") in
            (truthy name = true →
             SessionBased.getWelcomeMessage env w
               = (Normal ("Welcome back, " +:+ ToString name +:+ "!"), w))
            ∧ (truthy name = false →
               o !! "requestNotificationPermission" = None →
               SessionBased.getWelcomeMessage env w = (Throw TypeError, w)))).
Proof.
  intros (_ & _ & Hnull). split.
  - intros Hnone. unfold SessionBased.getWelcomeMessage. unfold_run.
    rewrite Hnone. cbn. by rewrite Hnull.
  - intros s o Hs Hp. unfold SessionBased.getWelcomeMessage. unfold_run.
    rewrite Hs. cbn. rewrite Hp. cbn. split.
    + by intros ->.
    + intros user Hu. rewrite Hu. cbn. split.
      * by intros ->.
      * by intros -> ->.
Qed.

Lemma X19_session_welcome_line_witness :
  let env := Reference.browser (Examples.reply_with 200 "{}") GeoFails 0 in
  let flat := Reference.page
    {["solosafe_user" := Examples.json "{'token':'T','name':'Ada'}"]} [] in
  SessionBased.getWelcomeMessage env Examples.signed_out
    = (Throw TypeError, Examples.signed_out)
  ∧ SessionBased.getWelcomeMessage env flat = (Throw TypeError, flat)
  ∧ SessionBased.getWelcomeMessage env Examples.signed_in
    = (Normal "Welcome back, Ada!", Examples.signed_in).
Proof.
  intros env flat.
  assert (standard_JSON env) as Hstd by (vm_compute; auto).
  split; [apply (proj1 (X19_session_welcome_line env Examples.signed_out Hstd));
          reflexivity|].
  split.
  - refine (proj1 (proj2 (X19_session_welcome_line env flat Hstd)
                     (Examples.json "{'token':'T','name':'Ada'}")
                     (<["token":=VStr "T"]> {["name" := VStr "Ada"]}) _ _) _);
      vm_compute; reflexivity.
  - refine (proj1 (proj2 (proj2 (X19_session_welcome_line env Examples.signed_in Hstd)
                     (Examples.json "{'token':'T','user':{'name':'Ada'}}")
                     (<["token":=VStr "T"]>
                        {["user" := VObj {["name" := VStr "Ada"]}]}) _ _)
                     ({["name" := VStr "Ada"]} : gmap string value) _) _);
      vm_compute; reflexivity.
Defined.

(** ** The profile picture *)

Lemma updateUserProfile_keeps_toasts env updates w :
  (∃ user w', Unified.updateUserProfile env updates w = (Normal user, w')
              ∧ toasts w' = toasts w)
  ∧ (∃ user w', SessionBased.updateUserProfile env updates w = (Normal user, w')
                ∧ toasts w' = toasts w).
Proof.
  split.
  - unfold Unified.updateUserProfile, Unified.getCurrentUser. unfold_run.
    destruct (negb _ || _ || _); [by eexists _, _|].
    destruct (JSON_parse env _) as [d|]; [|by eexists _, _].
    destruct (get d "user") as [u|]; [|by eexists _, _]. cbn.
    destruct (truthy u); cbn.
    + destruct (get d "token"); by eexists _, _.
    + destruct (truthy d); by eexists _, _.
  - unfold SessionBased.updateUserProfile, SessionBased.getCurrentUser. unfold_run.
    destruct (negb _ || _ || _); [by eexists _, _|].
    destruct (JSON_parse env _) as [d|]; [|by eexists _, _]. cbn.
    destruct (truthy d); by eexists _, _.
Qed.

(** X20. The main script refuses a picture whose type does not start
    with [image/] or whose size is above 5 MB (5242880 bytes are still
    accepted), before reading it and without touching the page;
    [script.js] takes any file that can be read. A file that passes and
    is read gives its data URL and the success toast. *)
Theorem X20_picture_validation env w file :
  (String.prefix "image/" (file_type file) = false →
   Unified.uploadProfilePicture env file w
     = (Throw (Error "Please select an image file"), w))
  ∧ (String.prefix "image/" (file_type file) = true →
     5242880 < file_size file →
     Unified.uploadProfilePicture env file w
       = (Throw (Error "Image size must be less than 5MB"), w))
  ∧ (String.prefix "image/" (file_type file) = true →
     file_size file ≤ 5242880 →
     match file_dataURL file with
     | Some dataURL =>
         ∃ w', Unified.uploadProfilePicture env file w = (Normal dataURL, w')
               ∧ toasts w' = toasts w ++ [("Profile picture updated!", "success")]
     | None =>
         Unified.uploadProfilePicture env file w
           = (Throw (Error "Failed to read file"), w)
     end)
  ∧ match file_dataURL file with
    | Some dataURL =>
        ∃ w', SessionBased.uploadProfilePicture env file w = (Normal dataURL, w')
              ∧ toasts w' = toasts w ++ [("Profile picture updated!", "success")]
    | None =>
        SessionBased.uploadProfilePicture env file w
          = (Throw (Error "Failed to read file"), w)
    end.
Proof.
  unfold Unified.uploadProfilePicture, SessionBased.uploadProfilePicture.
  split; [|split; [|split]].
  - by intros ->.
  - intros -> Hsize. cbn [negb].
    replace (5 * 1024 * 1024 <? file_size file) with true; [done|].
    symmetry. apply Z.ltb_lt. lia.
  - intros -> Hsize. cbn [negb].
    replace (5 * 1024 * 1024 <? file_size file) with false
      by (symmetry; apply Z.ltb_ge; lia).
    destruct (file_dataURL file) as [dataURL|]; [|done].
    destruct (updateUserProfile_keeps_toasts env
                (VObj {["profilePicture" := VStr dataURL]}) w)
      as [(u & w1 & Hrun & Htoasts) _].
    unfold mbind, M_bind. rewrite Hrun. unfold_run. cbn.
    eexists. split; [done|]. cbn. by rewrite Htoasts.
  - destruct (file_dataURL file) as [dataURL|]; [|done].
    destruct (updateUserProfile_keeps_toasts env
                (VObj {["profilePicture" := VStr dataURL]}) w)
      as [_ (u & w1 & Hrun & Htoasts)].
    unfold mbind, M_bind. rewrite Hrun. unfold_run. cbn.
    eexists. split; [done|]. cbn. by rewrite Htoasts.
Qed.

Lemma X20_picture_validation_witness :
  let env := Reference.browser (Examples.reply_with 200 "{}") GeoFails 0 in
  let w := Examples.signed_in in
  let pdf := {| file_type := "application/pdf"; file_size := 10;
                file_dataURL := Some "data:application/pdf;base64,AA" |} in
  let limit := {| file_type := "image/png"; file_size := 5242880;
                  file_dataURL := Some "data:image/png;base64,AA" |} in
  let above := {| file_type := "image/png"; file_size := 5242881;
                  file_dataURL := Some "data:image/png;base64,AA" |} in
  Unified.uploadProfilePicture env pdf w
    = (Throw (Error "Please select an image file"), w)
  ∧ Unified.uploadProfilePicture env above w
    = (Throw (Error "Image size must be less than 5MB"), w)
  ∧ (∃ w', Unified.uploadProfilePicture env limit w
           = (Normal "data:image/png;base64,AA", w')
           ∧ toasts w' = toasts w ++ [("Profile picture updated!", "success")])
  ∧ (∃ w', SessionBased.uploadProfilePicture env pdf w
           = (Normal "data:application/pdf;base64,AA", w')
           ∧ toasts w' = toasts w ++ [("Profile picture updated!", "success")]).
Proof.
  intros env w pdf limit above.
  split; [apply (proj1 (X20_picture_validation env w pdf)); reflexivity|].
  split; [apply (proj1 (proj2 (X20_picture_validation env w above)));
          [reflexivity|cbn; lia]|].
  split.
  - apply (proj1 (proj2 (proj2 (X20_picture_validation env w limit))));
      [reflexivity|cbn; lia].
  - apply (proj2 (proj2 (proj2 (X20_picture_validation env w pdf)))).
Defined.



(** ** Dark mode *)

Lemma logout_keeps_other_entries env w k :
  k ∉ ["solosafe_user"; "solosafe_token"; "solosafe_trips"; "solosafe_temp_signup"] →
  localStorage (snd (Unified.logout env w)) !! k = localStorage w !! k
  ∧ localStorage (snd (SessionBased.logout w)) !! k = localStorage w !! k.
Proof.
  intros Hk.
  assert (k ≠ "solosafe_user" ∧ k ≠ "solosafe_token" ∧ k ≠ "solosafe_trips"
          ∧ k ≠ "solosafe_temp_signup") as (? & ? & ? & ?).
  { repeat split; intros ->; apply Hk; rewrite !elem_of_cons; auto. }
  split.
  - destruct (getAuthToken_total env w) as (token & Ht & _).
    rewrite (unified_logout_run env w token Ht). cbn.
    rewrite !lookup_delete_ne by done. by destruct (truthy token).
  - unfold SessionBased.logout. unfold_run. cbn.
    by rewrite !lookup_delete_ne by done.
Qed.

Lemma initializeDarkMode_run doc w :
  initializeDarkMode doc w
  = (Normal (if item_is (localStorage w !! "solosafe_dark_mode") "true"
             then {| dark_mode := true; elements := elements doc |}
             else doc), w).
Proof. reflexivity. Qed.

(** X22. The dark-mode switch is remembered: after [toggleDarkMode] the
    next page that loads without the class comes up in the mode just
    chosen, also when the user logged out in between, with either
    script. *)
Theorem X22_dark_mode_is_remembered env doc w :
  ∃ w1,
    toggleDarkMode doc w
      = (Normal {| dark_mode := negb (dark_mode doc); elements := elements doc |}, w1)
    ∧ ∀ w2 page,
        w2 ∈ [w1; snd (Unified.logout env w1); snd (SessionBased.logout w1)] →
        dark_mode page = false →
        initializeDarkMode page w2
          = (Normal {| dark_mode := negb (dark_mode doc); elements := elements page |},
             w2).
Proof.
  eexists. split; [reflexivity|].
  intros w2 [dark els] Hin. cbn [dark_mode elements]. intros ->.
  set (w1 := with_toast _ _) in Hin.
  assert (localStorage w1 !! "solosafe_dark_mode"
          = Some (if negb (dark_mode doc) then "true" else "false")) as Hflag.
  { cbn. by rewrite lookup_insert_eq. }
  assert (localStorage w2 !! "solosafe_dark_mode"
          = Some (if negb (dark_mode doc) then "true" else "false")) as Hw2.
  { destruct (logout_keeps_other_entries env w1 "solosafe_dark_mode")
      as [Hu Hs]; [by rewrite !elem_of_cons, elem_of_nil; intros [|[|[|[|]]]]|].
    rewrite !elem_of_cons, elem_of_nil in Hin.
    destruct Hin as [->|[->|[->|[]]]]; by rewrite ?Hu, ?Hs. }
  rewrite initializeDarkMode_run, Hw2. by destruct (dark_mode doc).
Qed.

Lemma X22_dark_mode_is_remembered_witness :
  let env := Reference.browser (Examples.reply_with 200 "{}") GeoFails 0 in
  let light := {| dark_mode := false; elements := ∅ |} in
  let dark := {| dark_mode := true; elements := ∅ |} in
  ∃ w1, toggleDarkMode light Examples.signed_in = (Normal dark, w1)
        ∧ initializeDarkMode light (snd (Unified.logout env w1))
          = (Normal dark, snd (Unified.logout env w1)).
Proof.
  intros env light dark.
  destruct (X22_dark_mode_is_remembered env light Examples.signed_in)
    as (w1 & Hrun & Hnext).
  exists w1. split; [exact Hrun|].
  apply (Hnext (snd (Unified.logout env w1)) light); [|reflexivity].
  rewrite !elem_of_cons. auto.
Defined.

(** ** The page gate *)






(** X24. A failed sign-in callback on a protected page sends the visitor
    to [login.html] twice: the callback schedules its redirect after
    20 s, and the page gate, finding the session removed, adds the
    warning and its own redirect after 1 s. *)
Theorem X24_failed_callback_on_protected_page env page doc w T :
  snd <$> List.find (λ p, String.eqb (fst p) "token") (location_search w) = Some T →
  T ≠ "" →
  profile_rejected env →
  isProtectedPage page = true →
  ∃ loaded w',
    Unified.DOMContentLoaded env page doc w = (Normal loaded, w')
    ∧ toasts w' = toasts w ++ [("Authentication failed. Please try again.", "error");
                               ("Please login first", "warning")]
    ∧ timeouts w' = timeouts w ++ [(Navigate "login.html", 20000);
                                   (Navigate "login.html", 1000)]
    ∧ Unified.getCurrentUser env w' = (Normal VNull, w').
Proof.
  intros Hq HT Hrej Hpage.
  destruct (handleGoogleCallback_rejected env w T Hq HT Hrej)
    as (w1 & Hcb & Hst & _ & Htoasts & Htimeouts & _).
  assert (guarded (localStorage w1 !! "solosafe_user") = true) as Hg.
  { rewrite Hst, lookup_delete_eq. by apply guarded_spec; left. }
  unfold Unified.DOMContentLoaded, initializeDarkMode.
  unfold mbind, M_bind, mret, M_ret, localStorage_getItem. cbv beta iota.
  rewrite Hcb, Hpage. cbv beta iota.
  rewrite (getCurrentUser_guarded env w1 Hg).
  unfold showToast, setTimeout. cbn.
  eexists _, _. split; [done|]. cbn.
  rewrite Htoasts, Htimeouts, <- !app_assoc. do 2 (split; [done|]).
  apply getCurrentUser_guarded. by cbn.
Qed.

Lemma X24_failed_callback_on_protected_page_witness :
  let env := Reference.browser (Examples.reply_with 403 "") GeoFails 0 in
  let w := Reference.page ∅ [("token", "NEW")] in
  let doc := {| dark_mode := false; elements := ∅ |} in
  ∃ w', Unified.DOMContentLoaded env "/dashboard.html" doc w = (Normal doc, w')
        ∧ timeouts w' = [(Navigate "login.html", 20000);
                         (Navigate "login.html", 1000)].
Proof.
  intros env w doc.
  destruct (X24_failed_callback_on_protected_page env "/dashboard.html" doc w "NEW"
              eq_refl ltac:(discriminate))
    as (loaded & w' & Hrun & _ & Htime & _).
  { intros token response [= <-]. reflexivity. }
  { reflexivity. }
  exists w'. split; [|exact Htime].
  rewrite Hrun. f_equal. f_equal.
  apply (f_equal fst) in Hrun. vm_compute in Hrun. by injection Hrun as <-.
Defined.

Lemma has_element_assign id id' v doc :
  id ≠ id' → has_element id (assign id' v doc) = has_element id doc.
Proof.
  intros Hne. unfold has_element, assign. cbn. by rewrite lookup_insert_ne.
Qed.

Lemma has_element_lookup id doc :
  has_element id doc = false → elements doc !! id = None.
Proof.
  unfold has_element. intros Hno. apply bool_decide_eq_false in Hno.
  by apply eq_None_not_Some.
Qed.

Lemma js_or_l a b : truthy a = true → js_or a b = a.
Proof. unfold js_or. by intros ->. Qed.

(** The page that a signed-in user with a [name] gets: the greeting and
    the header carry the name, and no element is created. *)
Lemma updateUIWithUserData_shows_name env w (user : gmap string value) name doc :
  Unified.getCurrentUser env w = (Normal (VObj user), w) →
  user !! "name" = Some name →
  truthy name = true →
  ∃ shown,
    Unified.updateUIWithUserData env (VObj user) doc w = (Normal shown, w)
    ∧ dark_mode shown = dark_mode doc
    ∧ (has_element "welcomeMessage" doc = true →
       elements shown !! "welcomeMessage"
       = Some (VStr ("Welcome back, " +:+ ToString name +:+ "!")))
    ∧ (has_element "headerUserName" doc = true →
       elements shown !! "headerUserName" = Some name)
    ∧ (∀ id, has_element id doc = false → elements shown !! id = None).
Proof.
  intros Hu Hname Htr.
  pose proof (unified_welcome_run env w user Hu) as Hwelcome.
  cbv zeta in Hwelcome. rewrite Hname in Hwelcome. cbn in Hwelcome.
  rewrite Htr in Hwelcome. cbn in Hwelcome.
  unfold Unified.updateUIWithUserData.
  assert (get (VObj user) "name" = Normal name) as Hget by (cbn; by rewrite Hname).
  destruct (has_element "welcomeMessage" doc) eqn:Hwm;
    destruct (has_element "headerUserName" doc) eqn:Hhn;
    destruct (has_element "headerUserEmail" doc) eqn:Hhe;
    destruct (has_element "headerProfilePic" doc) eqn:Hhp.
  all: unfold mbind, M_bind, mret, M_ret, lift; rewrite ?Hwelcome.
  all: repeat (cbn -[has_element assign js_or];
               rewrite ?has_element_assign, ?Hhn, ?Hhe, ?Hhp, ?Hname by done).
  all: cbn -[has_element assign]; rewrite ?(js_or_l name), ?(js_or_l name) by done.
  all: try destruct (truthy (default VUndefined (user !! "profilePicture"))).
  all: eexists; (split; [reflexivity|]); (split; [reflexivity|]).
  all: cbn.
  all: split; [intros; try done; by rewrite ?lookup_insert_ne, ?lookup_insert_eq by done|].
  all: split; [intros; try done; by rewrite ?lookup_insert_ne, ?lookup_insert_eq by done|].
  all: intros id Hid;
    repeat (rewrite lookup_insert_ne; [|intros <-; congruence]);
    by apply has_element_lookup.
Qed.

Lemma getAuthToken_or_provisional env w :
  ∃ token,
    Unified.getAuthToken env w = (Normal token, w)
    ∧ (truthy token = true
       ∨ token = item_or_null (localStorage w !! "solosafe_token")).
Proof.
  unfold Unified.getAuthToken. unfold_run.
  destruct (present (localStorage w !! "solosafe_user") && _ && _); [|by eauto].
  destruct (JSON_parse env _) as [d|]; [|by eauto].
  destruct (get d "token") as [t|e]; [|by eauto].
  destruct (truthy t) eqn:Ht; by eauto.
Qed.

(** The credential that [fetchUserProfile] finds during a callback: with
    the provisional token [T] in storage there always is one; it is [T]
    when no session record is stored, and the credential of the stored
    record when that has one. *)
Lemma callback_credential env w T :
  T ≠ "" →
  let w1 := with_localStorage <["solosafe_token" := T]> w in
  ∃ token,
    Unified.getAuthToken env w1 = (Normal token, w1)
    ∧ truthy token = true
    ∧ (guarded (localStorage w !! "solosafe_user") = true → token = VStr T)
    ∧ (∀ s data old,
         localStorage w !! "solosafe_user" = Some s →
         guarded (Some s) = false →
         JSON_parse env s = Some data →
         get data "token" = Normal old →
         truthy old = true →
         token = old).
Proof.
  intros HT w1.
  assert (localStorage w1 !! "solosafe_user" = localStorage w !! "solosafe_user")
    as Hsame by (cbn; by rewrite lookup_insert_ne).
  assert (item_or_null (localStorage w1 !! "solosafe_token") = VStr T) as Hnew.
  { cbn. rewrite lookup_insert_eq. unfold item_or_null. by rewrite present_Some. }
  assert (truthy (VStr T) = true) as HtrT
    by (cbn; by apply negb_true_iff, String.eqb_neq).
  destruct (getAuthToken_or_provisional env w1) as (token & Ht & Htruthy).
  exists token. split; [done|].
  assert (truthy token = true) as Htr.
  { destruct Htruthy as [?| ->]; [done|]. by rewrite Hnew. }
  split; [done|]. split.
  - intros Hg. rewrite getAuthToken_guarded in Ht by (by rewrite Hsame).
    rewrite Hnew in Ht. by injection Ht as <-.
  - intros s data old Hs Hg Hp Hold Htrold.
    rewrite (getAuthToken_session env w1 s data old) in Ht; try done.
    + by injection Ht as <-.
    + by rewrite Hsame.
Qed.

(** A callback carrying the token [T] whose profile fetch succeeds,
    whatever the page held before: the profile is fetched and stored
    with the credential [getAuthToken] finds once [T] is in storage. *)
Lemma handleGoogleCallback_accepted env w T token response userData :
  snd <$> List.find (λ p, String.eqb (fst p) "token") (location_search w) = Some T →
  T ≠ "" →
  let w1 := with_localStorage <["solosafe_token" := T]> w in
  Unified.getAuthToken env w1 = (Normal token, w1) →
  truthy token = true →
  fetch_reply env (fst (profile_request token)) (snd (profile_request token))
    = Some response →
  ok response = true →
  JSON_parse env (body response) = Some userData →
  let session := VObj (<["token":=token]> (spread userData)) in
  ∃ w', Unified.handleGoogleCallback env w = (Normal true, w')
        ∧ localStorage w' !! "solosafe_user" = Some (JSON_stringify env session)
        ∧ localStorage w' !! "solosafe_token" = None
        ∧ location_search w' = []
        ∧ timeouts w' = timeouts w
        ∧ requests w' = requests w ++ [profile_request token].
Proof.
  intros Hq HT w1 Ht Htr Hr Hok Hp session.
  pose proof (fetchUserProfile_stores env w1 token response userData
                Ht Htr Hr Hok Hp) as Hfetch.
  unfold Unified.handleGoogleCallback.
  unfold mbind at 1, M_bind at 1, URLSearchParams_get at 1. rewrite Hq.
  rewrite present_Some by done. cbn [negb default].
  unfold try_catch at 1. unfold mbind at 1, M_bind at 1, localStorage_setItem at 1.
  change (with_localStorage <["solosafe_token":=id T]> w) with w1.
  unfold mbind at 1, M_bind at 1. rewrite Hfetch. cbn zeta.
  unfold_run. cbn.
  eexists. split; [done|]. cbn.
  split; [|split; [|done]].
  - by rewrite lookup_delete_ne, lookup_insert_eq.
  - by rewrite lookup_delete_eq.
Qed.

(** X25. A sign-in callback that the backend accepts opens a protected
    page in the same load, whatever the page held before: no redirect
    is scheduled, the token leaves the URL, and the fetched profile is
    the session from then on, its name shown in the greeting and the
    header. Its credential is the one the profile was fetched with:
    the token of the URL when no session record was stored, and the
    credential of the stored record when that had one. (The stored
    record reads back through JSON.parse as written, and the profile
    carries a [name] and no truthy [user] field.) *)
Theorem X25_callback_opens_protected_page
    env page doc w T token response userData name :
  standard_JSON env →
  snd <$> List.find (λ p, String.eqb (fst p) "token") (location_search w) = Some T →
  T ≠ "" →
  Unified.getAuthToken env (with_localStorage <["solosafe_token" := T]> w)
    = (Normal token, with_localStorage <["solosafe_token" := T]> w) →
  fetch_reply env (fst (profile_request token)) (snd (profile_request token))
    = Some response →
  ok response = true →
  JSON_parse env (body response) = Some userData →
  let session : gmap string value := <["token":=token]> (spread userData) in
  JSON_parse env (JSON_stringify env (VObj session)) = Some (VObj session) →
  truthy (default VUndefined (session !! "user")) = false →
  session !! "name" = Some name →
  truthy name = true →
  isProtectedPage page = true →
  (∃ shown w',
     Unified.DOMContentLoaded env page doc w = (Normal shown, w')
     ∧ timeouts w' = timeouts w
     ∧ location_search w' = []
     ∧ Unified.getCurrentUser env w' = (Normal (VObj session), w')
     ∧ Unified.getAuthToken env w' = (Normal token, w')
     ∧ (has_element "welcomeMessage" doc = true →
        elements shown !! "welcomeMessage"
        = Some (VStr ("Welcome back, " +:+ ToString name +:+ "!")))
     ∧ (has_element "headerUserName" doc = true →
        elements shown !! "headerUserName" = Some name))
  ∧ (guarded (localStorage w !! "solosafe_user") = true → token = VStr T)
  ∧ (∀ s data old,
       localStorage w !! "solosafe_user" = Some s →
       guarded (Some s) = false →
       JSON_parse env s = Some data →
       get data "token" = Normal old →
       truthy old = true →
       token = old).
Proof.
  intros Hstd Hq HT Ht Hr Hok Hp session Hround Hflat Hname Htr Hpage.
  destruct (callback_credential env w T HT) as (token' & Ht' & Htruthy & Hnew & Hold).
  rewrite Ht in Ht'. injection Ht' as <-.
  split; [|by split].
  destruct (handleGoogleCallback_accepted env w T token response userData
              Hq HT Ht Htruthy Hr Hok Hp)
    as (w1 & Hcb & Hstored & _ & Hsearch & Htimeouts & _).
  fold session in Hstored.
  assert (guarded (Some (JSON_stringify env (VObj session))) = false) as Hg
    by (by eapply parsed_object_not_guarded).
  assert (Unified.getCurrentUser env w1 = (Normal (VObj session), w1)) as Hu.
  { by apply (getCurrentUser_flat env w1 (JSON_stringify env (VObj session))
                (VObj session) (default VUndefined (session !! "user"))). }
  assert (Unified.getAuthToken env w1 = (Normal token, w1)) as Hcredential.
  { apply (getAuthToken_session env w1 (JSON_stringify env (VObj session))
             (VObj session) token); try done.
    cbn. unfold session. by rewrite lookup_insert_eq. }
  set (loaded := if item_is (localStorage w !! "solosafe_dark_mode") "true"
                 then {| dark_mode := true; elements := elements doc |}
                 else doc).
  assert (∀ id, has_element id loaded = has_element id doc) as Hsame.
  { intros id. unfold loaded. by destruct (item_is _ _). }
  destruct (updateUIWithUserData_shows_name env w1 session name loaded Hu Hname Htr)
    as (shown & Hshown & _ & Hwelcome & Hheader & _).
  rewrite !Hsame in *.
  unfold Unified.DOMContentLoaded, initializeDarkMode.
  unfold mbind, M_bind, mret, M_ret, localStorage_getItem. cbv beta iota.
  rewrite Hcb, Hpage. cbv beta iota. rewrite Hu. cbn [truthy negb].
  fold loaded. rewrite Hshown. by eexists _, _.
Qed.

Lemma X25_callback_opens_protected_page_witness :
  let env := CallbackExample.env in
  let doc := {| dark_mode := false;
                elements := {["welcomeMessage" := VStr "";
                              "headerUserName" := VStr ""]} |} in
  (∃ shown w',
     Unified.DOMContentLoaded env "/dashboard.html" doc CallbackExample.fresh_page
       = (Normal shown, w')
     ∧ timeouts w' = []
     ∧ Unified.getAuthToken env w' = (Normal (VStr "NEW"), w')
     ∧ elements shown !! "welcomeMessage" = Some (VStr "Welcome back, New User!")
     ∧ elements shown !! "headerUserName" = Some (VStr "New User"))
  ∧ (∃ shown w',
       Unified.DOMContentLoaded env "/dashboard.html" doc CallbackExample.stale_session
         = (Normal shown, w')
       ∧ timeouts w' = []
       ∧ Unified.getAuthToken env w' = (Normal (VStr "OLD"), w')
       ∧ elements shown !! "welcomeMessage" = Some (VStr "Welcome back, Old User!")
       ∧ elements shown !! "headerUserName" = Some (VStr "Old User")).
Proof.
  intros env doc. split.
  - destruct (X25_callback_opens_protected_page env "/dashboard.html" doc
                CallbackExample.fresh_page "NEW" (VStr "NEW")
                {| status := 200; body := Examples.json "{'name':'New User'}" |}
                (VObj {["name" := VStr "New User"]}) (VStr "New User"))
      as ((shown & w' & Hrun & Htime & _ & _ & Hcredential & Hwelcome & Hheader) & _);
      try (vm_compute; reflexivity); try (repeat split; vm_compute; reflexivity).
    { discriminate. }
    exists shown, w'. split; [exact Hrun|]. split; [exact Htime|].
    split; [exact Hcredential|].
    split; [apply Hwelcome|apply Hheader]; vm_compute; reflexivity.
  - destruct (X25_callback_opens_protected_page env "/dashboard.html" doc
                CallbackExample.stale_session "NEW" (VStr "OLD")
                {| status := 200; body := Examples.json "{'name':'Old User'}" |}
                (VObj {["name" := VStr "Old User"]}) (VStr "Old User"))
      as ((shown & w' & Hrun & Htime & _ & _ & Hcredential & Hwelcome & Hheader) & _);
      try (vm_compute; reflexivity); try (repeat split; vm_compute; reflexivity).
    { discriminate. }
    exists shown, w'. split; [exact Hrun|]. split; [exact Htime|].
    split; [exact Hcredential|].
    split; [apply Hwelcome|apply Hheader]; vm_compute; reflexivity.
Defined.

(** ** The location watch *)

Lemma watch_cleared (id : nat) (watches : gset nat) :
  id ∉ watches → ({[id]} ∪ watches) ∖ {[id]} = watches.
Proof.
  intros Hid. apply set_eq. intros x.
  rewrite elem_of_difference, elem_of_union, !elem_of_singleton. split.
  - by intros [[->|?] ?].
  - intros Hx. split; [by right|]. by intros ->.
Qed.

(** X26. Stopping the location watch clears the watch that was started,
    but starting it twice leaves the first watch running with no handle
    to it: the stop that follows clears the second only, and any further
    stop does nothing. *)
Theorem X26_location_watches env tracking w :
  geolocation env ≠ GeoUnsupported →
  (∀ id, id ∈ running tracking → (id < next_watch tracking)%nat) →
  let enabled := with_toast ("Location tracking enabled", "success") in
  let disabled := with_toast ("Location tracking disabled", "info") in
  let n := next_watch tracking in
  (t ← startLocationTracking env tracking; stopLocationTracking t) w
    = (Normal {| watchId := None; running := running tracking; next_watch := S n |},
       disabled (enabled w))
  ∧ (t ← startLocationTracking env tracking;
     t ← startLocationTracking env t;
     stopLocationTracking t) w
    = (Normal {| watchId := None; running := {[n]} ∪ running tracking;
                 next_watch := S (S n) |},
       disabled (enabled (enabled w)))
  ∧ ∀ stopped w', watchId stopped = None →
                  stopLocationTracking stopped w' = (Normal stopped, w').
Proof.
  intros Hgeo Hfresh enabled disabled n.
  assert (n ∉ running tracking) as Hn by (intros Hin; apply Hfresh in Hin; lia).
  assert (S n ∉ running tracking) as HSn
    by (intros Hin; apply Hfresh in Hin; unfold n in Hin; lia).
  assert (S n ∉ ({[n]} ∪ running tracking : gset nat)) as HSn'.
  { rewrite elem_of_union, elem_of_singleton. intros [?|?]; [lia|done]. }
  unfold startLocationTracking, stopLocationTracking.
  split; [|split].
  - destruct (geolocation env); [done| |]; unfold_run; cbn;
      fold n; by rewrite (watch_cleared n _ Hn).
  - destruct (geolocation env); [done| |]; unfold_run; cbn;
      fold n; by rewrite (watch_cleared (S n) _ HSn').
  - by intros stopped w' ->.
Qed.

Lemma X26_location_watches_witness :
  let env := Reference.browser (Examples.reply_with 200 "{}") GeoFails 0 in
  let idle := {| watchId := None; running := ∅; next_watch := 1 |} in
  (t ← startLocationTracking env idle;
   t ← startLocationTracking env t;
   stopLocationTracking t) Examples.signed_in
  = (Normal {| watchId := None; running := {[1%nat]} ∪ ∅; next_watch := 3 |},
     with_toast ("Location tracking disabled", "info")
       (with_toast ("Location tracking enabled", "success")
          (with_toast ("Location tracking enabled", "success") Examples.signed_in))).
Proof.
  intros env idle.
  refine (proj1 (proj2 (X26_location_watches env idle Examples.signed_in _ _))).
  - discriminate.
  - intros id Hin. cbn in Hin. by apply elem_of_empty in Hin.
Defined.

(** ** Contacts and the end of a trip *)

Lemma sendNotification_run env title text w :
  sendNotification env title text w = (Normal (), notified env title text w).
Proof.
  unfold sendNotification, notified.
  by destruct (Notification_permission env) as [[| |]|].
Qed.

(** X27. [addContact], once the gateway has handed over a reply with a
    readable body: a refusal gives [null] and no word to the user; an
    acceptance gives the success toast, the notification naming the
    contact, and the reply's [trip]. Called with [null] or [undefined]
    as contact, an accepted call shows the success toast and then the
    failure toast, and returns [null]. *)
Theorem X27_addContact_outcome env tripId contact w w' response data :
  JSON_parse env (body response) = Some data →
  let added := with_toast ("Emergency contact added", "success") w' in
  let outcome :=
    if ok response then
      match get contact "name", get data "trip" with
      | Normal name, Normal trip =>
          (Normal trip,
           notified env "Contact Added"
             (ToString name +:+ " added as emergency contact") added)
      | Normal name, Throw _ =>
          (Normal VNull,
           with_toast ("Failed to add contact", "error")
             (notified env "Contact Added"
                (ToString name +:+ " added as emergency contact") added))
      | Throw _, _ =>
          (Normal VNull, with_toast ("Failed to add contact", "error") added)
      end
    else (Normal VNull, w') in
  (Unified.authenticatedFetch env
     (API_BASE_URL +:+ "/trips/" +:+ ToString tripId +:+ "/contacts")
     (json_request "PUT" (stringify_body env contact)) w
     = (Normal (Some response), w') →
   Unified.addContact env tripId contact w = outcome
   ∧ (ok response = true → contact = VNull ∨ contact = VUndefined →
      Unified.addContact env tripId contact w
      = (Normal VNull, with_toast ("Failed to add contact", "error") added)))
  ∧ (SessionBased.authenticatedFetch env
       ("https://solosafe-backend.onrender.com/api/trips/" +:+ ToString tripId
          +:+ "/contacts")
       (json_request "PUT" (stringify_body env contact)) w
       = (Normal (Some response), w') →
     SessionBased.addContact env tripId contact w = outcome).
Proof.
  intros Hp added outcome. unfold outcome, added, json_request.
  assert (∀ title text w0,
            sendNotification env title text w0
            = (Normal (), notified env title text w0)) as Hsend
    by (intros; apply sendNotification_run).
  split; intros Hgate; [split; [|intros Hok Hnull]|];
    unfold Unified.addContact, SessionBased.addContact;
    unfold try_catch at 1; unfold mbind at 1, M_bind at 1;
    rewrite Hgate; unfold_run; cbn; rewrite Hp; cbn.
  - destruct (ok response); [|done]. cbn.
    destruct (get contact "name") as [name|]; [|done]. rewrite Hsend.
    by destruct (get data "trip").
  - rewrite Hok. cbn. by destruct Hnull as [-> | ->].
  - destruct (ok response); [|done]. cbn.
    destruct (get contact "name") as [name|]; [|done]. rewrite Hsend.
    by destruct (get data "trip").
Qed.

Lemma X27_addContact_outcome_witness :
  let env := Reference.browser
               (Examples.reply_with 200 (Examples.json "{'trip':{'id':7}}"))
               GeoFails 0 in
  ∃ w', Unified.addContact env (VNum 7) VNull Examples.signed_in = (Normal VNull, w')
        ∧ toasts w' = [("Emergency contact added", "success");
                       ("Failed to add contact", "error")]
        ∧ length (requests w') = 1%nat.
Proof.
  intros env.
  set (gate :=
         Unified.authenticatedFetch env
           (API_BASE_URL +:+ "/trips/" +:+ ToString (VNum 7) +:+ "/contacts")
           (json_request "PUT" (stringify_body env VNull)) Examples.signed_in).
  set (reply := {| status := 200; body := Examples.json "{'trip':{'id':7}}" |}).
  assert (gate = (Normal (Some reply), snd gate)) as Hgate
    by (vm_compute; reflexivity).
  assert (JSON_parse env (body reply)
          = Some (VObj {["trip" := VObj {["id" := VNum 7]}]}))
    as Hparse by (vm_compute; reflexivity).
  rewrite (proj2 (proj1 (X27_addContact_outcome env (VNum 7) VNull
                           Examples.signed_in (snd gate) reply _ Hparse) Hgate)
                 eq_refl (or_introl eq_refl)).
  exists (with_toast ("Failed to add contact", "error")
            (with_toast ("Emergency contact added", "success") (snd gate))).
  split; [reflexivity|]. split; vm_compute; reflexivity.
Defined.

(** X28. [endTrip], once the gateway has handed over a reply with a
    readable body: only a 2xx reply with a truthy [trip] ends the trip
    for the user, with the success toast and the notification; a
    refusal, or an acceptance without [trip], returns [null] and shows
    nothing at all. *)
Theorem X28_endTrip_outcome env tripId w w' response (o : gmap string value) :
  JSON_parse env (body response) = Some (VObj o) →
  let trip := default VUndefined (o !! "trip") in
  let outcome text :=
    if ok response && truthy trip
    then (Normal trip,
          notified env "Trip Completed" text
            (with_toast ("Trip completed successfully", "success") w'))
    else (Normal VNull, w') in
  (Unified.authenticatedFetch env
     (API_BASE_URL +:+ "/trips/" +:+ ToString tripId +:+ "/end")
     (json_request "PUT" None) w
     = (Normal (Some response), w') →
   Unified.endTrip env tripId w = outcome "Your trip has ended safely")
  ∧ (SessionBased.authenticatedFetch env
       ("https://solosafe-backend.onrender.com/api/trips/" +:+ ToString tripId
          +:+ "/end")
       (json_request "PUT" None) w
       = (Normal (Some response), w') →
     SessionBased.endTrip env tripId w = outcome "Your trip has ended").
Proof.
  intros Hp trip outcome. unfold outcome, json_request.
  assert (∀ title text w0,
            sendNotification env title text w0
            = (Normal (), notified env title text w0)) as Hsend
    by (intros; apply sendNotification_run).
  split; intros Hgate;
    unfold Unified.endTrip, SessionBased.endTrip;
    unfold try_catch at 1; unfold mbind at 1, M_bind at 1;
    rewrite Hgate; unfold_run; cbn; rewrite Hp; cbn; fold trip;
    (destruct (ok response); [|done]); cbn;
    (destruct (truthy trip); [|done]); cbn; by rewrite Hsend.
Qed.

Lemma X28_endTrip_outcome_witness :
  let env := Reference.browser
               (Examples.reply_with 200 (Examples.json "{'message':'already ended'}"))
               GeoFails 0 in
  ∃ w', Unified.endTrip env (VNum 7) Examples.signed_in = (Normal VNull, w')
        ∧ toasts w' = []
        ∧ notifications w' = [].
Proof.
  intros env.
  set (gate :=
         Unified.authenticatedFetch env
           (API_BASE_URL +:+ "/trips/" +:+ ToString (VNum 7) +:+ "/end")
           (json_request "PUT" None) Examples.signed_in).
  set (reply := {| status := 200;
                   body := Examples.json "{'message':'already ended'}" |}).
  assert (gate = (Normal (Some reply), snd gate)) as Hgate
    by (vm_compute; reflexivity).
  assert (JSON_parse env (body reply)
          = Some (VObj {["message" := VStr "already ended"]}))
    as Hparse by (vm_compute; reflexivity).
  rewrite (proj1 (X28_endTrip_outcome env (VNum 7) Examples.signed_in
                    (snd gate) reply _ Hparse) Hgate).
  exists (snd gate). split; [|split]; vm_compute; reflexivity.
Defined.
